(** * ECAP accreditation backend

    A shallow embedding of [backend/app/models.py] and of the routes of
    [backend/app/routes/auth.py] and [backend/app/routes/admin.py], followed by
    the properties of the progress aggregate, the schema constraints, the
    ownership cascade, the JSON projections and the request handlers.

    Layout: Python values and builtins ([Py]), one module per model class,
    the database and the ORM operations on it ([Orm]), the request handlers
    ([Routes]), the review workflow ([Workflow]); the theorems come last. *)

From Stdlib Require Import ZArith List String Ascii Bool Lia.
From Stdlib Require Import PrimFloat FloatOps SpecFloat.
Import ListNotations.

#[local] Open Scope string_scope.
#[local] Open Scope list_scope.
#[local] Open Scope Z_scope.

(* ===================================================================== *)
(** * Python values and builtins *)
(* ===================================================================== *)

Module Py.

(** A parsed JSON document, as [request.get_json()] returns it and as
    [jsonify] accepts it.  A [dict] is an association list in insertion
    order; lookup returns the first binding of the key. *)
#[warnings="-register-all"]
Inductive json : Type :=
| JNull
| JBool (b : bool)
| JInt (n : Z)
| JFloat (x : float)
| JStr (s : string)
| JList (l : list json)
| JDict (d : list (string * json)).

Definition dict : Type := list (string * json).

(** [bool(v)]: the truth value Python's [not] and [or] test. *)
Definition truthy (v : json) : bool :=
  match v with
  | JNull => false
  | JBool b => b
  | JInt n => negb (n =? 0)
  | JFloat x => negb (PrimFloat.eqb x 0%float)
  | JStr s => negb (String.eqb s "")
  | JList l => match l with [] => false | _ :: _ => true end
  | JDict d => match d with [] => false | _ :: _ => true end
  end.

Fixpoint lookup (d : dict) (k : string) : option json :=
  match d with
  | [] => None
  | (k', v) :: d' => if String.eqb k' k then Some v else lookup d' k
  end.

(** [d.get(k)] and [d.get(k, default)]. *)
Definition get (d : dict) (k : string) : json :=
  match lookup d k with Some v => v | None => JNull end.

Definition get_default (d : dict) (k : string) (dflt : json) : json :=
  match lookup d k with Some v => v | None => dflt end.

(** [d[k] = v]: overwrite the binding in place, or append a new one. *)
Fixpoint setitem (d : dict) (k : string) (v : json) : dict :=
  match d with
  | [] => [(k, v)]
  | (k', v') :: d' =>
      if String.eqb k' k then (k', v) :: d' else (k', v') :: setitem d' k v
  end.

Definition keys (d : dict) : list string := map fst d.

(** A naive [datetime.datetime] (no time zone), as [datetime.utcnow()]
    returns it. *)
Record datetime : Type := mkDatetime {
  year : Z; month : Z; day : Z;
  hour : Z; minute : Z; second : Z; microsecond : Z
}.

(** The [w] low decimal digits of [n], zero padded. *)
Fixpoint zfill (w : nat) (n : Z) : string :=
  match w with
  | O => ""
  | S w' => (zfill w' (n / 10) ++ String (ascii_of_nat (Z.to_nat (48 + n mod 10))) "")%string
  end.

(** [datetime.isoformat()]: [YYYY-MM-DDTHH:MM:SS], followed by [.ffffff]
    when the microsecond field is not zero. *)
Definition isoformat (d : datetime) : string :=
  (zfill 4 (year d) ++ "-" ++ zfill 2 (month d) ++ "-" ++ zfill 2 (day d)
   ++ "T" ++ zfill 2 (hour d) ++ ":" ++ zfill 2 (minute d) ++ ":" ++ zfill 2 (second d)
   ++ (if Z.eqb (microsecond d) 0 then "" else "." ++ zfill 6 (microsecond d)))%string.

(** [x.isoformat() if x else None]; a [datetime] object is always true. *)
Definition isoformat_or_none (x : option datetime) : json :=
  match x with Some d => JStr (isoformat d) | None => JNull end.

Definition bool_or_none (x : option bool) : json :=
  match x with Some b => JBool b | None => JNull end.

Definition int_or_none (x : option Z) : json :=
  match x with Some n => JInt n | None => JNull end.

Definition str_or_none (x : option string) : json :=
  match x with Some s => JStr s | None => JNull end.

(** ** Floats

    A Python [float] is an IEEE 754 binary64 number: Rocq's primitive
    [float].  An [int] enters float arithmetic through its exact value. *)

Definition Z2SF (z : Z) : spec_float :=
  match z with
  | Z0 => S754_zero false
  | Zpos p => S754_finite false p 0
  | Zneg p => S754_finite true p 0
  end.

(** [a / b] on two [int]s: the quotient of the exact values, rounded once
    to the nearest double (ties to even).  The caller guards [b <> 0];
    Python raises [OverflowError] where the quotient leaves the double range,
    which needs [|a| >= 2^1024] and is beyond any [Integer] column. *)
Definition truediv (a b : Z) : float :=
  SF2Prim (SFdiv prec emax (Z2SF a) (Z2SF b)).

(** The integer nearest to [num / den], ties to even ([0 <= num], [0 < den]). *)
Definition round_half_even (num den : Z) : Z :=
  let q := num / den in
  let r := num mod den in
  match 2 * r ?= den with
  | Lt => q
  | Gt => q + 1
  | Eq => if Z.even q then q else q + 1
  end.

(** [round(x, ndigits)] for [0 <= ndigits]: the exact binary value of [x] is
    rounded to [ndigits] decimal places, ties to even, and the decimal result
    is converted back to the nearest double.  Zeros, infinities, NaN and
    doubles that are integers are returned as they are. *)
Definition round (x : float) (ndigits : nat) : float :=
  match Prim2SF x with
  | S754_finite s m e =>
      if 0 <=? e then x
      else
        let scale := 10 ^ Z.of_nat ndigits in
        let n := round_half_even (Zpos m * scale) (2 ^ (- e)) in
        if n =? 0 then SF2Prim (S754_zero s)
        else SF2Prim (SFdiv prec emax (Z2SF (if s then - n else n)) (Z2SF scale))
  | _ => x
  end.

(** ** Exceptions

    The exceptions the code and its collaborators raise. *)
Inductive Exn : Type :=
| AttributeError      (* [.get] on a value that is not a dict *)
| KeyError            (* [d[k]] on a missing key *)
| TypeError           (* bcrypt on a non-string; a non-boolean in a Boolean column *)
| ValueError          (* bcrypt on a malformed hash *)
| InterfaceError      (* the driver cannot bind a value *)
| IntegrityError      (* a constraint of the schema is violated *)
| OperationalError    (* the storage collaborator is unavailable *)
| ObjectDeletedError  (* a refreshed row is gone *)
| JWTError.           (* the token collaborator fails *)

End Py.

(* ===================================================================== *)
(** * models.py *)
(* ===================================================================== *)

(** A column declared [nullable=False] (or a primary key) has the type of its
    values; any other column is an [option], [None] being SQL [NULL]. *)

Module User.

Record t : Type := mk {
  id : Z;
  email : string;
  password_hash : string;
  name : string;
  position_in_school : string;
  is_admin : option bool;
  is_active : option bool;
  created_at : option Py.datetime;
  updated_at : option Py.datetime;
  last_login : option Py.datetime;
  password_reset_token : option string;
  email_verified : option bool
}.

(** [email = db.Column(db.String(120), unique=True, ...)]. *)
Definition unique_email (row : t) (tbl : list t) : bool :=
  negb (existsb (fun r => String.eqb (email r) (email row)) tbl).

Definition table_args : list (t -> list t -> bool) := [unique_email].

Definition set_id (i : Z) (u : t) : t :=
  mk i (email u) (password_hash u) (name u) (position_in_school u) (is_admin u)
     (is_active u) (created_at u) (updated_at u) (last_login u)
     (password_reset_token u) (email_verified u).

(** [to_dict(self)]: the JSON projection of a user. *)
Definition to_dict (self : t) : Py.dict :=
  [ ("id", Py.JInt (id self));
    ("email", Py.JStr (email self));
    ("name", Py.JStr (name self));
    ("position_in_school", Py.JStr (position_in_school self));
    ("is_admin", Py.bool_or_none (is_admin self));
    ("is_active", Py.bool_or_none (is_active self));
    ("created_at", Py.isoformat_or_none (created_at self));
    ("last_login", Py.isoformat_or_none (last_login self));
    ("email_verified", Py.bool_or_none (email_verified self)) ].

End User.

Module Accreditation.

Record t : Type := mk {
  id : Z;
  name : string;
  year : Z;
  description : option string;
  created_by : Z;
  created_at : option Py.datetime;
  updated_at : option Py.datetime;
  is_active : option bool
}.

End Accreditation.

Module Program.

Record t : Type := mk {
  id : Z;
  name : string;
  description : option string;
  due_date : Py.datetime;
  accreditation_id : Z;
  created_at : option Py.datetime;
  updated_at : option Py.datetime;
  is_active : option bool
}.

End Program.

Module Area.

Record t : Type := mk {
  id : Z;
  name : string;
  description : option string;
  program_id : Z;
  chairperson_id : option Z;
  created_at : option Py.datetime;
  updated_at : option Py.datetime;
  is_active : option bool
}.

End Area.

(** The model class [Parameter] ([Param] here: the name is reserved). *)
Module Param.

Record t : Type := mk {
  id : Z;
  name : string;
  description : option string;
  area_id : Z;
  assigned_member_id : option Z;
  created_at : option Py.datetime;
  updated_at : option Py.datetime;
  is_active : option bool
}.

End Param.

Module AccreditationMember.

Record t : Type := mk {
  id : Z;
  accreditation_id : Z;
  user_id : Z;
  added_by : Z;
  added_at : option Py.datetime;
  is_active : option bool
}.

(** [__table_args__]:
    [UniqueConstraint('accreditation_id', 'user_id', name='unique_accreditation_member')]. *)
Definition unique_accreditation_member (row : t) (tbl : list t) : bool :=
  negb (existsb (fun r => Z.eqb (accreditation_id r) (accreditation_id row)
                          && Z.eqb (user_id r) (user_id row)) tbl).

Definition table_args : list (t -> list t -> bool) := [unique_accreditation_member].

Definition set_id (i : Z) (m : t) : t :=
  mk i (accreditation_id m) (user_id m) (added_by m) (added_at m) (is_active m).

(** Column defaults, applied by the INSERT to the columns left unset:
    [added_at] ([datetime.utcnow]) and [is_active] ([True]). *)
Definition defaults (now : Py.datetime) (m : t) : t :=
  mk (id m) (accreditation_id m) (user_id m) (added_by m)
     (match added_at m with Some d => Some d | None => Some now end)
     (match is_active m with Some b => Some b | None => Some true end).

(** [AccreditationMember(accreditation_id=..., user_id=..., added_by=...)]. *)
Definition new (accreditation user adder : Z) : t :=
  mk 0 accreditation user adder None None.

End AccreditationMember.

Module Submission.

(** [SUBMISSION_STATUSES], the values of [submission_status_enum]. *)
Inductive Status : Type :=
| STATUS_PENDING
| STATUS_APPROVED_BY_CHAIR
| STATUS_REJECTED_BY_CHAIR
| STATUS_APPROVED_BY_ADMIN
| STATUS_REJECTED_BY_ADMIN.

Definition status_value (s : Status) : string :=
  match s with
  | STATUS_PENDING => "pending"
  | STATUS_APPROVED_BY_CHAIR => "approved_by_chair"
  | STATUS_REJECTED_BY_CHAIR => "rejected_by_chair"
  | STATUS_APPROVED_BY_ADMIN => "approved_by_admin"
  | STATUS_REJECTED_BY_ADMIN => "rejected_by_admin"
  end.

Definition SUBMISSION_STATUSES : list Status :=
  [STATUS_PENDING; STATUS_APPROVED_BY_CHAIR; STATUS_REJECTED_BY_CHAIR;
   STATUS_APPROVED_BY_ADMIN; STATUS_REJECTED_BY_ADMIN].

Definition status_eqb (a b : Status) : bool :=
  String.eqb (status_value a) (status_value b).

(** [FILE_TYPES], the values of [file_type_enum]. *)
Inductive FileType : Type := PDF | DOC | DOCX | VIDEO | LINK.

Definition file_type_value (f : FileType) : string :=
  match f with
  | PDF => "pdf" | DOC => "doc" | DOCX => "docx" | VIDEO => "video" | LINK => "link"
  end.

Definition FILE_TYPES : list FileType := [PDF; DOC; DOCX; VIDEO; LINK].

(** The member of [FILE_TYPES] a string names, if any. *)
Definition file_type_of (s : string) : option FileType :=
  find (fun f => String.eqb (file_type_value f) s) FILE_TYPES.

Record t : Type := mk {
  id : Z;
  parameter_id : Z;
  submitted_by : Z;
  file_path : option string;
  file_name : option string;
  file_type : option FileType;
  website_link : option string;
  status : option Status;
  submitted_at : option Py.datetime;
  reviewed_at : option Py.datetime;
  reviewed_by : option Z;
  comments : option string;
  version : option Z
}.

(** The class declares no [__table_args__]: the primary key is the only
    uniqueness the table has. *)
Definition table_args : list (t -> list t -> bool) := [].

Definition set_id (i : Z) (s : t) : t :=
  mk i (parameter_id s) (submitted_by s) (file_path s) (file_name s) (file_type s)
     (website_link s) (status s) (submitted_at s) (reviewed_at s) (reviewed_by s)
     (comments s) (version s).

(** Column defaults, applied by the INSERT to the columns left unset:
    [status] ([STATUS_PENDING]), [submitted_at] ([datetime.utcnow]) and
    [version] ([1]). *)
Definition defaults (now : Py.datetime) (s : t) : t :=
  mk (id s) (parameter_id s) (submitted_by s) (file_path s) (file_name s) (file_type s)
     (website_link s)
     (match status s with Some x => Some x | None => Some STATUS_PENDING end)
     (match submitted_at s with Some d => Some d | None => Some now end)
     (reviewed_at s) (reviewed_by s) (comments s)
     (match version s with Some v => Some v | None => Some 1 end).

End Submission.

Module Notification.

(** [NOTIFICATION_TYPES], the values of [notification_type_enum]. *)
Inductive NotificationType : Type :=
| TYPE_ASSIGNMENT | TYPE_APPROVAL | TYPE_REJECTION | TYPE_DEADLINE | TYPE_GENERAL.

Record t : Type := mk {
  id : Z;
  user_id : Z;
  title : string;
  message : string;
  type : NotificationType;
  is_read : option bool;
  email_sent : option bool;
  created_at : option Py.datetime;
  related_submission_id : option Z;
  related_area_id : option Z
}.

Definition set_related_submission_id (x : option Z) (n : t) : t :=
  mk (id n) (user_id n) (title n) (message n) (type n) (is_read n) (email_sent n)
     (created_at n) x (related_area_id n).

Definition set_related_area_id (x : option Z) (n : t) : t :=
  mk (id n) (user_id n) (title n) (message n) (type n) (is_read n) (email_sent n)
     (created_at n) (related_submission_id n) x.

End Notification.

Module ProgressTracking.

Record t : Type := mk {
  id : Z;
  program_id : Z;
  area_id : option Z;
  total_parameters : Z;
  completed_parameters : Z;
  progress_percentage : float;
  last_updated : option Py.datetime
}.

(** [calculate_progress(self)]; [now] is what [datetime.utcnow()] returns. *)
Definition calculate_progress (now : Py.datetime) (self : t) : t :=
  {| id := id self;
     program_id := program_id self;
     area_id := area_id self;
     total_parameters := total_parameters self;
     completed_parameters := completed_parameters self;
     progress_percentage :=
       if 0 <? total_parameters self
       then (Py.truediv (completed_parameters self) (total_parameters self) * 100)%float
       else 0%float;
     last_updated := Some now |}.

(** [to_dict(self)]; [program_name] and [area_name] are the names of the rows
    the [program] and [area] relationships load ([None] when there is none). *)
Definition to_dict (program_name area_name : option string) (self : t) : Py.dict :=
  [ ("id", Py.JInt (id self));
    ("program_id", Py.JInt (program_id self));
    ("area_id", Py.int_or_none (area_id self));
    ("total_parameters", Py.JInt (total_parameters self));
    ("completed_parameters", Py.JInt (completed_parameters self));
    ("progress_percentage", Py.JFloat (Py.round (progress_percentage self) 2));
    ("last_updated", Py.isoformat_or_none (last_updated self));
    ("program_name", Py.str_or_none program_name);
    ("area_name", Py.str_or_none area_name) ].

End ProgressTracking.


(* ===================================================================== *)
(** * The database and the ORM operations on it *)
(* ===================================================================== *)

Module Orm.

(** One table per model class, rows in insertion order. *)
Record Database : Type := mkDb {
  users : list User.t;
  accreditations : list Accreditation.t;
  programs : list Program.t;
  areas : list Area.t;
  parameters : list Param.t;
  accreditation_members : list AccreditationMember.t;
  submissions : list Submission.t;
  notifications : list Notification.t;
  progress_tracking : list ProgressTracking.t
}.

Definition empty : Database := mkDb [] [] [] [] [] [] [] [] [].

Definition with_users (x : list User.t) (db : Database) : Database :=
  mkDb x (accreditations db) (programs db) (areas db) (parameters db)
       (accreditation_members db) (submissions db) (notifications db)
       (progress_tracking db).

(** ** INSERT

    The flush of a new object: the primary key is the next integer, and the
    row is refused with [IntegrityError] when a uniqueness constraint the
    class declares fails against the rows of the table.  Foreign keys are
    not checked (the default store, SQLite, does not enforce them). *)
Section Table.

Context {row : Type}.
Variable pk : row -> Z.
Variable set_pk : Z -> row -> row.
Variable constraints : list (row -> list row -> bool).

Definition next_id (tbl : list row) : Z :=
  1 + fold_right Z.max 0 (map pk tbl).

Definition insert (r : row) (tbl : list row) : Py.Exn + list row :=
  let r' := set_pk (next_id tbl) r in
  if forallb (fun c => c r' tbl) constraints
  then inr (tbl ++ [r'])
  else inl Py.IntegrityError.

(** A sequence of INSERTs, each in its own transaction: a refused row
    leaves the table as it was. *)
Definition insert_all (rs : list row) (tbl : list row) : list row :=
  fold_left (fun acc r => match insert r acc with inr acc' => acc' | inl _ => acc end)
            rs tbl.

End Table.

(** [db.session.add(m); db.session.commit()] for a membership and for a
    submission, at clock reading [now]. *)
Definition add_member (now : Py.datetime) (m : AccreditationMember.t)
  (tbl : list AccreditationMember.t) : Py.Exn + list AccreditationMember.t :=
  insert AccreditationMember.id AccreditationMember.set_id
         AccreditationMember.table_args (AccreditationMember.defaults now m) tbl.

(** A run of membership INSERTs. *)
Definition add_members (now : Py.datetime) (ms : list AccreditationMember.t)
  (tbl : list AccreditationMember.t) : list AccreditationMember.t :=
  insert_all AccreditationMember.id AccreditationMember.set_id
             AccreditationMember.table_args
             (map (AccreditationMember.defaults now) ms) tbl.

Definition add_submission (now : Py.datetime) (s : Submission.t)
  (tbl : list Submission.t) : Py.Exn + list Submission.t :=
  insert Submission.id Submission.set_id
         Submission.table_args (Submission.defaults now s) tbl.

(** ** DELETE with the declared cascades

    [db.session.delete(obj)] deletes [obj] and, through every relationship
    declared with [cascade='all, delete-orphan'], the rows the relationship
    loads (those whose foreign key is the primary key of [obj]).  Through a
    relationship declared without a cascade ([Submission.notifications],
    [Area.notifications]) the foreign key of the loaded rows is set to
    [NULL].  Each function below deletes the rows [doomed] selects. *)

Definition refers (fk : option Z) (i : Z) : bool :=
  match fk with Some j => Z.eqb j i | None => false end.

Definition delete_submissions (doomed : Submission.t -> bool) (db : Database) : Database :=
  mkDb (users db) (accreditations db) (programs db) (areas db) (parameters db)
       (accreditation_members db)
       (filter (fun s => negb (doomed s)) (submissions db))
       (map (fun n =>
               if existsb (fun s => doomed s &&
                             refers (Notification.related_submission_id n) (Submission.id s))
                          (submissions db)
               then Notification.set_related_submission_id None n else n)
            (notifications db))
       (progress_tracking db).

(** [Parameter.submissions] cascades. *)
Definition delete_parameters (doomed : Param.t -> bool) (db : Database) : Database :=
  let db1 :=
    delete_submissions
      (fun s => existsb (fun q => doomed q && Z.eqb (Submission.parameter_id s) (Param.id q))
                        (parameters db)) db in
  mkDb (users db1) (accreditations db1) (programs db1) (areas db1)
       (filter (fun q => negb (doomed q)) (parameters db1))
       (accreditation_members db1) (submissions db1) (notifications db1)
       (progress_tracking db1).

(** [Area.parameters] and [Area.progress_tracking] cascade;
    [Area.notifications] does not. *)
Definition delete_areas (doomed : Area.t -> bool) (db : Database) : Database :=
  let db1 :=
    delete_parameters
      (fun q => existsb (fun a => doomed a && Z.eqb (Param.area_id q) (Area.id a))
                        (areas db)) db in
  mkDb (users db1) (accreditations db1) (programs db1)
       (filter (fun a => negb (doomed a)) (areas db1))
       (parameters db1) (accreditation_members db1) (submissions db1)
       (map (fun n =>
               if existsb (fun a => doomed a &&
                             refers (Notification.related_area_id n) (Area.id a))
                          (areas db)
               then Notification.set_related_area_id None n else n)
            (notifications db1))
       (filter (fun t =>
                  negb (existsb (fun a => doomed a &&
                                   refers (ProgressTracking.area_id t) (Area.id a))
                                (areas db)))
               (progress_tracking db1)).

(** [Program.areas] and [Program.progress_tracking] cascade. *)
Definition delete_programs (doomed : Program.t -> bool) (db : Database) : Database :=
  let db1 :=
    delete_areas
      (fun a => existsb (fun p => doomed p && Z.eqb (Area.program_id a) (Program.id p))
                        (programs db)) db in
  mkDb (users db1) (accreditations db1)
       (filter (fun p => negb (doomed p)) (programs db1))
       (areas db1) (parameters db1) (accreditation_members db1) (submissions db1)
       (notifications db1)
       (filter (fun t =>
                  negb (existsb (fun p => doomed p &&
                                   Z.eqb (ProgressTracking.program_id t) (Program.id p))
                                (programs db)))
               (progress_tracking db1)).

(** [db.session.delete(a)] for an accreditation [a]:
    [Accreditation.programs] and [Accreditation.members] cascade. *)
Definition delete_accreditation (a : Accreditation.t) (db : Database) : Database :=
  let db1 :=
    delete_programs
      (fun p => Z.eqb (Program.accreditation_id p) (Accreditation.id a)) db in
  mkDb (users db1)
       (filter (fun x => negb (Z.eqb (Accreditation.id x) (Accreditation.id a)))
               (accreditations db1))
       (programs db1) (areas db1) (parameters db1)
       (filter (fun m => negb (Z.eqb (AccreditationMember.accreditation_id m)
                                     (Accreditation.id a)))
               (accreditation_members db1))
       (submissions db1) (notifications db1) (progress_tracking db1).

End Orm.

(* ===================================================================== *)
(** * routes/auth.py and routes/admin.py *)
(* ===================================================================== *)

Module Routes.

(** What the collaborators of one request answer: the clock, bcrypt, the
    storage driver, the token service and the random source. *)
Record Env : Type := mkEnv {
  (** the [n]-th reading of [datetime.utcnow()] during the request *)
  utcnow : nat -> Py.datetime;
  (** [bcrypt.generate_password_hash(password).decode('utf-8')] *)
  generate_password_hash : string -> string;
  (** [bcrypt.check_password_hash(hash, password)]; [None]: it raises *)
  check_password_hash : string -> string -> option bool;
  (** how the driver binds a value that is not a string to a String
      column or parameter; [None]: it raises *)
  adapt_string : Py.json -> option string;
  (** how a Boolean column takes a value that is neither a boolean nor
      [None]; [None]: it raises *)
  adapt_boolean : Py.json -> option bool;
  (** whether the store refuses the COMMIT *)
  commit_raises : bool;
  (** [create_access_token(identity=...)]; [None]: it raises *)
  create_access_token : Z -> option string;
  (** [get_jwt_identity()], the identity of the verified token *)
  get_jwt_identity : Z;
  (** what [generate_password()] draws from [secrets] *)
  generated_password : string
}.

(** The unit of work of [db.session]: the writes made through the session
    that no COMMIT has stored and no ROLLBACK has discarded. *)
Inductive Op : Type :=
| Insert (email name position_in_school is_admin : Py.json) (password_hash : string)
| SetLastLogin (user : Z) (at_ : Py.datetime).

Record World : Type := mkWorld {
  stored : Orm.Database;              (* the committed rows *)
  pending : list Op;                  (* the unit of work *)
  ticks : nat;                        (* clock readings so far *)
  logged : list (string * Py.Exn)     (* [current_app.logger.error] *)
}.

(** A request starts with an empty session. *)
Definition fresh (db : Orm.Database) : World := mkWorld db [] O [].

(** ** The monad of a handler: state and exceptions *)

Definition M (A : Type) : Type := World -> (Py.Exn + A) * World.

Definition ret {A} (a : A) : M A := fun w => (inr a, w).

Definition bind {A B} (m : M A) (k : A -> M B) : M B :=
  fun w => match m w with
           | (inr a, w') => k a w'
           | (inl e, w') => (inl e, w')
           end.

Definition raise {A} (e : Py.Exn) : M A := fun w => (inl e, w).

(** [try: body  except Exception as e: handler(e)]. *)
Definition try_except {A} (body : M A) (handler : Py.Exn -> M A) : M A :=
  fun w => match body w with
           | (inr a, w') => (inr a, w')
           | (inl e, w') => handler e w'
           end.

Notation "x <- c ;; k" := (bind c (fun x => k))
  (at level 61, c at next level, right associativity).
Notation "c ;;; k" := (bind c (fun _ => k))
  (at level 61, right associativity).

Definition Response : Type := Py.json * Z.

Definition error (msg : string) (code : Z) : Response :=
  (Py.JDict [("error", Py.JStr msg)], code).

(** An exception no handler catches reaches the framework, which answers
    500. *)
Definition serve (m : M Response) (w : World) : Response * World :=
  match m w with
  | (inr r, w') => (r, w')
  | (inl _, w') => ((Py.JStr "Internal Server Error", 500), w')
  end.

(** ** Python expressions on the request body *)

(** [data.get(k)]. *)
Definition py_get (data : Py.json) (k : string) : M Py.json :=
  match data with
  | Py.JDict d => ret (Py.get d k)
  | _ => raise Py.AttributeError
  end.

(** [data.get(k, dflt)]. *)
Definition py_get_default (data : Py.json) (k : string) (dflt : Py.json) : M Py.json :=
  match data with
  | Py.JDict d => ret (Py.get_default d k dflt)
  | _ => raise Py.AttributeError
  end.

(** [data[k]]. *)
Definition subscript (data : Py.json) (k : string) : M Py.json :=
  match data with
  | Py.JDict d => match Py.lookup d k with Some v => ret v | None => raise Py.KeyError end
  | _ => raise Py.TypeError
  end.

(** [for field in fields: if not data or not data.get(field): return ...]:
    the first field the loop stops at. *)
Fixpoint first_missing (data : Py.json) (fields : list string) : M (option string) :=
  match fields with
  | [] => ret None
  | f :: fs =>
      if negb (Py.truthy data) then ret (Some f)
      else v <- py_get data f ;;
           if negb (Py.truthy v) then ret (Some f) else first_missing data fs
  end.

(** ** The session *)

Definition clock (env : Env) : M Py.datetime :=
  fun w => (inr (utcnow env (ticks w)),
            mkWorld (stored w) (pending w) (S (ticks w)) (logged w)).

Definition bind_string (env : Env) (v : Py.json) : Py.Exn + string :=
  match v with
  | Py.JStr s => inr s
  | _ => match adapt_string env v with Some s => inr s | None => inl Py.InterfaceError end
  end.

(** A Boolean column: [None] leaves the column to its default. *)
Definition bind_boolean (env : Env) (v : Py.json) : Py.Exn + option bool :=
  match v with
  | Py.JNull => inr None
  | Py.JBool b => inr (Some b)
  | _ => match adapt_boolean env v with Some b => inr (Some b) | None => inl Py.TypeError end
  end.

Definition lift {A} (x : Py.Exn + A) : M A :=
  match x with inr a => ret a | inl e => raise e end.

(** [User.query.filter_by(email=v).first()]. *)
Definition query_by_email (env : Env) (v : Py.json) : M (option User.t) :=
  s <- lift (bind_string env v) ;;
  fun w => (inr (find (fun u => String.eqb (User.email u) s) (Orm.users (stored w))), w).

(** [User.query.get(i)]. *)
Definition query_get (i : Z) : M (option User.t) :=
  fun w => (inr (find (fun u => Z.eqb (User.id u) i) (Orm.users (stored w))), w).

(** Reading an attribute of an object after a COMMIT reloads its row. *)
Definition refresh (i : Z) : M User.t :=
  u <- query_get i ;;
  match u with Some u' => ret u' | None => raise Py.ObjectDeletedError end.

Definition session_write (op : Op) : M unit :=
  fun w => (inr tt, mkWorld (stored w) (pending w ++ [op]) (ticks w) (logged w)).

(** [db.session.rollback()]. *)
Definition rollback : M unit :=
  fun w => (inr tt, mkWorld (stored w) [] (ticks w) (logged w)).

(** [current_app.logger.error(f'{what}: {str(e)}')]. *)
Definition log_error (what : string) (e : Py.Exn) : M unit :=
  fun w => (inr tt, mkWorld (stored w) (pending w) (ticks w) (logged w ++ [(what, e)])).

Definition set_login (d now : Py.datetime) (u : User.t) : User.t :=
  User.mk (User.id u) (User.email u) (User.password_hash u) (User.name u)
          (User.position_in_school u) (User.is_admin u) (User.is_active u)
          (User.created_at u) (Some now) (Some d)
          (User.password_reset_token u) (User.email_verified u).

(** The flush of one write, at clock reading [t]: the new table, the clock
    readings used and the primary key an INSERT assigned.  An INSERT fills
    the columns left unset with their defaults ([is_admin]: [False],
    [is_active]: [True], [created_at], [updated_at]: [datetime.utcnow],
    [email_verified]: [False]); an UPDATE sets [updated_at] ([onupdate]). *)
Definition flush_op (env : Env) (op : Op) (tbl : list User.t) (t : nat)
  : Py.Exn + (list User.t * nat * list Z) :=
  match op with
  | Insert e n p a h =>
      match bind_string env e, bind_string env n, bind_string env p, bind_boolean env a with
      | inr e', inr n', inr p', inr a' =>
          let row :=
            User.mk 0 e' h n' p'
                    (match a' with Some b => Some b | None => Some false end)
                    (Some true) (Some (utcnow env t)) (Some (utcnow env (S t)))
                    None None (Some false) in
          match Orm.insert User.id User.set_id User.table_args row tbl with
          | inr tbl' => inr (tbl', S (S t), [Orm.next_id User.id tbl])
          | inl x => inl x
          end
      | inl x, _, _, _ => inl x
      | _, inl x, _, _ => inl x
      | _, _, inl x, _ => inl x
      | _, _, _, inl x => inl x
      end
  | SetLastLogin i d =>
      if existsb (fun u => Z.eqb (User.id u) i) tbl
      then inr (map (fun u => if Z.eqb (User.id u) i then set_login d (utcnow env t) u else u) tbl,
                S t, [])
      else inl Py.ObjectDeletedError
  end.

Fixpoint flush (env : Env) (ops : list Op) (tbl : list User.t) (t : nat)
  : Py.Exn + (list User.t * nat * list Z) :=
  match ops with
  | [] => inr (tbl, t, [])
  | op :: ops' =>
      match flush_op env op tbl t with
      | inl x => inl x
      | inr (tbl1, t1, ids1) =>
          match flush env ops' tbl1 t1 with
          | inl x => inl x
          | inr (tbl2, t2, ids2) => inr (tbl2, t2, ids1 ++ ids2)
          end
      end
  end.

(** [db.session.commit()]: flush the unit of work, then COMMIT.  When the
    flush or the COMMIT raises, nothing is stored and the session keeps the
    failed unit of work until [rollback] discards it.  On success the result
    lists the primary keys the INSERTs assigned. *)
Definition commit (env : Env) : M (list Z) :=
  fun w =>
    match flush env (pending w) (Orm.users (stored w)) (ticks w) with
    | inl x => (inl x, w)
    | inr (tbl, t, ids) =>
        if commit_raises env then (inl Py.OperationalError, w)
        else (inr ids, mkWorld (Orm.with_users tbl (stored w)) [] t (logged w))
    end.

(** ** Model methods the handlers call *)

(** [user.set_password(password)] computes the hash the new object carries;
    bcrypt raises on a value that is not a string. *)
Definition set_password (env : Env) (password : Py.json) : M string :=
  match password with
  | Py.JStr s => ret (generate_password_hash env s)
  | _ => raise Py.TypeError
  end.

(** [user.check_password(password)]. *)
Definition check_password (env : Env) (u : User.t) (password : Py.json) : M bool :=
  match password with
  | Py.JStr s =>
      match check_password_hash env (User.password_hash u) s with
      | Some b => ret b
      | None => raise Py.ValueError
      end
  | _ => raise Py.TypeError
  end.

Definition issue_token (env : Env) (identity : Z) : M string :=
  match create_access_token env identity with
  | Some tok => ret tok
  | None => raise Py.JWTError
  end.

(** The object a handler added, read back after the COMMIT. *)
Definition refresh_new (ids : list Z) : M User.t :=
  match ids with
  | i :: _ => refresh i
  | [] => raise Py.ObjectDeletedError
  end.

Definition is_true (x : option bool) : bool :=
  match x with Some b => b | None => false end.

(** ** auth.py: [login] *)

Definition login_body (env : Env) (data : Py.json) : M Response :=
  if negb (Py.truthy data) then ret (error "Email and password are required" 400) else
  e <- py_get data "email" ;;
  if negb (Py.truthy e) then ret (error "Email and password are required" 400) else
  p <- py_get data "password" ;;
  if negb (Py.truthy p) then ret (error "Email and password are required" 400) else
  email <- subscript data "email" ;;
  user <- query_by_email env email ;;
  match user with
  | None => ret (error "Invalid email or password" 401)
  | Some u =>
      password <- subscript data "password" ;;
      ok <- check_password env u password ;;
      if negb ok then ret (error "Invalid email or password" 401) else
      if negb (is_true (User.is_active u)) then ret (error "Account is deactivated" 401) else
      now <- clock env ;;
      session_write (SetLastLogin (User.id u) now) ;;;
      _ <- commit env ;;
      access_token <- issue_token env (User.id u) ;;
      u' <- refresh (User.id u) ;;
      ret (Py.JDict [("access_token", Py.JStr access_token);
                     ("user", Py.JDict (User.to_dict u'))], 200)
  end.

(** The handler of [login] logs and answers 500; it does not roll back. *)
Definition login (env : Env) (data : Py.json) (db : Orm.Database) : Response * World :=
  serve (try_except (login_body env data)
           (fun e => log_error "Login error" e ;;;
                     ret (error "Internal server error" 500)))
        (fresh db).

(** ** auth.py: [register] *)

Definition register_body (env : Env) (data : Py.json) : M Response :=
  missing <- first_missing data ["email"; "password"; "name"; "position_in_school"] ;;
  match missing with
  | Some field => ret (error (field ++ " is required")%string 400)
  | None =>
      email <- subscript data "email" ;;
      existing <- query_by_email env email ;;
      match existing with
      | Some _ => ret (error "Email already registered" 409)
      | None =>
          email <- subscript data "email" ;;
          name <- subscript data "name" ;;
          position_in_school <- subscript data "position_in_school" ;;
          password <- subscript data "password" ;;
          password_hash <- set_password env password ;;
          session_write (Insert email name position_in_school (Py.JBool false)
                                password_hash) ;;;
          ids <- commit env ;;
          user <- refresh_new ids ;;
          ret (Py.JDict [("message", Py.JStr "User registered successfully");
                         ("user", Py.JDict (User.to_dict user))], 201)
      end
  end.

Definition register (env : Env) (data : Py.json) (db : Orm.Database) : Response * World :=
  serve (try_except (register_body env data)
           (fun e => rollback ;;;
                     log_error "Registration error" e ;;;
                     ret (error "Internal server error" 500)))
        (fresh db).

(** ** admin.py: [admin_required] and [create_user] *)

(** The decorator: its body runs outside the handler's [try]. *)
Definition admin_required (env : Env) (f : M Response) : M Response :=
  user <- query_get (get_jwt_identity env) ;;
  match user with
  | None => ret (error "Admin privileges required" 403)
  | Some u =>
      if negb (is_true (User.is_admin u))
      then ret (error "Admin privileges required" 403)
      else f
  end.

Definition create_user_body (env : Env) (data : Py.json) : M Response :=
  missing <- first_missing data ["email"; "name"; "position_in_school"] ;;
  match missing with
  | Some field => ret (error (field ++ " is required")%string 400)
  | None =>
      email <- subscript data "email" ;;
      existing <- query_by_email env email ;;
      match existing with
      | Some _ => ret (error "Email already exists" 409)
      | None =>
          supplied <- py_get data "password" ;;
          let password :=
            if Py.truthy supplied then supplied
            else Py.JStr (generated_password env) in
          email <- subscript data "email" ;;
          name <- subscript data "name" ;;
          position_in_school <- subscript data "position_in_school" ;;
          is_admin <- py_get_default data "is_admin" (Py.JBool false) ;;
          password_hash <- set_password env password ;;
          session_write (Insert email name position_in_school is_admin
                                password_hash) ;;;
          ids <- commit env ;;
          user <- refresh_new ids ;;
          let response_data :=
            Py.setitem (User.to_dict user) "generated_password" password in
          ret (Py.JDict [("message", Py.JStr "User created successfully");
                         ("user", Py.JDict response_data)], 201)
      end
  end.

Definition create_user (env : Env) (data : Py.json) (db : Orm.Database)
  : Response * World :=
  serve (admin_required env
           (try_except (create_user_body env data)
              (fun e => rollback ;;;
                        log_error "Create user error" e ;;;
                        ret (error "Internal server error" 500))))
        (fresh db).

(** ** Postconditions

    [ends m w Q]: the handler step [m], run from [w], ends in a result and a
    world that satisfy [Q].  [reads m]: [m] leaves the world as it is. *)
Definition ends {A} (m : M A) (w : World) (Q : Py.Exn + A -> World -> Prop) : Prop :=
  Q (fst (m w)) (snd (m w)).

Definition reads {A} (m : M A) : Prop := forall w, snd (m w) = w.

End Routes.

(* ===================================================================== *)
(** * The submission review workflow *)
(* ===================================================================== *)

(** The repository declares the [Submission] table and its status constants
    but contains no code that creates or reviews a submission.  The three
    operations of this module are written from the specification (section
    4.1, with the error taxonomy of section 7) over the [Submission] rows of
    [models.py]. *)
Module Workflow.

Inductive Conflict : Type := InvalidTransition | DuplicateMembership | StaleVersion.

Inductive Error : Type :=
| ValidationError
| AuthenticationError
| AuthorizationError
| NotFoundError
| ConflictError (why : Conflict)
| DependencyError.

(** The payload of a Submit request. *)
Record FileRef : Type := mkFile { path : string; name : string; type : string }.

Record Payload : Type := mkPayload {
  file : option FileRef;
  website_link : option string
}.

(** The payload supplies a file reference whose type is in the closed set. *)
Definition supplies_file (p : Payload) : bool :=
  match file p with
  | Some f => match Submission.file_type_of (type f) with Some _ => true | None => false end
  | None => false
  end.

Definition supplies_link (p : Payload) : bool :=
  match website_link p with Some _ => true | None => false end.

(** The versions recorded for a parameter, in table order. *)
Definition versions (parameter : Z) (tbl : list Submission.t) : list Z :=
  flat_map (fun s =>
              if Z.eqb (Submission.parameter_id s) parameter
              then match Submission.version s with Some v => [v] | None => [] end
              else []) tbl.

Definition max_version (parameter : Z) (tbl : list Submission.t) : option Z :=
  match versions parameter tbl with
  | [] => None
  | v :: vs => Some (fold_right Z.max v vs)
  end.

Definition next_version (parameter : Z) (tbl : list Submission.t) : Z :=
  match max_version parameter tbl with Some m => m + 1 | None => 1 end.

(** Modelled from the spec: Submit(parameter, submitter, payload), which the
    repository does not implement.  The payload must supply a file reference
    with a type of the closed set or a website link; the new row takes version
    (max existing version for the parameter) + 1 (1 when the parameter has
    none) and status [pending], and is stored through the INSERT of
    [models.py].  The notification to the chairperson writes to another table
    and is not part of this model. *)
Definition submit (tbl : list Submission.t) (parameter submitter : Z) (p : Payload)
  (now : Py.datetime) : list Submission.t * (Error + Submission.t) :=
  if negb (supplies_file p || supplies_link p) then (tbl, inl ValidationError)
  else
    let f := if supplies_file p then file p else None in
    let row :=
      Submission.mk 0 parameter submitter
        (option_map path f) (option_map name f)
        (match f with Some x => Submission.file_type_of (type x) | None => None end)
        (website_link p)
        (Some Submission.STATUS_PENDING) (Some now) None None None
        (Some (next_version parameter tbl)) in
    match Orm.add_submission now row tbl with
    | inr tbl' => (tbl', inr (Submission.set_id (Orm.next_id Submission.id tbl) row))
    | inl _ => (tbl, inl (ConflictError StaleVersion))
    end.

Inductive Decision : Type := Approve | Reject.

Definition find_submission (sid : Z) (tbl : list Submission.t) : option Submission.t :=
  find (fun s => Z.eqb (Submission.id s) sid) tbl.

Definition reviewed (s : Submission.t) (outcome : Submission.Status) (reviewer : Z)
  (remarks : option string) (now : Py.datetime) : Submission.t :=
  Submission.mk (Submission.id s) (Submission.parameter_id s) (Submission.submitted_by s)
    (Submission.file_path s) (Submission.file_name s) (Submission.file_type s)
    (Submission.website_link s) (Some outcome) (Submission.submitted_at s)
    (Some now) (Some reviewer) remarks (Submission.version s).

Definition status_is (s : Submission.t) (x : Submission.Status) : bool :=
  match Submission.status s with
  | Some y => Submission.status_eqb y x
  | None => false
  end.

(** Modelled from the spec: the review step the two review operations share,
    which the repository does not implement.  It fails with
    [InvalidTransition] (a [ConflictError]) unless the current status is [required]; otherwise it sets the status,
    the reviewer, the timestamp and the comments of the row. *)
Definition review (required approved rejected : Submission.Status)
  (tbl : list Submission.t) (sid : Z) (d : Decision) (reviewer : Z)
  (remarks : option string) (now : Py.datetime)
  : list Submission.t * (Error + Submission.t) :=
  match find_submission sid tbl with
  | None => (tbl, inl NotFoundError)
  | Some s =>
      if status_is s required then
        let s' := reviewed s (match d with Approve => approved | Reject => rejected end)
                           reviewer remarks now in
        (map (fun r => if Z.eqb (Submission.id r) sid then s' else r) tbl, inr s')
      else (tbl, inl (ConflictError InvalidTransition))
  end.

(** Modelled from the spec: Review as chair(submission, decision, comments),
    which the repository does not implement: from [pending] to
    [approved_by_chair] or [rejected_by_chair]. *)
Definition review_chair :=
  review Submission.STATUS_PENDING
         Submission.STATUS_APPROVED_BY_CHAIR Submission.STATUS_REJECTED_BY_CHAIR.

(** Modelled from the spec: Review as admin(submission, decision, comments),
    which the repository does not implement: from [approved_by_chair] to
    [approved_by_admin] or [rejected_by_admin].  The caller's authorisation is
    the external check that precedes the operation; the notification and the
    progress recomputation it triggers write to other tables and are not part
    of this model. *)
Definition review_admin :=
  review Submission.STATUS_APPROVED_BY_CHAIR
         Submission.STATUS_APPROVED_BY_ADMIN Submission.STATUS_REJECTED_BY_ADMIN.

Definition admin_outcome (d : Decision) : Submission.Status :=
  match d with
  | Approve => Submission.STATUS_APPROVED_BY_ADMIN
  | Reject => Submission.STATUS_REJECTED_BY_ADMIN
  end.

End Workflow.

(* ===================================================================== *)
(** * Predicates the properties are stated with *)
(* ===================================================================== *)

Module Spec.

(** The progress aggregate holds the rounded percentage. *)
Definition stores_rounded_percentage (p : ProgressTracking.t) : Prop :=
  (0 < ProgressTracking.total_parameters p ->
   ProgressTracking.progress_percentage p =
   Py.round (Py.truediv (ProgressTracking.completed_parameters p)
                        (ProgressTracking.total_parameters p) * 100)%float 2)
  /\ (ProgressTracking.total_parameters p = 0 ->
      ProgressTracking.progress_percentage p = 0%float).

(** A second run at [later] leaves what the first run at [now] produced. *)
Definition second_run_changes_nothing (now later : Py.datetime) (p : ProgressTracking.t)
  : Prop :=
  ProgressTracking.calculate_progress later (ProgressTracking.calculate_progress now p)
  = ProgressTracking.calculate_progress now p.

(** Two users that agree on every column except [password_hash] and
    [password_reset_token]. *)
Definition same_but_secrets (u v : User.t) : Prop :=
  User.id u = User.id v /\ User.email u = User.email v /\ User.name u = User.name v
  /\ User.position_in_school u = User.position_in_school v
  /\ User.is_admin u = User.is_admin v /\ User.is_active u = User.is_active v
  /\ User.created_at u = User.created_at v /\ User.updated_at u = User.updated_at v
  /\ User.last_login u = User.last_login v
  /\ User.email_verified u = User.email_verified v.

(** Ownership under accreditation [a] in database [db]: a program through
    [accreditation_id], an area through its program, a parameter through its
    area, a submission through its parameter. *)
Definition program_of (a : Accreditation.t) (p : Program.t) : Prop :=
  Program.accreditation_id p = Accreditation.id a.

Definition area_of (db : Orm.Database) (a : Accreditation.t) (x : Area.t) : Prop :=
  exists p, In p (Orm.programs db) /\ program_of a p
            /\ Area.program_id x = Program.id p.

Definition parameter_of (db : Orm.Database) (a : Accreditation.t) (q : Param.t) : Prop :=
  exists x, In x (Orm.areas db) /\ area_of db a x
            /\ Param.area_id q = Area.id x.

Definition submission_of (db : Orm.Database) (a : Accreditation.t) (s : Submission.t)
  : Prop :=
  exists q, In q (Orm.parameters db) /\ parameter_of db a q
            /\ Submission.parameter_id s = Param.id q.

(** The rows [Orm.delete_accreditation] selects in each table, as boolean
    tests on the rows of [db]. *)
Definition doomed_program (a : Accreditation.t) (p : Program.t) : bool :=
  Z.eqb (Program.accreditation_id p) (Accreditation.id a).

Definition doomed_area (a : Accreditation.t) (db : Orm.Database) (x : Area.t) : bool :=
  existsb (fun p => doomed_program a p && Z.eqb (Area.program_id x) (Program.id p))
          (Orm.programs db).

Definition doomed_parameter (a : Accreditation.t) (db : Orm.Database) (q : Param.t) : bool :=
  existsb (fun x => doomed_area a db x && Z.eqb (Param.area_id q) (Area.id x))
          (Orm.areas db).

Definition doomed_submission (a : Accreditation.t) (db : Orm.Database) (s : Submission.t)
  : bool :=
  existsb (fun q => doomed_parameter a db q
                    && Z.eqb (Submission.parameter_id s) (Param.id q))
          (Orm.parameters db).

(** The pair a membership row is about, and the invariant of the table: no
    pair occurs twice. *)
Definition membership (m : AccreditationMember.t) : Z * Z :=
  (AccreditationMember.accreditation_id m, AccreditationMember.user_id m).

Definition one_row_per_pair (tbl : list AccreditationMember.t) : Prop :=
  NoDup (map membership tbl).

(** No parameter has two submissions with the same version. *)
Definition unique_versions (tbl : list Submission.t) : Prop :=
  forall parameter, NoDup (Workflow.versions parameter tbl).

(** A dictionary without the entry of one key. *)
Definition without (k : string) (d : Py.dict) : Py.dict :=
  filter (fun kv => negb (String.eqb (fst kv) k)) d.

End Spec.

(** Concrete rows and requests the examples run on. *)
Module Samples.

Definition morning : Py.datetime := Py.mkDatetime 2024 3 9 8 5 0 0.
Definition noon : Py.datetime := Py.mkDatetime 2024 3 9 12 0 0 1250.

(** One parameter of three completed. *)
Definition one_of_three : ProgressTracking.t :=
  ProgressTracking.mk 1 1 None 3 1 0%float None.

Definition alice : User.t :=
  User.mk 1 "alice@ecap.com" "$2b$12$aaaa" "Alice" "Dean" (Some false) (Some true)
          (Some morning) (Some morning) None None (Some false).

Definition alice_after_reset : User.t :=
  User.mk 1 "alice@ecap.com" "$2b$12$bbbb" "Alice" "Dean" (Some false) (Some true)
          (Some morning) (Some morning) None (Some "reset-token") (Some false).

(** [Submission(parameter_id=7, submitted_by=1, website_link=...)]. *)
Definition draft : Submission.t :=
  Submission.mk 0 7 1 None None None (Some "https://ecap.example/evidence")
                None None None None None None.

(** [AccreditationMember(accreditation_id=3, user_id=1, added_by=2)]. *)
Definition seat : AccreditationMember.t := AccreditationMember.new 3 1 2.

(** The membership table once [seat] is stored. *)
Definition seated : list AccreditationMember.t :=
  [AccreditationMember.mk 1 3 1 2 (Some morning) (Some true)].

(** A submissions table: one row waiting for the chair, one for the admin. *)
Definition waiting_for_chair : Submission.t :=
  Submission.mk 1 7 1 None None None (Some "https://ecap.example/evidence")
                (Some Submission.STATUS_PENDING) (Some morning) None None None (Some 1).

Definition waiting_for_admin : Submission.t :=
  Submission.mk 2 8 1 (Some "uploads/a.pdf") (Some "a.pdf") (Some Submission.PDF) None
                (Some Submission.STATUS_APPROVED_BY_CHAIR) (Some morning)
                (Some morning) (Some 5) None (Some 1).

Definition inbox : list Submission.t := [waiting_for_chair; waiting_for_admin].

Definition link_only : Workflow.Payload :=
  Workflow.mkPayload None (Some "https://ecap.example/evidence").

Definition nothing : Workflow.Payload := Workflow.mkPayload None None.

(** A file reference whose type is outside the closed set. *)
Definition spreadsheet : Workflow.Payload :=
  Workflow.mkPayload (Some (Workflow.mkFile "uploads/a.xls" "a.xls" "xls")) None.

(** Two accreditations, each owning one program, area, parameter and
    submission; a notification about each submission; progress rows. *)
Definition campus : Orm.Database :=
  Orm.mkDb
    [User.mk 1 "carol@ecap.com" "$2b$12$s3cret" "Carol" "Registrar" (Some true) (Some true)
             None None None None (Some false)]
    [Accreditation.mk 1 "AACCUP" 2024 None 1 None None (Some true);
     Accreditation.mk 2 "PAASCU" 2025 None 1 None None (Some true)]
    [Program.mk 10 "BSCS" None noon 1 None None (Some true);
     Program.mk 20 "BSIT" None noon 2 None None (Some true)]
    [Area.mk 100 "Faculty" None 10 (Some 1) None None (Some true);
     Area.mk 200 "Library" None 20 None None None (Some true)]
    [Param.mk 1000 "Profiles" None 100 None None None (Some true);
     Param.mk 2000 "Holdings" None 200 None None None (Some true)]
    [AccreditationMember.mk 1 1 1 1 None (Some true);
     AccreditationMember.mk 2 2 1 1 None (Some true)]
    [Submission.mk 1 1000 1 None None None (Some "https://ecap.example/a")
                   (Some Submission.STATUS_PENDING) None None None None (Some 1);
     Submission.mk 2 2000 1 None None None (Some "https://ecap.example/b")
                   (Some Submission.STATUS_PENDING) None None None None (Some 1)]
    [Notification.mk 1 1 "New submission" "Profiles" Notification.TYPE_ASSIGNMENT
                     (Some false) (Some false) None (Some 1) (Some 100);
     Notification.mk 2 1 "New submission" "Holdings" Notification.TYPE_ASSIGNMENT
                     (Some false) (Some false) None (Some 2) (Some 200)]
    [ProgressTracking.mk 1 10 None 1 0 0%float None;
     ProgressTracking.mk 2 10 (Some 100) 1 0 0%float None;
     ProgressTracking.mk 3 20 None 1 0 0%float None].

(** Collaborators that all answer: bcrypt hashes [s] to ["$2b$12$" ++ s]. *)
Definition hash (s : string) : string := ("$2b$12$" ++ s)%string.

Definition env : Routes.Env :=
  Routes.mkEnv (fun n => Py.mkDatetime 2024 3 9 12 0 0 (Z.of_nat n))
               hash (fun h s => Some (String.eqb h (hash s)))
               (fun _ => None) (fun _ => None)
               false (fun i => Some "token") 1 "generated".

(** The store refuses the COMMIT. *)
Definition env_store_down : Routes.Env :=
  Routes.mkEnv (Routes.utcnow env) hash (Routes.check_password_hash env)
               (fun _ => None) (fun _ => None)
               true (fun i => Some "token") 1 "generated".

(** The token service raises. *)
Definition env_token_down : Routes.Env :=
  Routes.mkEnv (Routes.utcnow env) hash (Routes.check_password_hash env)
               (fun _ => None) (fun _ => None)
               false (fun i => None) 1 "generated".

(** A database whose only row is the user [carol], password ["s3cret"]. *)
Definition carol : User.t :=
  User.mk 1 "carol@ecap.com" "$2b$12$s3cret" "Carol" "Registrar" (Some false) (Some true)
          (Some morning) (Some morning) None None (Some false).

Definition directory : Orm.Database := Orm.with_users [carol] Orm.empty.

Definition carol_logs_in : Py.json :=
  Py.JDict [("email", Py.JStr "carol@ecap.com"); ("password", Py.JStr "s3cret")].

(** A registration that asks for administrator rights. *)
Definition bob_signs_up : Py.json :=
  Py.JDict [("email", Py.JStr "bob@ecap.com"); ("password", Py.JStr "hunter2");
            ("name", Py.JStr "Bob"); ("position_in_school", Py.JStr "Chair");
            ("is_admin", Py.JBool true)].

End Samples.

(* ===================================================================== *)
(** * The other handlers of routes/auth.py and routes/admin.py *)
(* ===================================================================== *)

(** [get_current_user] and [change_password] of [auth.py]; [get_all_users],
    [get_user], [update_user], [delete_user] and [reset_user_password] of
    [admin.py].  They update and delete rows, so their unit of work has more
    kinds of writes than [Routes.Op]; the reading steps are those of
    [Routes], run on the committed rows. *)
Module Accounts.

(** ** Python's [k in data] *)

(** [needle in hay] on two strings. *)
Fixpoint occurs (needle hay : string) : bool :=
  String.prefix needle hay
  || match hay with
     | EmptyString => false
     | String _ rest => occurs needle rest
     end.

(** A key of a dict, an element of a list, a substring of a string; the
    other values are not iterable. *)
Definition contains (data : Py.json) (k : string) : Py.Exn + bool :=
  match data with
  | Py.JDict d => inr (existsb (String.eqb k) (Py.keys d))
  | Py.JList l =>
      inr (existsb (fun v => match v with Py.JStr s => String.eqb s k | _ => false end) l)
  | Py.JStr s => inr (occurs k s)
  | _ => inl Py.TypeError
  end.

(** ** The unit of work *)

Inductive Op : Type :=
| SetName (user : Z) (v : Py.json)
| SetPosition (user : Z) (v : Py.json)
| SetIsAdmin (user : Z) (v : Py.json)
| SetIsActive (user : Z) (v : Py.json)
| SetPasswordHash (user : Z) (h : string)
| SetUpdatedAt (user : Z) (at_ : Py.datetime)
| Delete (user : Z).

Record World : Type := mkWorld {
  stored : Orm.Database;
  pending : list Op;
  ticks : nat;
  logged : list (string * Py.Exn)
}.

Definition fresh (db : Orm.Database) : World := mkWorld db [] O [].

Definition M (A : Type) : Type := World -> (Py.Exn + A) * World.

Definition ret {A} (a : A) : M A := fun w => (inr a, w).

Definition bind {A B} (m : M A) (k : A -> M B) : M B :=
  fun w => match m w with
           | (inr a, w') => k a w'
           | (inl e, w') => (inl e, w')
           end.

Definition raise {A} (e : Py.Exn) : M A := fun w => (inl e, w).

Definition lift {A} (x : Py.Exn + A) : M A :=
  match x with inr a => ret a | inl e => raise e end.

Definition try_except {A} (body : M A) (handler : Py.Exn -> M A) : M A :=
  fun w => match body w with
           | (inr a, w') => (inr a, w')
           | (inl e, w') => handler e w'
           end.

Notation "x <- c ;; k" := (bind c (fun x => k))
  (at level 61, c at next level, right associativity).
Notation "c ;;; k" := (bind c (fun _ => k))
  (at level 61, right associativity).

Definition serve (m : M Routes.Response) (w : World) : Routes.Response * World :=
  match m w with
  | (inr r, w') => (r, w')
  | (inl _, w') => ((Py.JStr "Internal Server Error", 500), w')
  end.

(** A step of [Routes] that does not write to the session, run here: it sees
    the committed rows, the clock and the log. *)
Definition of_routes {A} (m : Routes.M A) : M A :=
  fun w =>
    let '(r, v) := m (Routes.mkWorld (stored w) [] (ticks w) (logged w)) in
    (r, mkWorld (Routes.stored v) (pending w) (Routes.ticks v) (Routes.logged v)).

Definition session_write (op : Op) : M unit :=
  fun w => (inr tt, mkWorld (stored w) (pending w ++ [op]) (ticks w) (logged w)).

Definition rollback : M unit :=
  fun w => (inr tt, mkWorld (stored w) [] (ticks w) (logged w)).


(** ** The flush *)

Definition set_name (s : string) (u : User.t) : User.t :=
  User.mk (User.id u) (User.email u) (User.password_hash u) s
          (User.position_in_school u) (User.is_admin u) (User.is_active u)
          (User.created_at u) (User.updated_at u) (User.last_login u)
          (User.password_reset_token u) (User.email_verified u).

Definition set_position (s : string) (u : User.t) : User.t :=
  User.mk (User.id u) (User.email u) (User.password_hash u) (User.name u)
          s (User.is_admin u) (User.is_active u)
          (User.created_at u) (User.updated_at u) (User.last_login u)
          (User.password_reset_token u) (User.email_verified u).

Definition set_is_admin (b : option bool) (u : User.t) : User.t :=
  User.mk (User.id u) (User.email u) (User.password_hash u) (User.name u)
          (User.position_in_school u) b (User.is_active u)
          (User.created_at u) (User.updated_at u) (User.last_login u)
          (User.password_reset_token u) (User.email_verified u).

Definition set_is_active (b : option bool) (u : User.t) : User.t :=
  User.mk (User.id u) (User.email u) (User.password_hash u) (User.name u)
          (User.position_in_school u) (User.is_admin u) b
          (User.created_at u) (User.updated_at u) (User.last_login u)
          (User.password_reset_token u) (User.email_verified u).

Definition set_password_hash (h : string) (u : User.t) : User.t :=
  User.mk (User.id u) (User.email u) h (User.name u)
          (User.position_in_school u) (User.is_admin u) (User.is_active u)
          (User.created_at u) (User.updated_at u) (User.last_login u)
          (User.password_reset_token u) (User.email_verified u).

Definition set_updated_at (d : Py.datetime) (u : User.t) : User.t :=
  User.mk (User.id u) (User.email u) (User.password_hash u) (User.name u)
          (User.position_in_school u) (User.is_admin u) (User.is_active u)
          (User.created_at u) (Some d) (User.last_login u)
          (User.password_reset_token u) (User.email_verified u).

(** The UPDATE of the rows with primary key [i]. *)
Definition on_user (i : Z) (f : User.t -> User.t) (db : Orm.Database)
  : Py.Exn + Orm.Database :=
  if existsb (fun u => Z.eqb (User.id u) i) (Orm.users db)
  then inr (Orm.with_users
              (map (fun u => if Z.eqb (User.id u) i then f u else u) (Orm.users db)) db)
  else inl Py.ObjectDeletedError.

(** A column declared [nullable=False] refuses [None]; another value is
    bound as a string. *)
Definition bind_required (env : Routes.Env) (v : Py.json) : Py.Exn + string :=
  match v with
  | Py.JNull => inl Py.IntegrityError
  | _ => Routes.bind_string env v
  end.

(** A row of another table refers to user [i] through a column declared
    [nullable=False]: [Accreditation.created_by],
    [AccreditationMember.user_id] and [added_by], [Submission.submitted_by],
    [Notification.user_id]. *)
Definition referenced (i : Z) (db : Orm.Database) : bool :=
  existsb (fun a => Z.eqb (Accreditation.created_by a) i) (Orm.accreditations db)
  || existsb (fun m => Z.eqb (AccreditationMember.user_id m) i
                       || Z.eqb (AccreditationMember.added_by m) i)
             (Orm.accreditation_members db)
  || existsb (fun s => Z.eqb (Submission.submitted_by s) i) (Orm.submissions db)
  || existsb (fun n => Z.eqb (Notification.user_id n) i) (Orm.notifications db).

(** The nullable references to user [i] are set to [NULL]; the UPDATE of an
    area or of a parameter also sets its [updated_at] ([onupdate]), one clock
    reading per row. *)
Fixpoint release_areas (env : Routes.Env) (i : Z) (l : list Area.t) (t : nat)
  : list Area.t * nat :=
  match l with
  | [] => ([], t)
  | a :: l' =>
      if Orm.refers (Area.chairperson_id a) i
      then let '(r, t') := release_areas env i l' (S t) in
           (Area.mk (Area.id a) (Area.name a) (Area.description a) (Area.program_id a)
                    None (Area.created_at a) (Some (Routes.utcnow env t))
                    (Area.is_active a) :: r, t')
      else let '(r, t') := release_areas env i l' t in (a :: r, t')
  end.

Fixpoint release_parameters (env : Routes.Env) (i : Z) (l : list Param.t) (t : nat)
  : list Param.t * nat :=
  match l with
  | [] => ([], t)
  | q :: l' =>
      if Orm.refers (Param.assigned_member_id q) i
      then let '(r, t') := release_parameters env i l' (S t) in
           (Param.mk (Param.id q) (Param.name q) (Param.description q) (Param.area_id q)
                     None (Param.created_at q) (Some (Routes.utcnow env t))
                     (Param.is_active q) :: r, t')
      else let '(r, t') := release_parameters env i l' t in (q :: r, t')
  end.

Definition release_review (i : Z) (s : Submission.t) : Submission.t :=
  if Orm.refers (Submission.reviewed_by s) i
  then Submission.mk (Submission.id s) (Submission.parameter_id s)
                     (Submission.submitted_by s) (Submission.file_path s)
                     (Submission.file_name s) (Submission.file_type s)
                     (Submission.website_link s) (Submission.status s)
                     (Submission.submitted_at s) (Submission.reviewed_at s) None
                     (Submission.comments s) (Submission.version s)
  else s.

(** [db.session.delete(user)] at the flush.  The relationships that reach
    [User] are declared from the other side with a [backref] and no cascade:
    the rows they load get their foreign key set to [NULL], which the store
    refuses with [IntegrityError] where the column is [nullable=False]. *)
Definition delete_user_row (env : Routes.Env) (i : Z) (db : Orm.Database) (t : nat)
  : Py.Exn + (Orm.Database * nat) :=
  if negb (existsb (fun u => Z.eqb (User.id u) i) (Orm.users db))
  then inl Py.ObjectDeletedError
  else if referenced i db then inl Py.IntegrityError
  else
    let '(areas', t1) := release_areas env i (Orm.areas db) t in
    let '(parameters', t2) := release_parameters env i (Orm.parameters db) t1 in
    inr (Orm.mkDb (filter (fun u => negb (Z.eqb (User.id u) i)) (Orm.users db))
                  (Orm.accreditations db) (Orm.programs db) areas' parameters'
                  (Orm.accreditation_members db)
                  (map (release_review i) (Orm.submissions db))
                  (Orm.notifications db) (Orm.progress_tracking db),
         t2).

Definition keep_clock (t : nat) (x : Py.Exn + Orm.Database)
  : Py.Exn + (Orm.Database * nat) :=
  match x with inr db => inr (db, t) | inl e => inl e end.

(** The flush of one write.  Every handler below assigns [updated_at] itself
    before it commits, so the [onupdate] default of [User.updated_at] never
    applies to the UPDATE of a user row. *)
Definition flush_op (env : Routes.Env) (op : Op) (db : Orm.Database) (t : nat)
  : Py.Exn + (Orm.Database * nat) :=
  match op with
  | SetName i v =>
      match bind_required env v with
      | inr s => keep_clock t (on_user i (set_name s) db)
      | inl e => inl e
      end
  | SetPosition i v =>
      match bind_required env v with
      | inr s => keep_clock t (on_user i (set_position s) db)
      | inl e => inl e
      end
  | SetIsAdmin i v =>
      match Routes.bind_boolean env v with
      | inr b => keep_clock t (on_user i (set_is_admin b) db)
      | inl e => inl e
      end
  | SetIsActive i v =>
      match Routes.bind_boolean env v with
      | inr b => keep_clock t (on_user i (set_is_active b) db)
      | inl e => inl e
      end
  | SetPasswordHash i h => keep_clock t (on_user i (set_password_hash h) db)
  | SetUpdatedAt i d => keep_clock t (on_user i (set_updated_at d) db)
  | Delete i => delete_user_row env i db t
  end.

Fixpoint flush (env : Routes.Env) (ops : list Op) (db : Orm.Database) (t : nat)
  : Py.Exn + (Orm.Database * nat) :=
  match ops with
  | [] => inr (db, t)
  | op :: ops' =>
      match flush_op env op db t with
      | inl e => inl e
      | inr (db1, t1) => flush env ops' db1 t1
      end
  end.

(** [db.session.commit()], as in [Routes.commit]. *)
Definition commit (env : Routes.Env) : M unit :=
  fun w =>
    match flush env (pending w) (stored w) (ticks w) with
    | inl e => (inl e, w)
    | inr (db, t) =>
        if Routes.commit_raises env then (inl Py.OperationalError, w)
        else (inr tt, mkWorld db [] t (logged w))
    end.

(** ** The handlers *)

Definition log_error (what : string) (e : Py.Exn) : M unit :=
  of_routes (Routes.log_error what e).


Definition on_error_rollback (what : string) (e : Py.Exn) : M Routes.Response :=
  rollback ;;; log_error what e ;;; ret (Routes.error "Internal server error" 500).

(** [admin_required(f)], for the handlers of this module. *)
Definition admin_required (env : Routes.Env) (f : M Routes.Response) : M Routes.Response :=
  user <- of_routes (Routes.query_get (Routes.get_jwt_identity env)) ;;
  match user with
  | None => ret (Routes.error "Admin privileges required" 403)
  | Some u =>
      if negb (Routes.is_true (User.is_admin u))
      then ret (Routes.error "Admin privileges required" 403)
      else f
  end.


(** auth.py: [change_password]. *)
Definition change_password_body (env : Routes.Env) (data : Py.json) : M Routes.Response :=
  if negb (Py.truthy data)
  then ret (Routes.error "Current password and new password are required" 400) else
  c <- of_routes (Routes.py_get data "current_password") ;;
  if negb (Py.truthy c)
  then ret (Routes.error "Current password and new password are required" 400) else
  n <- of_routes (Routes.py_get data "new_password") ;;
  if negb (Py.truthy n)
  then ret (Routes.error "Current password and new password are required" 400) else
  user <- of_routes (Routes.query_get (Routes.get_jwt_identity env)) ;;
  match user with
  | None => ret (Routes.error "User not found" 404)
  | Some u =>
      current_password <- of_routes (Routes.subscript data "current_password") ;;
      ok <- of_routes (Routes.check_password env u current_password) ;;
      if negb ok then ret (Routes.error "Current password is incorrect" 401) else
      new_password <- of_routes (Routes.subscript data "new_password") ;;
      h <- of_routes (Routes.set_password env new_password) ;;
      session_write (SetPasswordHash (User.id u) h) ;;;
      now <- of_routes (Routes.clock env) ;;
      session_write (SetUpdatedAt (User.id u) now) ;;;
      commit env ;;;
      ret (Py.JDict [("message", Py.JStr "Password changed successfully")], 200)
  end.

Definition change_password (env : Routes.Env) (data : Py.json) (db : Orm.Database)
  : Routes.Response * World :=
  serve (try_except (change_password_body env data)
                    (on_error_rollback "Change password error"))
        (fresh db).



(** [if k in data: user.<column> = data[k]]. *)
Definition assign (data : Py.json) (k : string) (column : Py.json -> Op) : M unit :=
  present <- lift (contains data k) ;;
  if present
  then v <- of_routes (Routes.subscript data k) ;; session_write (column v)
  else ret tt.

(** [if 'password' in data and data['password']: user.set_password(...)]. *)
Definition assign_password (env : Routes.Env) (data : Py.json) (user : Z) : M unit :=
  present <- lift (contains data "password") ;;
  if present
  then v <- of_routes (Routes.subscript data "password") ;;
       if Py.truthy v
       then h <- of_routes (Routes.set_password env v) ;;
            session_write (SetPasswordHash user h)
       else ret tt
  else ret tt.

(** admin.py: [update_user]. *)
Definition update_user_body (env : Routes.Env) (user_id : Z) (data : Py.json)
  : M Routes.Response :=
  user <- of_routes (Routes.query_get user_id) ;;
  match user with
  | None => ret (Routes.error "User not found" 404)
  | Some u =>
      assign data "name" (SetName (User.id u)) ;;;
      assign data "position_in_school" (SetPosition (User.id u)) ;;;
      assign data "is_admin" (SetIsAdmin (User.id u)) ;;;
      assign data "is_active" (SetIsActive (User.id u)) ;;;
      assign_password env data (User.id u) ;;;
      now <- of_routes (Routes.clock env) ;;
      session_write (SetUpdatedAt (User.id u) now) ;;;
      commit env ;;;
      u' <- of_routes (Routes.refresh (User.id u)) ;;
      ret (Py.JDict [("message", Py.JStr "User updated successfully");
                     ("user", Py.JDict (User.to_dict u'))], 200)
  end.

Definition update_user (env : Routes.Env) (user_id : Z) (data : Py.json)
  (db : Orm.Database) : Routes.Response * World :=
  serve (admin_required env
           (try_except (update_user_body env user_id data)
                       (on_error_rollback "Update user error")))
        (fresh db).

(** admin.py: [delete_user]. *)
Definition delete_user_body (env : Routes.Env) (user_id : Z) : M Routes.Response :=
  if Z.eqb (Routes.get_jwt_identity env) user_id
  then ret (Routes.error "Cannot delete your own account" 400) else
  user <- of_routes (Routes.query_get user_id) ;;
  match user with
  | None => ret (Routes.error "User not found" 404)
  | Some u =>
      session_write (Delete (User.id u)) ;;;
      commit env ;;;
      ret (Py.JDict [("message", Py.JStr "User deleted successfully")], 200)
  end.

Definition delete_user (env : Routes.Env) (user_id : Z) (db : Orm.Database)
  : Routes.Response * World :=
  serve (admin_required env
           (try_except (delete_user_body env user_id)
                       (on_error_rollback "Delete user error")))
        (fresh db).

(** admin.py: [reset_user_password]. *)
Definition reset_user_password_body (env : Routes.Env) (user_id : Z) : M Routes.Response :=
  user <- of_routes (Routes.query_get user_id) ;;
  match user with
  | None => ret (Routes.error "User not found" 404)
  | Some u =>
      let new_password := Routes.generated_password env in
      h <- of_routes (Routes.set_password env (Py.JStr new_password)) ;;
      session_write (SetPasswordHash (User.id u) h) ;;;
      now <- of_routes (Routes.clock env) ;;
      session_write (SetUpdatedAt (User.id u) now) ;;;
      commit env ;;;
      ret (Py.JDict [("message", Py.JStr "Password reset successfully");
                     ("new_password", Py.JStr new_password)], 200)
  end.

Definition reset_user_password (env : Routes.Env) (user_id : Z) (db : Orm.Database)
  : Routes.Response * World :=
  serve (admin_required env
           (try_except (reset_user_password_body env user_id)
                       (on_error_rollback "Reset password error")))
        (fresh db).

(** ** Postconditions, as for [Routes] *)
Definition ends {A} (m : M A) (w : World) (Q : Py.Exn + A -> World -> Prop) : Prop :=
  Q (fst (m w)) (snd (m w)).

Definition reads {A} (m : M A) : Prop := forall w, snd (m w) = w.

End Accounts.

(* ===================================================================== *)
(** * admin.py: [generate_password]; app/__init__.py: the default admin *)
(* ===================================================================== *)

Module Startup.

(** [string.ascii_letters + string.digits]. *)
Definition ascii_letters : string :=
  "abcdefghijklmnopqrstuvwxyzABCDEFGHIJKLMNOPQRSTUVWXYZ".

Definition digits : string := "0123456789".

Definition characters : string := (ascii_letters ++ digits)%string.

(** [secrets.choice(seq)]: the element at the index the random source draws
    below [len(seq)]; [draw] is the number it draws from. *)
Definition choice (draw : nat) (seq : string) : ascii :=
  match String.get (Nat.modulo draw (String.length seq)) seq with
  | Some c => c
  | None => "000"%char
  end.

(** [generate_password(length)]: [''.join(secrets.choice(characters) for _ in
    range(length))]; [draws k] feeds the [k]-th choice. *)
Fixpoint generate_password (draws : nat -> nat) (length : nat) : string :=
  match length with
  | O => EmptyString
  | S n => String (choice (draws O) characters)
                  (generate_password (fun k => draws (S k)) n)
  end.

(** The block of [create_app] under [app.app_context()], after
    [db.create_all()]: the default admin is created unless a user with its
    email exists.  No handler catches what the block raises. *)
Definition create_default_admin (env : Routes.Env) : Routes.M unit :=
  Routes.bind (Routes.query_by_email env (Py.JStr "admin@ecap.com")) (fun admin_user =>
  match admin_user with
  | Some _ => Routes.ret tt
  | None =>
      Routes.bind (Routes.set_password env (Py.JStr "admin123")) (fun h =>
      Routes.bind (Routes.session_write
                     (Routes.Insert (Py.JStr "admin@ecap.com")
                                    (Py.JStr "System Administrator")
                                    (Py.JStr "Administrator") (Py.JBool true) h)) (fun _ =>
      Routes.bind (Routes.commit env) (fun _ => Routes.ret tt)))
  end).

(** The database after start-up; [None] when the block raises. *)
Definition create_app (env : Routes.Env) (db : Orm.Database) : option Orm.Database :=
  match create_default_admin env (Routes.fresh db) with
  | (inr _, w) => Some (Routes.stored w)
  | (inl _, _) => None
  end.

End Startup.

(* ===================================================================== *)
(** * Predicates the further properties are stated with *)
(* ===================================================================== *)

Module Stated.

Import Routes.

(** The row [login] stamps: [last_login] is the first clock reading of the
    request, [updated_at] the second. *)
Definition stamped_login (env : Env) (i : Z) (users : list User.t) : list User.t :=
  map (fun x => if Z.eqb (User.id x) i then set_login (utcnow env 0) (utcnow env 1) x else x)
      users.

(** What stands behind an accepted login: the body is an object whose email
    selects the user [u] of [db], the password is a string bcrypt accepts for
    the hash of [u], and [u] is active. *)
Definition credentials_hold (env : Env) (data : Py.json) (db : Orm.Database) (u : User.t)
  : Prop :=
  exists d e p s,
    data = Py.JDict d
    /\ Py.lookup d "email" = Some e /\ Py.truthy e = true
    /\ Py.lookup d "password" = Some (Py.JStr p) /\ p <> ""
    /\ bind_string env e = inr s
    /\ find (fun x => String.eqb (User.email x) s) (Orm.users db) = Some u
    /\ check_password_hash env (User.password_hash u) p = Some true
    /\ User.is_active u = Some true.

(** A user row without its two time stamps. *)
Definition without_stamps (u : User.t) : User.t :=
  User.mk (User.id u) (User.email u) (User.password_hash u) (User.name u)
          (User.position_in_school u) (User.is_admin u) (User.is_active u)
          (User.created_at u) None None
          (User.password_reset_token u) (User.email_verified u).

(** The row an INSERT of [register] or [create_user] stores at clock reading
    [t] under primary key [i]: the bound strings, the hash, the boolean or
    the default [False], and the defaults of the other columns. *)
Definition inserted (env : Env) (t : nat) (i : Z) (e h n p : string) (a : option bool)
  : User.t :=
  User.mk i e h n p (Some (match a with Some b => b | None => false end)) (Some true)
          (Some (utcnow env t)) (Some (utcnow env (S t))) None None (Some false).

Definition required : list string := ["email"; "password"; "name"; "position_in_school"].

(** What stands behind an accepted registration [u]. *)
Definition registration_holds (env : Env) (data : Py.json) (db : Orm.Database) (u : User.t)
  : Prop :=
  exists d pw,
    data = Py.JDict d
    /\ (forall f, In f required -> Py.truthy (Py.get d f) = true)
    /\ Py.lookup d "password" = Some (Py.JStr pw)
    /\ bind_string env (Py.get d "email") = inr (User.email u)
    /\ bind_string env (Py.get d "name") = inr (User.name u)
    /\ bind_string env (Py.get d "position_in_school") = inr (User.position_in_school u)
    /\ find (fun x => String.eqb (User.email x) (User.email u)) (Orm.users db) = None
    /\ u = inserted env 0 (Orm.next_id User.id (Orm.users db)) (User.email u)
                    (generate_password_hash env pw) (User.name u)
                    (User.position_in_school u) (Some false).

(** The caller of an admin route: the user the token identifies, when it is
    an administrator. *)
Definition caller_is_admin (env : Env) (db : Orm.Database) : bool :=
  match find (fun u => Z.eqb (User.id u) (get_jwt_identity env)) (Orm.users db) with
  | Some u => is_true (User.is_admin u)
  | None => false
  end.

(** What stands behind a user [u] that [create_user] created with the clear
    password [pw]. *)
Definition creation_holds (env : Env) (data : Py.json) (db : Orm.Database)
  (u : User.t) (pw : string) : Prop :=
  exists d a,
    data = Py.JDict d
    /\ (forall f, In f ["email"; "name"; "position_in_school"] ->
                  Py.truthy (Py.get d f) = true)
    /\ (if Py.truthy (Py.get d "password") then Py.get d "password"
        else Py.JStr (generated_password env)) = Py.JStr pw
    /\ bind_string env (Py.get d "email") = inr (User.email u)
    /\ bind_string env (Py.get d "name") = inr (User.name u)
    /\ bind_string env (Py.get d "position_in_school") = inr (User.position_in_school u)
    /\ bind_boolean env (Py.get_default d "is_admin" (Py.JBool false)) = inr a
    /\ find (fun x => String.eqb (User.email x) (User.email u)) (Orm.users db) = None
    /\ u = inserted env 0 (Orm.next_id User.id (Orm.users db)) (User.email u)
                    (generate_password_hash env pw) (User.name u)
                    (User.position_in_school u) a.

(** A write of [Accounts] that assigns a column of user [i]. *)
Definition assigns (i : Z) (op : Accounts.Op) : Prop :=
  match op with
  | Accounts.SetName j _ | Accounts.SetPosition j _ | Accounts.SetIsAdmin j _
  | Accounts.SetIsActive j _ | Accounts.SetPasswordHash j _
  | Accounts.SetUpdatedAt j _ => j = i
  | Accounts.Delete _ => False
  end.

(** The columns no handler of [admin.py] assigns. *)
Definition fixed_columns (u : User.t)
  : Z * string * option Py.datetime * option Py.datetime * option string * option bool :=
  (User.id u, User.email u, User.created_at u, User.last_login u,
   User.password_reset_token u, User.email_verified u).

(** What a request that only assigns columns of user [i] keeps: the other
    tables, the columns of [fixed_columns] in every row, and the rows of the
    other users. *)
Definition assigned_only (i : Z) (db db' : Orm.Database) : Prop :=
  db' = Orm.with_users (Orm.users db') db
  /\ map fixed_columns (Orm.users db') = map fixed_columns (Orm.users db)
  /\ filter (fun u => negb (Z.eqb (User.id u) i)) (Orm.users db')
     = filter (fun u => negb (Z.eqb (User.id u) i)) (Orm.users db).

(** The users after the password of user [i] became [h] at time [d]. *)
Definition rehashed (i : Z) (h : string) (d : Py.datetime) (users : list User.t)
  : list User.t :=
  map (fun u => if Z.eqb (User.id u) i
                then Accounts.set_updated_at d (Accounts.set_password_hash h u)
                else u)
      users.

(** No row of [db] is or refers to user [i]. *)
Definition gone (i : Z) (db : Orm.Database) : Prop :=
  (forall u, In u (Orm.users db) -> User.id u <> i)
  /\ (forall a, In a (Orm.accreditations db) -> Accreditation.created_by a <> i)
  /\ (forall m, In m (Orm.accreditation_members db) ->
                AccreditationMember.user_id m <> i /\ AccreditationMember.added_by m <> i)
  /\ (forall x, In x (Orm.areas db) -> Area.chairperson_id x <> Some i)
  /\ (forall q, In q (Orm.parameters db) -> Param.assigned_member_id q <> Some i)
  /\ (forall s, In s (Orm.submissions db) ->
                Submission.submitted_by s <> i /\ Submission.reviewed_by s <> Some i)
  /\ (forall n, In n (Orm.notifications db) -> Notification.user_id n <> i).

(** The rows a DELETE of a user leaves in the other tables: all of them,
    with the same primary keys. *)
Definition rows_kept (db db' : Orm.Database) : Prop :=
  Orm.accreditations db' = Orm.accreditations db
  /\ Orm.programs db' = Orm.programs db
  /\ map Area.id (Orm.areas db') = map Area.id (Orm.areas db)
  /\ map Param.id (Orm.parameters db') = map Param.id (Orm.parameters db)
  /\ Orm.accreditation_members db' = Orm.accreditation_members db
  /\ map Submission.id (Orm.submissions db') = map Submission.id (Orm.submissions db)
  /\ Orm.notifications db' = Orm.notifications db
  /\ Orm.progress_tracking db' = Orm.progress_tracking db.

(** The body of a login with a literal email and password. *)
Definition credentials (email password : string) : Py.json :=
  Py.JDict [("email", Py.JStr email); ("password", Py.JStr password)].

(** What stands behind an accepted change of password to [new]: the body is
    an object with two non-empty strings, the token identifies the user [u]
    and bcrypt accepts the current password for the hash of [u]. *)
Definition password_change_holds (env : Env) (data : Py.json) (db : Orm.Database)
  (u : User.t) (new : string) : Prop :=
  exists d cur,
    data = Py.JDict d
    /\ Py.lookup d "current_password" = Some (Py.JStr cur) /\ cur <> EmptyString
    /\ Py.lookup d "new_password" = Some (Py.JStr new) /\ new <> EmptyString
    /\ find (fun x => Z.eqb (User.id x) (get_jwt_identity env)) (Orm.users db) = Some u
    /\ check_password_hash env (User.password_hash u) cur = Some true.

(** Two invariants of the unit of work of a handler that assigns columns of
    user [i]: the stored rows are those of [db] and every pending write
    assigns a column of [i]; the column [col] of the stored rows is that of
    [db] and every pending write is one of [ok]. *)
Definition assigning (i : Z) (db : Orm.Database) (w : Accounts.World) : Prop :=
  Accounts.stored w = db /\ Forall (assigns i) (Accounts.pending w).

Definition holding {C : Type} (col : User.t -> C) (ok : Accounts.Op -> Prop)
  (db : Orm.Database) (w : Accounts.World) : Prop :=
  map col (Orm.users (Accounts.stored w)) = map col (Orm.users db)
  /\ Forall ok (Accounts.pending w).

(** A notification [n] and what the deletion of accreditation [a] leaves of
    it: the same row, where a reference may have become [NULL] if it pointed
    to a submission or to an area of [a]. *)
Definition unlinked (n : Notification.t) : Notification.t :=
  Notification.set_related_submission_id None (Notification.set_related_area_id None n).

Definition cleared (a : Accreditation.t) (db : Orm.Database) (n n' : Notification.t)
  : Prop :=
  unlinked n' = unlinked n
  /\ (Notification.related_submission_id n' = Notification.related_submission_id n
      \/ Notification.related_submission_id n' = None
         /\ exists s, In s (Orm.submissions db) /\ Spec.submission_of db a s
                      /\ Notification.related_submission_id n = Some (Submission.id s))
  /\ (Notification.related_area_id n' = Notification.related_area_id n
      \/ Notification.related_area_id n' = None
         /\ exists x, In x (Orm.areas db) /\ Spec.area_of db a x
                      /\ Notification.related_area_id n = Some (Area.id x)).

End Stated.

(* ===================================================================== *)
(** * Further sample data *)
(* ===================================================================== *)

Module Fixtures.

(** An administrator (the caller of [Samples.env]) and a second user whom one
    area names as its chairperson and no other row refers to. *)
Definition root : User.t :=
  User.mk 1 "root@ecap.com" "$2b$12$t0psecret" "Root" "Administrator" (Some true)
          (Some true) (Some Samples.morning) (Some Samples.morning) None None (Some false).

Definition dave : User.t :=
  User.mk 2 "dave@ecap.com" "$2b$12$old" "Dave" "Chair" (Some false) (Some true)
          (Some Samples.morning) (Some Samples.morning) None None (Some false).

Definition staff : Orm.Database :=
  Orm.mkDb [root; dave]
           [Accreditation.mk 1 "AACCUP" 2024 None 1 None None (Some true)]
           [Program.mk 10 "BSCS" None Samples.noon 1 None None (Some true)]
           [Area.mk 100 "Faculty" None 10 (Some 2) None None (Some true)]
           [] [] [] [] [].

(** The same, with a notification addressed to the second user. *)
Definition staff_notified : Orm.Database :=
  Orm.mkDb (Orm.users staff) (Orm.accreditations staff) (Orm.programs staff)
           (Orm.areas staff) [] [] []
           [Notification.mk 1 2 "Welcome" "Hello" Notification.TYPE_GENERAL
                            (Some false) (Some false) None None None]
           [].

(** The caller of [Samples.env] changes the password ["t0psecret"]. *)
Definition new_secret : Py.json :=
  Py.JDict [("current_password", Py.JStr "t0psecret");
            ("new_password", Py.JStr "n3wsecret")].

(** A promotion that also tries to change the email. *)
Definition promote : Py.json :=
  Py.JDict [("is_admin", Py.JBool true); ("email", Py.JStr "root@ecap.com")].

End Fixtures.


(* ===================================================================== *)
(** * Progress aggregation *)
(* ===================================================================== *)

Module ProgressFacts.

Import ProgressTracking.

Lemma round_zero : Py.round 0%float 2 = 0%float.
Proof. reflexivity. Qed.

(** The builtins agree with CPython on the running example: 1/3*100 is
    33.33333333333333 and rounds to the double written 33.33. *)
Example percentage_one_of_three :
  (Py.truediv 1 3 * 100)%float = 0x1.0aaaaaaaaaaaap+5%float
  /\ Py.round 0x1.0aaaaaaaaaaaap+5%float 2 = 0x1.0aa3d70a3d70ap+5%float.
Proof. split; vm_compute; reflexivity. Qed.

(** C1, as stated, fails: with 1 of 3 parameters completed the record holds
    33.33333333333333 after [calculate_progress], not the value rounded to
    two decimal places. *)
Lemma calculate_progress_not_rounded :
  ~ Spec.stores_rounded_percentage (calculate_progress Samples.noon Samples.one_of_three).
Proof.
  intros [H _].
  assert (Hpos : 0 < total_parameters (calculate_progress Samples.noon Samples.one_of_three))
    by (vm_compute; reflexivity).
  specialize (H Hpos).
  apply (f_equal Prim2SF) in H.
  vm_compute in H.
  discriminate H.
Qed.

(** C1 (amended): after [calculate_progress] the record holds
    [completed_parameters / total_parameters * 100] unrounded when
    [total_parameters > 0] and [0.0] otherwise, the counters are untouched,
    and [to_dict] reports that percentage rounded to two decimal places. *)
Theorem calculate_progress_percentage :
  forall (now : Py.datetime) (p : t) (program_name area_name : option string),
    let p' := calculate_progress now p in
    progress_percentage p' =
      (if 0 <? total_parameters p
       then (Py.truediv (completed_parameters p) (total_parameters p) * 100)%float
       else 0%float)
    /\ total_parameters p' = total_parameters p
    /\ completed_parameters p' = completed_parameters p
    /\ Py.lookup (to_dict program_name area_name p') "progress_percentage" =
       Some (Py.JFloat
               (if 0 <? total_parameters p
                then Py.round (Py.truediv (completed_parameters p) (total_parameters p)
                               * 100)%float 2
                else 0%float)).
Proof.
  intros now p pn an p'. subst p'.
  repeat split.
  unfold to_dict, calculate_progress; cbn [Py.lookup String.eqb Ascii.eqb Bool.eqb
    progress_percentage total_parameters completed_parameters].
  destruct (0 <? total_parameters p); [reflexivity | now rewrite round_zero].
Qed.

(** C5, as stated, fails: a second run at a later clock reading changes
    [last_updated], so the record (and its [to_dict]) differs from the one a
    single run leaves. *)
Lemma calculate_progress_twice_differs :
  ~ Spec.second_run_changes_nothing Samples.morning Samples.noon Samples.one_of_three.
Proof.
  unfold Spec.second_run_changes_nothing. intro H.
  apply (f_equal last_updated) in H. cbn in H. discriminate H.
Qed.

(** C5 (amended): a second run recomputes the same counters and the same
    percentage; the record after two runs is the one a single run at the
    later reading leaves, and its [to_dict] differs from the first run's in
    the [last_updated] entry only. *)
Theorem calculate_progress_idempotent :
  forall (now later : Py.datetime) (p : t) (program_name area_name : option string),
    let once := calculate_progress now p in
    let twice := calculate_progress later once in
    twice = calculate_progress later p
    /\ progress_percentage twice = progress_percentage once
    /\ total_parameters twice = total_parameters once
    /\ completed_parameters twice = completed_parameters once
    /\ last_updated twice = Some later
    /\ Spec.without "last_updated" (to_dict program_name area_name twice)
       = Spec.without "last_updated" (to_dict program_name area_name once).
Proof.
  intros now later p pn an once twice. subst once twice.
  repeat split.
Qed.

End ProgressFacts.

(* ===================================================================== *)
(** * JSON projection of a user *)
(* ===================================================================== *)

Module ProjectionFacts.

(** C10: [User.to_dict] has no [password_hash] and no [password_reset_token]
    entry, and two users that differ only in those two columns have the same
    projection. *)
Theorem to_dict_hides_secrets :
  forall u v : User.t,
    Spec.same_but_secrets u v ->
    User.to_dict u = User.to_dict v
    /\ ~ In "password_hash" (Py.keys (User.to_dict u))
    /\ ~ In "password_reset_token" (Py.keys (User.to_dict u)).
Proof.
  intros u v (Hid & Hem & Hn & Hp & Had & Hac & Hcr & _ & Hl & Hv).
  split; [| split].
  - unfold User.to_dict. now rewrite Hid, Hem, Hn, Hp, Had, Hac, Hcr, Hl, Hv.
  - cbn. intros H. repeat (destruct H as [H | H]; [discriminate H |]). exact H.
  - cbn. intros H. repeat (destruct H as [H | H]; [discriminate H |]). exact H.
Qed.

Lemma to_dict_hides_secrets_witness :
  Spec.same_but_secrets Samples.alice Samples.alice_after_reset
  /\ User.to_dict Samples.alice = User.to_dict Samples.alice_after_reset.
Proof.
  split.
  - unfold Spec.same_but_secrets; cbn; repeat split.
  - apply (to_dict_hides_secrets Samples.alice Samples.alice_after_reset).
    unfold Spec.same_but_secrets; cbn; repeat split.
Defined.

End ProjectionFacts.

(* ===================================================================== *)
(** * The ownership cascade *)
(* ===================================================================== *)

Module CascadeFacts.

Import Orm.

Section Cascade.

Variable a : Accreditation.t.
Variable db : Database.

Lemma doomed_program_spec p : Spec.doomed_program a p = true <-> Spec.program_of a p.
Proof. unfold Spec.doomed_program, Spec.program_of. apply Z.eqb_eq. Qed.

Lemma doomed_area_spec x : Spec.doomed_area a db x = true <-> Spec.area_of db a x.
Proof.
  unfold Spec.doomed_area, Spec.area_of. rewrite existsb_exists.
  split; intros (p & Hin & H); exists p.
  - apply andb_true_iff in H as [H1 H2].
    now rewrite <- doomed_program_spec, <- Z.eqb_eq.
  - destruct H as [H1 H2]. split; [exact Hin |].
    apply andb_true_iff. now rewrite doomed_program_spec, Z.eqb_eq.
Qed.

Lemma doomed_parameter_spec q : Spec.doomed_parameter a db q = true <-> Spec.parameter_of db a q.
Proof.
  unfold Spec.doomed_parameter, Spec.parameter_of. rewrite existsb_exists.
  split; intros (x & Hin & H); exists x.
  - apply andb_true_iff in H as [H1 H2].
    now rewrite <- doomed_area_spec, <- Z.eqb_eq.
  - destruct H as [H1 H2]. split; [exact Hin |].
    apply andb_true_iff. now rewrite doomed_area_spec, Z.eqb_eq.
Qed.

Lemma doomed_submission_spec s :
  Spec.doomed_submission a db s = true <-> Spec.submission_of db a s.
Proof.
  unfold Spec.doomed_submission, Spec.submission_of. rewrite existsb_exists.
  split; intros (q & Hin & H); exists q.
  - apply andb_true_iff in H as [H1 H2].
    now rewrite <- doomed_parameter_spec, <- Z.eqb_eq.
  - destruct H as [H1 H2]. split; [exact Hin |].
    apply andb_true_iff. now rewrite doomed_parameter_spec, Z.eqb_eq.
Qed.

(** What [delete_accreditation] leaves in each table of the tree. *)
Lemma programs_after :
  programs (delete_accreditation a db)
  = filter (fun p => negb (Spec.doomed_program a p)) (programs db).
Proof. reflexivity. Qed.

Lemma areas_after :
  areas (delete_accreditation a db) = filter (fun x => negb (Spec.doomed_area a db x)) (areas db).
Proof. reflexivity. Qed.

Lemma parameters_after :
  parameters (delete_accreditation a db)
  = filter (fun q => negb (Spec.doomed_parameter a db q)) (parameters db).
Proof. reflexivity. Qed.

Lemma submissions_after :
  submissions (delete_accreditation a db)
  = filter (fun s => negb (Spec.doomed_submission a db s)) (submissions db).
Proof. reflexivity. Qed.

Lemma members_after :
  accreditation_members (delete_accreditation a db)
  = filter (fun m => negb (Z.eqb (AccreditationMember.accreditation_id m)
                                 (Accreditation.id a)))
           (accreditation_members db).
Proof. reflexivity. Qed.

Lemma kept {A} (f : A -> bool) (P : A -> Prop) (l : list A) :
  (forall x, f x = true <-> P x) ->
  forall x, In x (filter (fun y => negb (f y)) l) <-> In x l /\ ~ P x.
Proof.
  intros Hf x. rewrite filter_In, negb_true_iff, <- Hf.
  now rewrite not_true_iff_false.
Qed.

End Cascade.

(** C7: after an accreditation is deleted, the programs that remain are
    exactly those of the other accreditations, and the areas, parameters and
    submissions that remain are exactly those not owned, through the tree, by
    the deleted accreditation; the accreditation row and its members are gone
    and the users are untouched. *)
Theorem delete_accreditation_cascades :
  forall (a : Accreditation.t) (db : Database),
    let db' := delete_accreditation a db in
    (forall p, In p (programs db') <-> In p (programs db) /\ ~ Spec.program_of a p)
    /\ (forall x, In x (areas db') <-> In x (areas db) /\ ~ Spec.area_of db a x)
    /\ (forall q, In q (parameters db') <->
                  In q (parameters db) /\ ~ Spec.parameter_of db a q)
    /\ (forall s, In s (submissions db') <->
                  In s (submissions db) /\ ~ Spec.submission_of db a s)
    /\ (forall m, In m (accreditation_members db') <->
                  In m (accreditation_members db)
                  /\ AccreditationMember.accreditation_id m <> Accreditation.id a)
    /\ (forall x, In x (accreditations db') -> Accreditation.id x <> Accreditation.id a)
    /\ users db' = users db.
Proof.
  intros a db db'. subst db'.
  split; [| split; [| split; [| split; [| split; [| split]]]]].
  - rewrite programs_after. apply kept, doomed_program_spec.
  - rewrite areas_after. apply kept, doomed_area_spec.
  - rewrite parameters_after. apply kept, doomed_parameter_spec.
  - rewrite submissions_after. apply kept, doomed_submission_spec.
  - rewrite members_after.
    apply (kept (fun m => Z.eqb (AccreditationMember.accreditation_id m)
                                (Accreditation.id a))).
    intro x. apply Z.eqb_eq.
  - intros x Hin. cbn [accreditations delete_accreditation] in Hin.
    apply filter_In in Hin as [_ Hne].
    apply negb_true_iff, Z.eqb_neq in Hne. exact Hne.
  - reflexivity.
Qed.

(** Deleting the first accreditation of the sample database leaves the tree
    of the second, and the notification about the deleted submission loses
    its two references. *)
Example delete_first_accreditation :
  delete_accreditation (Accreditation.mk 1 "AACCUP" 2024 None 1 None None (Some true))
                       Samples.campus
  = mkDb (users Samples.campus)
         [Accreditation.mk 2 "PAASCU" 2025 None 1 None None (Some true)]
         [Program.mk 20 "BSIT" None Samples.noon 2 None None (Some true)]
         [Area.mk 200 "Library" None 20 None None None (Some true)]
         [Param.mk 2000 "Holdings" None 200 None None None (Some true)]
         [AccreditationMember.mk 2 2 1 1 None (Some true)]
         [Submission.mk 2 2000 1 None None None (Some "https://ecap.example/b")
                        (Some Submission.STATUS_PENDING) None None None None (Some 1)]
         [Notification.mk 1 1 "New submission" "Profiles" Notification.TYPE_ASSIGNMENT
                          (Some false) (Some false) None None None;
          Notification.mk 2 1 "New submission" "Holdings" Notification.TYPE_ASSIGNMENT
                          (Some false) (Some false) None (Some 2) (Some 200)]
         [ProgressTracking.mk 3 20 None 1 0 0%float None].
Proof. reflexivity. Qed.

End CascadeFacts.

(* ===================================================================== *)
(** * Schema constraints *)
(* ===================================================================== *)

Module SchemaFacts.

Lemma NoDup_snoc {A} (l : list A) (x : A) :
  NoDup l -> ~ In x l -> NoDup (l ++ [x]).
Proof.
  induction l as [| y l IH]; intros Hnd Hx; cbn.
  - constructor; [intros [] | constructor].
  - inversion Hnd as [| ? ? Hy Hl]; subst. constructor.
    + rewrite in_app_iff. intros [H | [H | []]]; [now apply Hy |].
      subst. apply Hx. now left.
    + apply IH; [exact Hl |]. intro H. apply Hx. now right.
Qed.

(** The declared constraint, read as a statement on the table. *)
Lemma unique_accreditation_member_spec (row : AccreditationMember.t) tbl :
  AccreditationMember.unique_accreditation_member row tbl = true
  <-> ~ In (Spec.membership row) (map Spec.membership tbl).
Proof.
  unfold AccreditationMember.unique_accreditation_member.
  rewrite negb_true_iff, <- not_true_iff_false, existsb_exists, in_map_iff.
  split; intros H (r & H1 & H2); apply H; exists r.
  - split; [exact H2 |]. unfold Spec.membership in H1.
    injection H1 as Ha Hu. now rewrite Ha, Hu, !Z.eqb_refl.
  - apply andb_true_iff in H2 as [Ha Hu]. apply Z.eqb_eq in Ha, Hu.
    split; [| exact H1]. unfold Spec.membership. now rewrite Ha, Hu.
Qed.

(** An accepted INSERT keeps the table at one row per pair. *)
Lemma add_member_keeps_unique now m tbl tbl' :
  Spec.one_row_per_pair tbl ->
  Orm.add_member now m tbl = inr tbl' ->
  Spec.one_row_per_pair tbl'.
Proof.
  unfold Orm.add_member, Orm.insert, AccreditationMember.table_args.
  cbn [forallb]. rewrite andb_true_r. intros Hnd.
  destruct (AccreditationMember.unique_accreditation_member _ tbl) eqn:Hu;
    [| discriminate].
  intros [= <-]. apply unique_accreditation_member_spec in Hu.
  unfold Spec.one_row_per_pair. rewrite map_app. cbn [map].
  now apply NoDup_snoc.
Qed.

(** Every table a run of INSERTs builds from the empty table has at most one
    row per pair. *)
Lemma add_members_unique now ms :
  forall tbl, Spec.one_row_per_pair tbl -> Spec.one_row_per_pair (Orm.add_members now ms tbl).
Proof.
  unfold Orm.add_members, Orm.insert_all.
  induction ms as [| m ms IH]; intros tbl Hnd; cbn [map fold_left]; [exact Hnd |].
  apply IH.
  destruct (Orm.insert _ _ _ (AccreditationMember.defaults now m) tbl) as [e | tbl'] eqn:E;
    [exact Hnd |].
  exact (add_member_keeps_unique now m tbl tbl' Hnd E).
Qed.

(** C8: on a table with at most one row per (accreditation_id, user_id), the
    INSERT of a membership is refused with [IntegrityError] exactly when a row
    for the pair exists; otherwise the row is appended and the table still
    has at most one row per pair. *)
Theorem membership_unique :
  forall (now : Py.datetime) (m : AccreditationMember.t) (tbl : list AccreditationMember.t),
    Spec.one_row_per_pair tbl ->
    match Orm.add_member now m tbl with
    | inr tbl' =>
        Spec.one_row_per_pair tbl'
        /\ ~ In (Spec.membership m) (map Spec.membership tbl)
        /\ exists row, tbl' = tbl ++ [row] /\ Spec.membership row = Spec.membership m
    | inl e =>
        e = Py.IntegrityError
        /\ exists r, In r tbl /\ Spec.membership r = Spec.membership m
    end.
Proof.
  intros now m tbl Hnd.
  unfold Orm.add_member, Orm.insert, AccreditationMember.table_args.
  set (row := AccreditationMember.set_id _ _).
  assert (Hrow : Spec.membership row = Spec.membership m) by reflexivity.
  cbn [forallb]. rewrite andb_true_r.
  destruct (AccreditationMember.unique_accreditation_member row tbl) eqn:Hu.
  - apply unique_accreditation_member_spec in Hu. rewrite Hrow in Hu.
    split; [| split; [exact Hu | now exists row]].
    unfold Spec.one_row_per_pair. rewrite map_app. cbn [map].
    apply NoDup_snoc; [exact Hnd | now rewrite Hrow].
  - split; [reflexivity |].
    unfold AccreditationMember.unique_accreditation_member in Hu.
    apply negb_false_iff, existsb_exists in Hu as (r & Hin & H).
    apply andb_true_iff in H as [Ha Hb]. apply Z.eqb_eq in Ha, Hb.
    exists r. split; [exact Hin |].
    rewrite <- Hrow. unfold Spec.membership. now rewrite Ha, Hb.
Qed.

Lemma membership_unique_witness :
  Spec.one_row_per_pair Samples.seated
  /\ match Orm.add_member Samples.noon Samples.seat Samples.seated with
     | inr _ => False
     | inl e => e = Py.IntegrityError
     end.
Proof.
  assert (H : Spec.one_row_per_pair Samples.seated).
  { unfold Spec.one_row_per_pair; cbn. constructor; [intros [] | constructor]. }
  split; [exact H |].
  pose proof (membership_unique Samples.noon Samples.seat Samples.seated H) as T.
  cbn in T. cbn. exact (proj1 T).
Defined.

(** C4, as stated, fails: the store accepts two submissions of parameter 7
    that both carry the default version 1. *)
Lemma store_accepts_repeated_version :
  exists t1 t2,
    Orm.add_submission Samples.morning Samples.draft [] = inr t1
    /\ Orm.add_submission Samples.noon Samples.draft t1 = inr t2
    /\ Workflow.versions 7 t2 = [1; 1]
    /\ ~ Spec.unique_versions t2.
Proof.
  eexists. eexists. split; [reflexivity |]. split; [reflexivity |].
  split; [reflexivity |].
  intro H. specialize (H 7). cbn in H.
  inversion H as [| ? ? Hin _]. apply Hin. now left.
Qed.

End SchemaFacts.

(* ===================================================================== *)
(** * The review workflow *)
(* ===================================================================== *)

Module WorkflowFacts.

Import Workflow.

Lemma status_eqb_eq (a b : Submission.Status) :
  Submission.status_eqb a b = true <-> a = b.
Proof. destruct a, b; cbn; split; intro H; try reflexivity; discriminate H. Qed.

Lemma status_is_spec (s : Submission.t) (x : Submission.Status) :
  status_is s x = true <-> Submission.status s = Some x.
Proof.
  unfold status_is. destruct (Submission.status s) as [y |].
  - rewrite status_eqb_eq. split; [now intros -> | now intros [= ->]].
  - split; intro H; discriminate H.
Qed.

(** Looking a row up after it was replaced. *)
Lemma find_replaced (sid : Z) (s s' : Submission.t) (tbl : list Submission.t) :
  Submission.id s' = sid ->
  find_submission sid tbl = Some s ->
  find_submission sid
    (map (fun r => if Z.eqb (Submission.id r) sid then s' else r) tbl) = Some s'.
Proof.
  intros Hid. unfold find_submission.
  induction tbl as [| r tbl IH]; cbn; [discriminate |].
  destruct (Z.eqb (Submission.id r) sid) eqn:E.
  - intros _. now rewrite Hid, Z.eqb_refl.
  - intros H. rewrite E. now apply IH.
Qed.

Lemma find_submission_id (sid : Z) (s : Submission.t) (tbl : list Submission.t) :
  find_submission sid tbl = Some s -> Submission.id s = sid /\ In s tbl.
Proof.
  unfold find_submission. intro H. apply find_some in H as [Hin Hid].
  now apply Z.eqb_eq in Hid.
Qed.

Lemma others_untouched (sid : Z) (s' r : Submission.t) (tbl : list Submission.t) :
  Submission.id r <> sid -> Submission.id s' = sid ->
  In r (map (fun r => if Z.eqb (Submission.id r) sid then s' else r) tbl) <-> In r tbl.
Proof.
  intros Hr Hs. rewrite in_map_iff. split.
  - intros (x & Hx & Hin). destruct (Z.eqb (Submission.id x) sid) eqn:E.
    + subst r. contradiction.
    + now subst x.
  - intros Hin. exists r. apply Z.eqb_neq in Hr. now rewrite Hr.
Qed.

(** C2: on a submission whose status is not [approved_by_chair], Review as
    admin fails with the [InvalidTransition] conflict and returns the table
    unchanged; on one whose status is [approved_by_chair] it stores the row
    with status [approved_by_admin] or [rejected_by_admin], the reviewer and
    the timestamp, every other column and every other row being kept. *)
Theorem review_admin_transition :
  forall (tbl : list Submission.t) (sid : Z) (s : Submission.t) (d : Decision)
         (reviewer : Z) (remarks : option string) (now : Py.datetime),
    find_submission sid tbl = Some s ->
    (Submission.status s <> Some Submission.STATUS_APPROVED_BY_CHAIR ->
     review_admin tbl sid d reviewer remarks now
     = (tbl, inl (ConflictError InvalidTransition)))
    /\ (Submission.status s = Some Submission.STATUS_APPROVED_BY_CHAIR ->
        exists s' tbl',
          review_admin tbl sid d reviewer remarks now = (tbl', inr s')
          /\ find_submission sid tbl' = Some s'
          /\ Submission.status s' = Some (admin_outcome d)
          /\ Submission.reviewed_by s' = Some reviewer
          /\ Submission.reviewed_at s' = Some now
          /\ s' = reviewed s (admin_outcome d) reviewer remarks now
          /\ List.length tbl' = List.length tbl
          /\ forall r, Submission.id r <> sid -> (In r tbl' <-> In r tbl)).
Proof.
  intros tbl sid s d reviewer remarks now Hfind.
  unfold review_admin, review. rewrite Hfind.
  split; intro Hst.
  - destruct (status_is s Submission.STATUS_APPROVED_BY_CHAIR) eqn:E; [| reflexivity].
    apply status_is_spec in E. contradiction.
  - apply status_is_spec in Hst. rewrite Hst.
    destruct (find_submission_id _ _ _ Hfind) as [Hid _].
    eexists. eexists. split; [reflexivity |].
    split; [apply (find_replaced sid s); [exact Hid | exact Hfind] |].
    split; [now destruct d |]. split; [reflexivity |]. split; [reflexivity |].
    split; [now destruct d |]. split; [apply length_map |].
    intros r Hr. apply others_untouched; [exact Hr | exact Hid].
Qed.

Lemma review_admin_transition_witness :
  find_submission 1 Samples.inbox = Some Samples.waiting_for_chair
  /\ Submission.status Samples.waiting_for_chair
     <> Some Submission.STATUS_APPROVED_BY_CHAIR
  /\ review_admin Samples.inbox 1 Approve 9 None Samples.noon
     = (Samples.inbox, inl (ConflictError InvalidTransition)).
Proof.
  split; [reflexivity |]. split; [discriminate |].
  apply (review_admin_transition Samples.inbox 1 Samples.waiting_for_chair Approve 9 None
                                 Samples.noon eq_refl).
  discriminate.
Defined.

(** The approving run of Review as admin on the sample table. *)
Example review_admin_approves :
  review_admin Samples.inbox 2 Approve 9 (Some "complete") Samples.noon
  = ([Samples.waiting_for_chair;
      Submission.mk 2 8 1 (Some "uploads/a.pdf") (Some "a.pdf") (Some Submission.PDF) None
        (Some Submission.STATUS_APPROVED_BY_ADMIN) (Some Samples.morning)
        (Some Samples.noon) (Some 9) (Some "complete") (Some 1)],
     inr (Submission.mk 2 8 1 (Some "uploads/a.pdf") (Some "a.pdf") (Some Submission.PDF)
            None (Some Submission.STATUS_APPROVED_BY_ADMIN) (Some Samples.morning)
            (Some Samples.noon) (Some 9) (Some "complete") (Some 1))).
Proof. reflexivity. Qed.

(** The chain of section 4.1 on the sample table: the chair approves
    submission 1, then the admin approves it. *)
Example chair_then_admin :
  let '(tbl1, _) := review_chair Samples.inbox 1 Approve 5 None Samples.morning in
  let '(tbl2, r) := review_admin tbl1 1 Approve 9 None Samples.noon in
  option_map Submission.status (find_submission 1 tbl1)
  = Some (Some Submission.STATUS_APPROVED_BY_CHAIR)
  /\ option_map Submission.status (find_submission 1 tbl2)
     = Some (Some Submission.STATUS_APPROVED_BY_ADMIN)
  /\ review_chair tbl2 1 Reject 5 None Samples.noon
     = (tbl2, inl (ConflictError InvalidTransition)).
Proof. repeat split. Qed.

(** C3: a Submit whose payload supplies neither a file reference with a type
    of the closed set nor a website link fails with [ValidationError] and
    returns the table unchanged; a Submit that creates a row had at least one
    of the two supplied and appends exactly that row, in status [pending];
    no failing Submit changes the table. *)
Theorem submit_requires_payload :
  forall (tbl : list Submission.t) (parameter submitter : Z) (p : Payload)
         (now : Py.datetime),
    (supplies_file p = false -> supplies_link p = false ->
     submit tbl parameter submitter p now = (tbl, inl ValidationError))
    /\ (forall tbl' s,
          submit tbl parameter submitter p now = (tbl', inr s) ->
          (supplies_file p = true \/ supplies_link p = true)
          /\ tbl' = tbl ++ [s]
          /\ Submission.parameter_id s = parameter
          /\ Submission.status s = Some Submission.STATUS_PENDING)
    /\ (forall tbl' e,
          submit tbl parameter submitter p now = (tbl', inl e) ->
          tbl' = tbl /\ e = ValidationError).
Proof.
  intros tbl parameter submitter p now.
  unfold submit, Orm.add_submission, Orm.insert, Submission.table_args.
  cbn [forallb].
  split; [| split].
  - intros -> ->. reflexivity.
  - intros tbl' s.
    destruct (supplies_file p) eqn:Ef, (supplies_link p) eqn:El; cbn [orb negb];
      intros [= <- <-]; (split; [auto |]); repeat split.
  - intros tbl' e.
    destruct (supplies_file p || supplies_link p); cbn [negb];
      intros [= <- <-]; split; reflexivity.
Qed.

Lemma submit_requires_payload_witness :
  supplies_file Samples.spreadsheet = false
  /\ supplies_link Samples.spreadsheet = false
  /\ submit Samples.inbox 7 1 Samples.spreadsheet Samples.noon
     = (Samples.inbox, inl ValidationError).
Proof.
  split; [reflexivity |]. split; [reflexivity |].
  apply (submit_requires_payload Samples.inbox 7 1 Samples.spreadsheet Samples.noon);
    reflexivity.
Defined.

(** A Submit with a link only, on the sample table: version 2 of parameter 7. *)
Example submit_link_only :
  submit Samples.inbox 7 1 Samples.link_only Samples.noon
  = (Samples.inbox ++
       [Submission.mk 3 7 1 None None None (Some "https://ecap.example/evidence")
          (Some Submission.STATUS_PENDING) (Some Samples.noon) None None None (Some 2)],
     inr (Submission.mk 3 7 1 None None None (Some "https://ecap.example/evidence")
            (Some Submission.STATUS_PENDING) (Some Samples.noon) None None None (Some 2))).
Proof. reflexivity. Qed.

(** ** Versions *)

Lemma versions_app (parameter : Z) (l1 l2 : list Submission.t) :
  versions parameter (l1 ++ l2) = versions parameter l1 ++ versions parameter l2.
Proof. unfold versions. apply flat_map_app. Qed.

Lemma fold_max_ge (v : Z) (vs : list Z) :
  forall x, In x (v :: vs) -> x <= fold_right Z.max v vs.
Proof.
  induction vs as [| y vs IH]; cbn; intros x H.
  - destruct H as [<- | []]. lia.
  - destruct H as [<- | [<- | H]].
    + specialize (IH v (or_introl eq_refl)). lia.
    + lia.
    + specialize (IH x (or_intror H)). lia.
Qed.

Lemma fold_max_in (v : Z) (vs : list Z) : In (fold_right Z.max v vs) (v :: vs).
Proof.
  induction vs as [| y vs IH]; cbn; [now left |].
  destruct (Z.max_spec y (fold_right Z.max v vs)) as [[_ ->] | [_ ->]].
  - destruct IH as [H | H]; [now left | now right; right].
  - right. now left.
Qed.

Lemma next_version_above (parameter : Z) (tbl : list Submission.t) :
  forall v, In v (versions parameter tbl) -> v < next_version parameter tbl.
Proof.
  unfold next_version, max_version. intros v Hin.
  destruct (versions parameter tbl) as [| v0 vs]; [destruct Hin |].
  pose proof (fold_max_ge v0 vs v Hin). lia.
Qed.

(** C4 (amended): on a table where versions are unique per parameter, a
    Submit with a valid payload appends a row whose version is the largest
    version recorded for the parameter plus one (1 when there is none), hence
    above every recorded version of that parameter, and versions stay unique
    per parameter; the INSERT of the store itself refuses no row, whatever
    its version. *)
Theorem submit_assigns_next_version :
  forall (tbl : list Submission.t) (parameter submitter : Z) (p : Payload)
         (now : Py.datetime),
    Spec.unique_versions tbl ->
    supplies_file p || supplies_link p = true ->
    exists s,
      submit tbl parameter submitter p now = (tbl ++ [s], inr s)
      /\ Submission.parameter_id s = parameter
      /\ Submission.version s = Some (next_version parameter tbl)
      /\ match max_version parameter tbl with
         | Some m =>
             In m (versions parameter tbl)
             /\ (forall v, In v (versions parameter tbl) -> v <= m)
             /\ next_version parameter tbl = m + 1
         | None => versions parameter tbl = [] /\ next_version parameter tbl = 1
         end
      /\ Spec.unique_versions (tbl ++ [s])
      /\ (forall row : Submission.t,
            Orm.add_submission now row tbl
            = inr (tbl ++ [Submission.set_id (Orm.next_id Submission.id tbl)
                                             (Submission.defaults now row)])).
Proof.
  intros tbl parameter submitter p now Huniq Hp.
  unfold submit. rewrite Hp. cbn [negb].
  unfold Orm.add_submission, Orm.insert, Submission.table_args. cbn [forallb].
  eexists. split; [reflexivity |].
  split; [reflexivity |]. split; [reflexivity |].
  split; [| split; [| reflexivity]].
  - unfold next_version, max_version.
    destruct (versions parameter tbl) as [| v0 vs] eqn:E.
    + split; reflexivity.
    + split; [apply fold_max_in |]. split; [apply fold_max_ge | reflexivity].
  - intro q. rewrite versions_app. cbn [versions flat_map Submission.parameter_id
      Submission.set_id Submission.defaults Submission.version].
    destruct (Z.eqb parameter q) eqn:Eq.
    + apply Z.eqb_eq in Eq. subst q. rewrite app_nil_r.
      apply SchemaFacts.NoDup_snoc; [apply Huniq |].
      intro Hin. apply next_version_above in Hin. lia.
    + cbn. rewrite app_nil_r. apply Huniq.
Qed.

Lemma submit_assigns_next_version_witness :
  Spec.unique_versions Samples.inbox
  /\ supplies_file Samples.link_only || supplies_link Samples.link_only = true
  /\ exists s, submit Samples.inbox 7 1 Samples.link_only Samples.noon
               = (Samples.inbox ++ [s], inr s)
               /\ Submission.version s = Some 2.
Proof.
  assert (H : Spec.unique_versions Samples.inbox).
  { intro q. unfold versions, Samples.inbox; cbn -[Z.eqb].
    destruct (Z.eqb_spec 7 q) as [<- | _]; [| destruct (Z.eqb 8 q)]; cbn;
      repeat (apply NoDup_nil || (apply NoDup_cons; [intros [] |])). }
  split; [exact H |]. split; [reflexivity |].
  destruct (submit_assigns_next_version Samples.inbox 7 1 Samples.link_only Samples.noon
              H eq_refl) as (s & Hs & _ & Hv & _).
  exists s. split; [exact Hs | exact Hv].
Defined.

End WorkflowFacts.

(* ===================================================================== *)
(** * The request handlers *)
(* ===================================================================== *)

Module RouteFacts.

Import Routes.

(** ** Postconditions of the monad *)

Lemma ends_bind {A B} (m : M A) (k : A -> M B) w Q :
  ends m w (fun r w1 =>
              match r with
              | inr a => ends (k a) w1 Q
              | inl e => Q (inl e) w1
              end) ->
  ends (bind m k) w Q.
Proof.
  unfold ends, bind. destruct (m w) as [[e | a] w1]; cbn; auto.
Qed.

Lemma ends_ret {A} (a : A) w (Q : Py.Exn + A -> World -> Prop) :
  Q (inr a) w -> ends (ret a) w Q.
Proof. auto. Qed.

Lemma ends_weaken {A} (m : M A) w (P Q : Py.Exn + A -> World -> Prop) :
  ends m w P -> (forall r w1, P r w1 -> Q r w1) -> ends m w Q.
Proof. unfold ends. auto. Qed.

Lemma ends_reads {A} (m : M A) w (Q : Py.Exn + A -> World -> Prop) :
  reads m -> (forall r, Q r w) -> ends m w Q.
Proof. unfold ends, reads. intros Hm HQ. rewrite Hm. apply HQ. Qed.

(** Run the next step of a handler when it only reads the world. *)
Ltac reading lem := apply ends_bind, ends_reads; [apply lem |].

Lemma reads_ret {A} (a : A) : reads (ret a).
Proof. intro w. reflexivity. Qed.

Lemma reads_raise {A} e : reads (@raise A e).
Proof. intro w. reflexivity. Qed.

Lemma reads_bind {A B} (m : M A) (k : A -> M B) :
  reads m -> (forall a, reads (k a)) -> reads (bind m k).
Proof.
  intros Hm Hk w. unfold bind. specialize (Hm w).
  destruct (m w) as [[e | a] w1]; cbn in *; subst; [reflexivity | apply Hk].
Qed.

Lemma reads_lift {A} (x : Py.Exn + A) : reads (lift x).
Proof. destruct x; intro w; reflexivity. Qed.

Lemma reads_py_get data k : reads (py_get data k).
Proof. destruct data; intro w; reflexivity. Qed.

Lemma reads_py_get_default data k d : reads (py_get_default data k d).
Proof. destruct data; intro w; reflexivity. Qed.

Lemma reads_subscript data k : reads (subscript data k).
Proof.
  destruct data; try (intro w; reflexivity).
  unfold subscript. destruct (Py.lookup d k); intro w; reflexivity.
Qed.

Lemma reads_first_missing data fields : reads (first_missing data fields).
Proof.
  induction fields as [| f fs IH]; cbn [first_missing]; [apply reads_ret |].
  destruct (negb (Py.truthy data)); [apply reads_ret |].
  apply reads_bind; [apply reads_py_get |].
  intro v. destruct (negb (Py.truthy v)); [apply reads_ret | exact IH].
Qed.

Lemma reads_query_by_email env v : reads (query_by_email env v).
Proof.
  apply reads_bind; [apply reads_lift |]. intros s w. reflexivity.
Qed.

Lemma reads_query_get i : reads (query_get i).
Proof. intro w. reflexivity. Qed.

Lemma reads_refresh i : reads (refresh i).
Proof.
  apply reads_bind; [apply reads_query_get |].
  intros [u |]; [apply reads_ret | apply reads_raise].
Qed.

Lemma reads_refresh_new ids : reads (refresh_new ids).
Proof. destruct ids; [apply reads_raise | apply reads_refresh]. Qed.

Lemma reads_set_password env p : reads (set_password env p).
Proof. destruct p; try apply reads_raise. apply reads_ret. Qed.

Lemma reads_check_password env u p : reads (check_password env u p).
Proof.
  destruct p; try apply reads_raise. unfold check_password.
  destruct (check_password_hash env _ _); [apply reads_ret | apply reads_raise].
Qed.

Lemma reads_issue_token env i : reads (issue_token env i).
Proof.
  unfold issue_token. destruct (create_access_token env i);
    [apply reads_ret | apply reads_raise].
Qed.

(** ** The COMMIT of a single INSERT *)

Lemma next_id_above (tbl : list User.t) :
  forall u, In u tbl -> User.id u < Orm.next_id User.id tbl.
Proof.
  unfold Orm.next_id. induction tbl as [| x tbl IH]; cbn [map fold_right In]; intros u [].
  - subst. lia.
  - specialize (IH u H). lia.
Qed.

Lemma commit_insert env e n p a h w :
  pending w = [Insert e n p a h] ->
  ends (commit env) w
       (fun r w1 =>
          match r with
          | inl _ => w1 = w
          | inr ids =>
              exists row x,
                stored w1 = Orm.with_users (Orm.users (stored w) ++ [row]) (stored w)
                /\ pending w1 = []
                /\ logged w1 = logged w
                /\ ids = [User.id row]
                /\ User.id row = Orm.next_id User.id (Orm.users (stored w))
                /\ bind_boolean env a = inr x
                /\ User.is_admin row = Some (match x with Some b => b | None => false end)
          end).
Proof.
  intros Hp. unfold ends, commit. rewrite Hp. cbn [flush].
  unfold flush_op.
  destruct (bind_string env e) as [x | e']; [reflexivity |].
  destruct (bind_string env n) as [x | n']; [reflexivity |].
  destruct (bind_string env p) as [x | p']; [reflexivity |].
  destruct (bind_boolean env a) as [x | a'] eqn:Ea; [reflexivity |].
  unfold Orm.insert.
  match goal with |- context [forallb ?f ?l] => destruct (forallb f l) end;
    [| reflexivity].
  destruct (commit_raises env); [reflexivity |].
  cbn. eexists. exists a'. repeat split. now destruct a'.
Qed.

Lemma ends_session_write op w (Q : Py.Exn + unit -> World -> Prop) :
  Q (inr tt) (mkWorld (stored w) (pending w ++ [op]) (ticks w) (logged w)) ->
  ends (session_write op) w Q.
Proof. auto. Qed.

Lemma find_fresh (row : User.t) (tbl : list User.t) :
  (forall u, In u tbl -> User.id u < User.id row) ->
  find (fun u => Z.eqb (User.id u) (User.id row)) (tbl ++ [row]) = Some row.
Proof.
  induction tbl as [| x tbl IH]; intros H; cbn.
  - now rewrite Z.eqb_refl.
  - destruct (Z.eqb_spec (User.id x) (User.id row)) as [E | _].
    + specialize (H x (or_introl eq_refl)). lia.
    + apply IH. intros u Hu. apply H. now right.
Qed.

(** After the COMMIT of one INSERT the new object is read back as stored. *)
Lemma refresh_inserted (row : User.t) (w w1 : World) :
  stored w1 = Orm.with_users (Orm.users (stored w) ++ [row]) (stored w) ->
  User.id row = Orm.next_id User.id (Orm.users (stored w)) ->
  refresh_new [User.id row] w1 = (inr row, w1).
Proof.
  intros Hst Hid. unfold refresh_new, refresh, bind, query_get.
  rewrite Hst. cbn [Orm.users Orm.with_users].
  rewrite find_fresh; [reflexivity |].
  intros u Hu. rewrite Hid. now apply next_id_above.
Qed.

(** What the body of [register] leaves behind, whatever the request and the
    collaborators. *)
Lemma register_body_ends env data db :
  ends (register_body env data) (fresh db)
       (fun r w =>
          match r with
          | inr resp =>
              (exists u,
                  resp = (Py.JDict [("message", Py.JStr "User registered successfully");
                                    ("user", Py.JDict (User.to_dict u))], 201)
                  /\ pending w = []
                  /\ stored w = Orm.with_users (Orm.users db ++ [u]) db
                  /\ User.is_admin u = Some false)
              \/ (snd resp <> 201 /\ snd resp <> 500 /\ w = fresh db)
          | inl _ => stored w = db
          end).
Proof.
  unfold register_body.
  reading reads_first_missing.
  intros [e | [field |]]; [reflexivity | apply ends_ret; right; cbn; repeat split; lia |].
  reading reads_subscript.
  intros [e | email]; [reflexivity |].
  reading reads_query_by_email.
  intros [e | [existing |]]; [reflexivity | apply ends_ret; right; cbn; repeat split; lia |].
  reading reads_subscript.
  intros [e | email']; [reflexivity |].
  reading reads_subscript.
  intros [e | name]; [reflexivity |].
  reading reads_subscript.
  intros [e | position]; [reflexivity |].
  reading reads_subscript.
  intros [e | password]; [reflexivity |].
  reading reads_set_password.
  intros [e | h]; [reflexivity |].
  apply ends_bind, ends_session_write.
  apply ends_bind.
  eapply ends_weaken; [eapply commit_insert; reflexivity |].
  intros [e | ids] w1; cbn beta iota.
  - intros ->. reflexivity.
  - intros (row & x & Hst & Hp & Hl & Hids & Hid & Hb & Hadm).
    subst ids. apply ends_bind. unfold ends.
    rewrite (refresh_inserted row _ w1 Hst Hid). cbn.
    left. exists row. split; [reflexivity |]. split; [exact Hp |].
    split; [exact Hst |]. injection Hb as <-. exact Hadm.
Qed.

(** [register]: the session is empty when it answers; it stores one user, not
    an administrator, when it answers 201 and nothing otherwise. *)
Lemma register_ends env data db :
  let '(resp, w) := register env data db in
  pending w = []
  /\ ((exists u,
         resp = (Py.JDict [("message", Py.JStr "User registered successfully");
                           ("user", Py.JDict (User.to_dict u))], 201)
         /\ stored w = Orm.with_users (Orm.users db ++ [u]) db
         /\ User.is_admin u = Some false)
      \/ (snd resp <> 201 /\ stored w = db)).
Proof.
  pose proof (register_body_ends env data db) as H.
  unfold register, serve, try_except, ends in *.
  destruct (register_body env data (fresh db)) as [[e | resp] w]; cbn in *.
  - split; [reflexivity |]. right. split; [lia | exact H].
  - destruct H as [(u & H1 & H2 & H3) | (H1 & H2 & ->)].
    + split; [exact H2 |]. left. now exists u.
    + split; [reflexivity |]. right. now split.
Qed.

Lemma create_user_body_ends env data db :
  ends (create_user_body env data) (fresh db)
       (fun r w =>
          match r with
          | inr resp =>
              (snd resp = 201 /\ pending w = []
               /\ exists u, stored w = Orm.with_users (Orm.users db ++ [u]) db)
              \/ (snd resp <> 201 /\ snd resp <> 500 /\ w = fresh db)
          | inl _ => stored w = db
          end).
Proof.
  unfold create_user_body.
  reading reads_first_missing.
  intros [e | [field |]]; [reflexivity | apply ends_ret; right; cbn; repeat split; lia |].
  reading reads_subscript.
  intros [e | email]; [reflexivity |].
  reading reads_query_by_email.
  intros [e | [existing |]]; [reflexivity | apply ends_ret; right; cbn; repeat split; lia |].
  reading reads_py_get.
  intros [e | supplied]; [reflexivity |].
  reading reads_subscript.
  intros [e | email']; [reflexivity |].
  reading reads_subscript.
  intros [e | name]; [reflexivity |].
  reading reads_subscript.
  intros [e | position]; [reflexivity |].
  reading reads_py_get_default.
  intros [e | is_admin]; [reflexivity |].
  reading reads_set_password.
  intros [e | h]; [reflexivity |].
  apply ends_bind, ends_session_write.
  apply ends_bind.
  eapply ends_weaken; [eapply commit_insert; reflexivity |].
  intros [e | ids] w1; cbn beta iota.
  - intros ->. reflexivity.
  - intros (row & x & Hst & Hp & Hl & Hids & Hid & Hb & Hadm).
    subst ids. apply ends_bind. unfold ends.
    rewrite (refresh_inserted row _ w1 Hst Hid). cbn.
    left. split; [reflexivity |]. split; [exact Hp |]. now exists row.
Qed.

(** [create_user] rolls back like [register]. *)
Lemma create_user_ends env data db :
  let '(resp, w) := create_user env data db in
  pending w = []
  /\ ((snd resp = 201 /\ exists u, stored w = Orm.with_users (Orm.users db ++ [u]) db)
      \/ (snd resp <> 201 /\ stored w = db)).
Proof.
  pose proof (create_user_body_ends env data db) as H.
  unfold create_user, serve, admin_required, bind, query_get, try_except, ends in *.
  cbn [fresh stored].
  destruct (find _ (Orm.users db)) as [u |]; [| cbn; split; [reflexivity | right; split; [lia | reflexivity]]].
  destruct (negb (is_true (User.is_admin u))); [cbn; split; [reflexivity | right; split; [lia | reflexivity]] |].
  destruct (create_user_body env data (fresh db)) as [[e | resp] w]; cbn in *.
  - split; [reflexivity |]. right. split; [lia | exact H].
  - destruct H as [(H1 & H2 & H3) | (H1 & H2 & ->)].
    + split; [exact H2 |]. left. now split.
    + split; [reflexivity |]. right. now split.
Qed.

(** ** The request body: entries [register] does not read *)

Lemma lookup_setitem_other (d : Py.dict) (k k' : string) (v : Py.json) :
  k' <> k -> Py.lookup (Py.setitem d k v) k' = Py.lookup d k'.
Proof.
  intros Hk. induction d as [| [k0 v0] d IH]; cbn.
  - destruct (String.eqb_spec k k'); [congruence | reflexivity].
  - destruct (String.eqb_spec k0 k) as [-> | Hne]; cbn.
    + destruct (String.eqb_spec k k'); [congruence | reflexivity].
    + destruct (String.eqb_spec k0 k'); [reflexivity | exact IH].
Qed.

(** On a dict, the loop over the required fields stops at the first field
    whose entry is missing or false. *)
Lemma first_missing_dict (d : Py.dict) (fields : list string) (w : World) :
  first_missing (Py.JDict d) fields w
  = (inr (find (fun f => negb (Py.truthy (Py.get d f))) fields), w).
Proof.
  induction fields as [| f fs IH]; cbn [first_missing find]; [reflexivity |].
  destruct d as [| kv d'].
  - reflexivity.
  - cbn [Py.truthy negb]. unfold bind, py_get, ret.
    destruct (negb (Py.truthy (Py.get (kv :: d') f))); [reflexivity | exact IH].
Qed.

Lemma bind_first_missing {B} (d : Py.dict) (fields : list string)
  (k : option string -> M B) (w : World) :
  bind (first_missing (Py.JDict d) fields) k w
  = k (find (fun f => negb (Py.truthy (Py.get d f))) fields) w.
Proof. unfold bind. now rewrite first_missing_dict. Qed.

(** [register] answers the same whatever the body carries under [is_admin]. *)
Lemma register_ignores_is_admin env d v db :
  register env (Py.JDict (Py.setitem d "is_admin" v)) db = register env (Py.JDict d) db.
Proof.
  assert (L : forall k, k <> "is_admin" ->
                        Py.lookup (Py.setitem d "is_admin" v) k = Py.lookup d k)
    by (intros k Hk; now apply lookup_setitem_other).
  unfold register, serve, try_except, register_body.
  rewrite !bind_first_missing. cbn [find]. unfold Py.get, subscript.
  rewrite !L by discriminate. reflexivity.
Qed.

(** C9: when [register] answers 201, the user it stored, the one its answer
    projects, has [is_admin = False]; and the answer and the store are the
    same whatever value the request body carries under [is_admin]. *)
Theorem register_creates_no_admin :
  forall (env : Env) (data : Py.json) (db : Orm.Database) (resp : Response) (w : World),
    register env data db = (resp, w) ->
    snd resp = 201 ->
    (exists u,
        Orm.users (stored w) = Orm.users db ++ [u]
        /\ User.is_admin u = Some false
        /\ fst resp = Py.JDict [("message", Py.JStr "User registered successfully");
                                ("user", Py.JDict (User.to_dict u))]
        /\ pending w = [])
    /\ (forall d v, data = Py.JDict d ->
                    register env (Py.JDict (Py.setitem d "is_admin" v)) db = (resp, w)).
Proof.
  intros env data db resp w Hrun Hcode.
  split.
  - pose proof (register_ends env data db) as H. rewrite Hrun in H.
    destruct H as [Hp [(u & -> & Hst & Hadm) | [Hne _]]]; [| contradiction].
    exists u. rewrite Hst. repeat split; assumption.
  - intros d v ->. now rewrite register_ignores_is_admin.
Qed.

Lemma register_creates_no_admin_witness :
  exists resp w,
    register Samples.env Samples.bob_signs_up Samples.directory = (resp, w)
    /\ snd resp = 201
    /\ exists u, Orm.users (stored w) = Orm.users Samples.directory ++ [u]
                 /\ User.is_admin u = Some false.
Proof.
  eexists. eexists. split; [vm_compute; reflexivity |]. split; [reflexivity |].
  destruct (register_creates_no_admin Samples.env Samples.bob_signs_up Samples.directory
              _ _ eq_refl eq_refl) as [(u & Hu & Ha & _) _].
  exists u. split; [exact Hu | exact Ha].
Defined.

(** ** [login] and the rollback it lacks *)

(** Whenever the store refuses the COMMIT of a login with valid credentials,
    [login] answers 500 and leaves its write in the session. *)
Lemma login_keeps_write_when_commit_raises env d email password u db :
  Py.lookup d "email" = Some (Py.JStr email) -> email <> "" ->
  Py.lookup d "password" = Some (Py.JStr password) -> password <> "" ->
  find (fun x => String.eqb (User.email x) email) (Orm.users db) = Some u ->
  check_password_hash env (User.password_hash u) password = Some true ->
  User.is_active u = Some true ->
  commit_raises env = true ->
  login env (Py.JDict d) db
  = (error "Internal server error" 500,
     mkWorld db [SetLastLogin (User.id u) (utcnow env 0)] 1
             [("Login error", Py.OperationalError)]).
Proof.
  intros He Hne Hp Hnp Hu Hc Ha Hr.
  assert (Hd : Py.truthy (Py.JDict d) = true) by (destruct d; [discriminate He | reflexivity]).
  assert (Hte : Py.truthy (Py.JStr email) = true).
  { cbn. now destruct (String.eqb_spec email ""). }
  assert (Htp : Py.truthy (Py.JStr password) = true).
  { cbn. now destruct (String.eqb_spec password ""). }
  assert (Hin : existsb (fun x => Z.eqb (User.id x) (User.id u)) (Orm.users db) = true).
  { apply existsb_exists. exists u. apply find_some in Hu as [Hu _].
    split; [exact Hu | apply Z.eqb_refl]. }
  unfold login, serve, try_except, login_body.
  rewrite Hd. cbn [negb].
  unfold bind, py_get, subscript, ret, Py.get, query_by_email, lift, bind_string, bind, ret.
  rewrite He, Hp, Hte, Htp. cbn [negb fresh stored].
  rewrite Hu. unfold check_password, ret. rewrite Hc. cbn [negb]. rewrite Ha. cbn [is_true negb].
  unfold clock, session_write, commit.
  cbn [fresh stored pending ticks logged app flush flush_op].
  rewrite Hin, Hr. reflexivity.
Qed.

(** C6 fails on [login]: with valid credentials and a store that refuses the
    COMMIT, [login] answers 500 while the write of [last_login] is still in
    the session, not rolled back; [register], in the same situation, answers
    500 with the session rolled back; and when the token service raises
    after the COMMIT, [login] answers 500 with [last_login] already stored. *)
Theorem login_error_not_rolled_back :
  (let '(resp, w) :=
     login Samples.env_store_down Samples.carol_logs_in Samples.directory in
   snd resp = 500
   /\ pending w = [SetLastLogin 1 (Py.mkDatetime 2024 3 9 12 0 0 0)]
   /\ stored w = Samples.directory)
  /\ (let '(resp, w) :=
        register Samples.env_store_down Samples.bob_signs_up Samples.directory in
      snd resp = 500 /\ pending w = [] /\ stored w = Samples.directory)
  /\ (let '(resp, w) :=
        login Samples.env_token_down Samples.carol_logs_in Samples.directory in
      snd resp = 500
      /\ pending w = []
      /\ map User.last_login (Orm.users (stored w))
         = [Some (Py.mkDatetime 2024 3 9 12 0 0 0)]
      /\ map User.last_login (Orm.users Samples.directory) = [None]).
Proof.
  split; [| split]; vm_compute; repeat split.
Qed.

End RouteFacts.

(* ===================================================================== *)
(** * [login] *)
(* ===================================================================== *)

Module LoginFacts.
Import Routes RouteFacts.

Lemma commit_set_login env i d w :
  pending w = [SetLastLogin i d] ->
  existsb (fun u => Z.eqb (User.id u) i) (Orm.users (stored w)) = true ->
  ends (commit env) w
       (fun r w1 =>
          match r with
          | inl _ => w1 = w
          | inr _ =>
              commit_raises env = false
              /\ w1 = mkWorld
                       (Orm.with_users
                          (map (fun u => if Z.eqb (User.id u) i
                                         then set_login d (utcnow env (ticks w)) u else u)
                               (Orm.users (stored w)))
                          (stored w))
                       [] (S (ticks w)) (logged w)
          end).
Proof.
  intros Hp Hin. unfold ends, commit. rewrite Hp. cbn [flush flush_op]. rewrite Hin.
  destruct (commit_raises env); cbn; [reflexivity | now split].
Qed.

Lemma ends_clock env w (Q : Py.Exn + Py.datetime -> World -> Prop) :
  Q (inr (utcnow env (ticks w))) (mkWorld (stored w) (pending w) (S (ticks w)) (logged w)) ->
  ends (clock env) w Q.
Proof. auto. Qed.

Lemma query_by_email_run env v w :
  query_by_email env v w
  = (match bind_string env v with
     | inr s => inr (find (fun u => String.eqb (User.email u) s) (Orm.users (stored w)))
     | inl e => inl e
     end, w).
Proof. unfold query_by_email, bind, lift. now destruct (bind_string env v). Qed.

Lemma check_password_run env u p w :
  check_password env u p w
  = (match p with
     | Py.JStr s => match check_password_hash env (User.password_hash u) s with
                    | Some b => inr b
                    | None => inl Py.ValueError
                    end
     | _ => inl Py.TypeError
     end, w).
Proof.
  destruct p; try reflexivity. unfold check_password.
  now destruct (check_password_hash env (User.password_hash u) s).
Qed.

Lemma subscript_run d k w :
  subscript (Py.JDict d) k w
  = (match Py.lookup d k with Some v => inr v | None => inl Py.KeyError end, w).
Proof. unfold subscript. now destruct (Py.lookup d k). Qed.

Lemma login_body_ends env data db :
  ends (login_body env data) (fresh db)
       (fun r w =>
          match r with
          | inr resp =>
              (exists u tok u',
                  Stated.credentials_hold env data db u
                  /\ commit_raises env = false
                  /\ create_access_token env (User.id u) = Some tok
                  /\ w = mkWorld (Orm.with_users (Stated.stamped_login env (User.id u)
                                                                      (Orm.users db)) db)
                                 [] 2 []
                  /\ find (fun x => Z.eqb (User.id x) (User.id u))
                          (Stated.stamped_login env (User.id u) (Orm.users db)) = Some u'
                  /\ resp = (Py.JDict [("access_token", Py.JStr tok);
                                       ("user", Py.JDict (User.to_dict u'))], 200))
              \/ ((snd resp = 400 \/ snd resp = 401) /\ w = fresh db)
          | inl _ => True
          end).
Proof.
  unfold login_body.
  destruct (Py.truthy data) eqn:Hd; cbn [negb];
    [| apply ends_ret; right; split; [now left | reflexivity]].
  destruct data as [| | | | | | d];
    try (apply ends_bind; unfold ends at 1; exact I).
  apply ends_bind. unfold ends at 1. cbn [py_get ret fst snd].
  destruct (Py.truthy (Py.get d "email")) eqn:Hte; cbn [negb];
    [| apply ends_ret; right; split; [now left | reflexivity]].
  apply ends_bind. unfold ends at 1. cbn [py_get ret fst snd].
  destruct (Py.truthy (Py.get d "password")) eqn:Htp; cbn [negb];
    [| apply ends_ret; right; split; [now left | reflexivity]].
  apply ends_bind. unfold ends at 1. rewrite subscript_run.
  unfold Py.get in Hte, Htp.
  destruct (Py.lookup d "email") as [email |] eqn:He; [| exact I].
  cbn [fst snd].
  apply ends_bind. unfold ends at 1. rewrite query_by_email_run.
  destruct (bind_string env email) as [x | s] eqn:Hs; [exact I |].
  cbn [fst snd fresh stored].
  destruct (find (fun u => String.eqb (User.email u) s) (Orm.users db)) as [u |] eqn:Hu;
    [| apply ends_ret; right; split; [now right | reflexivity]].
  apply ends_bind. unfold ends at 1. rewrite subscript_run.
  destruct (Py.lookup d "password") as [password |] eqn:Hp; [| exact I].
  cbn [fst snd].
  apply ends_bind. unfold ends at 1. rewrite check_password_run.
  destruct password as [| | | | pw | |]; try exact I.
  destruct (check_password_hash env (User.password_hash u) pw) as [ok |] eqn:Hc; [| exact I].
  cbn [fst snd].
  destruct ok; cbn [negb]; [| apply ends_ret; right; split; [now right | reflexivity]].
  destruct (User.is_active u) as [[|] |] eqn:Ha; cbn [is_true negb];
    try (apply ends_ret; right; split; [now right | reflexivity]).
  apply ends_bind, ends_clock. apply ends_bind, ends_session_write.
  apply ends_bind.
  assert (Hin : existsb (fun x => Z.eqb (User.id x) (User.id u)) (Orm.users db) = true).
  { apply existsb_exists. exists u. apply find_some in Hu as [Hu _].
    split; [exact Hu | apply Z.eqb_refl]. }
  eapply ends_weaken; [eapply commit_set_login; [reflexivity | exact Hin] |].
  intros [x | ids] w1; cbn beta iota; [intros _; exact I |].
  intros [Hr ->].
  apply ends_bind. unfold ends at 1, issue_token.
  destruct (create_access_token env (User.id u)) as [tok |] eqn:Ht; [| exact I].
  cbn [ret fst snd].
  apply ends_bind. unfold ends at 1, refresh, bind, query_get.
  cbn [stored Orm.users Orm.with_users fresh ticks pending app].
  match goal with |- context [find ?f ?l] => destruct (find f l) as [u' |] eqn:Hu' end;
    [| exact I].
  cbn [ret fst snd]. apply ends_ret. left.
  exists u, tok, u'. split.
  { exists d, email, pw, s. repeat split; try assumption.
    intros ->. discriminate Htp. }
  repeat split; try assumption.
Qed.
(** [login] as a whole: accepted, refused without a trace, or failed. *)
Lemma login_ends env data db :
  let '(resp, w) := login env data db in
  (exists u tok u',
      Stated.credentials_hold env data db u
      /\ commit_raises env = false
      /\ create_access_token env (User.id u) = Some tok
      /\ w = mkWorld (Orm.with_users (Stated.stamped_login env (User.id u) (Orm.users db)) db)
                     [] 2 []
      /\ find (fun x => Z.eqb (User.id x) (User.id u))
              (Stated.stamped_login env (User.id u) (Orm.users db)) = Some u'
      /\ resp = (Py.JDict [("access_token", Py.JStr tok);
                           ("user", Py.JDict (User.to_dict u'))], 200))
  \/ ((snd resp = 400 \/ snd resp = 401) /\ w = fresh db)
  \/ resp = error "Internal server error" 500.
Proof.
  pose proof (login_body_ends env data db) as H.
  unfold login, serve, try_except, ends in *.
  destruct (login_body env data (fresh db)) as [[e | resp] w]; cbn in *.
  - right. right. reflexivity.
  - destruct H as [H | H]; [left; exact H | right; left; exact H].
Qed.

Lemma find_stamped env (u : User.t) (users : list User.t) :
  In u users ->
  exists u', find (fun x => Z.eqb (User.id x) (User.id u))
                  (Stated.stamped_login env (User.id u) users) = Some u'.
Proof.
  intros Hin. unfold Stated.stamped_login.
  destruct (find _ (map _ users)) as [u' |] eqn:E; [now exists u' |].
  exfalso.
  assert (Hm : In (set_login (utcnow env 0) (utcnow env 1) u)
                  (map (fun x => if Z.eqb (User.id x) (User.id u)
                                 then set_login (utcnow env 0) (utcnow env 1) x else x)
                       users)).
  { apply in_map_iff. exists u. now rewrite Z.eqb_refl. }
  apply (find_none _ _ E) in Hm. cbn in Hm. now rewrite Z.eqb_refl in Hm.
Qed.

(** Valid credentials, a store that commits and a token service that answers
    are enough for [login] to answer 200. *)
Lemma login_accepts env data db u tok :
  Stated.credentials_hold env data db u ->
  commit_raises env = false ->
  create_access_token env (User.id u) = Some tok ->
  snd (fst (login env data db)) = 200.
Proof.
  intros (d & e & p & s & -> & He & Hte & Hp & Hnp & Hs & Hu & Hc & Ha) Hr Ht.
  assert (Hd : Py.truthy (Py.JDict d) = true) by (destruct d; [discriminate He | reflexivity]).
  assert (Htp : Py.truthy (Py.JStr p) = true).
  { cbn. now destruct (String.eqb_spec p ""). }
  assert (Hin : existsb (fun x => Z.eqb (User.id x) (User.id u)) (Orm.users db) = true).
  { apply existsb_exists. exists u. apply find_some in Hu as [Hu _].
    split; [exact Hu | apply Z.eqb_refl]. }
  destruct (find_stamped env u (Orm.users db)) as (u' & Hu').
  { now apply find_some in Hu as [Hu _]. }
  unfold Stated.stamped_login in Hu'.
  unfold login, serve, try_except, login_body.
  rewrite Hd. cbn [negb].
  unfold bind, py_get, subscript, ret, Py.get, query_by_email, lift, bind, ret.
  rewrite He, Hp, Hte, Htp, Hs. cbn [negb fresh stored].
  rewrite Hu. unfold check_password, ret. rewrite Hc. cbn [negb]. rewrite Ha. cbn [is_true negb].
  unfold clock, session_write, commit.
  cbn [fresh stored pending ticks logged app flush flush_op].
  rewrite Hin, Hr. unfold issue_token. rewrite Ht.
  unfold ret, refresh, bind, query_get. cbn [stored Orm.users Orm.with_users].
  rewrite Hu'. reflexivity.
Qed.

(** X1: [login] answers 200 exactly when the credentials hold, the store
    commits and the token service answers. *)
Theorem login_200_iff :
  forall (env : Env) (data : Py.json) (db : Orm.Database),
    snd (fst (login env data db)) = 200
    <-> exists u tok,
          Stated.credentials_hold env data db u
          /\ commit_raises env = false
          /\ create_access_token env (User.id u) = Some tok.
Proof.
  intros env data db. split.
  - intros H200. pose proof (login_ends env data db) as H.
    destruct (login env data db) as [resp w]. cbn in H200.
    destruct H as [(u & tok & u' & H1 & H2 & H3 & _) | [[[H | H] _] | ->]].
    + now exists u, tok.
    + rewrite H in H200. discriminate H200.
    + rewrite H in H200. discriminate H200.
    + discriminate H200.
  - intros (u & tok & H1 & H2 & H3). now apply (login_accepts env data db u tok).
Qed.

(** X2: [login] answers 200, 400, 401 or 500, and on 400 and 401 it has
    written and logged nothing. *)
Theorem login_refusals_leave_no_trace :
  forall (env : Env) (data : Py.json) (db : Orm.Database),
    let '(resp, w) := login env data db in
    snd resp = 200
    \/ ((snd resp = 400 \/ snd resp = 401) /\ w = fresh db)
    \/ resp = error "Internal server error" 500.
Proof.
  intros env data db. pose proof (login_ends env data db) as H.
  destruct (login env data db) as [resp w].
  destruct H as [(u & tok & u' & _ & _ & _ & _ & _ & ->) | [H | H]].
  - now left.
  - right. now left.
  - right. now right.
Qed.

(** X3: An accepted [login] writes the two time stamps of the rows that carry
    the id of the authenticated user and nothing else. *)
Theorem login_writes_only_stamps :
  forall (env : Env) (data : Py.json) (db : Orm.Database),
    snd (fst (login env data db)) = 200 ->
    let w := snd (login env data db) in
    exists u,
      Stated.credentials_hold env data db u
      /\ stored w = Orm.with_users (Stated.stamped_login env (User.id u) (Orm.users db)) db
      /\ map Stated.without_stamps (Orm.users (stored w))
         = map Stated.without_stamps (Orm.users db)
      /\ pending w = [].
Proof.
  intros env data db H200. pose proof (login_ends env data db) as H.
  destruct (login env data db) as [resp w]. cbn in H200 |- *.
  destruct H as [(u & tok & u' & H1 & _ & _ & -> & _) | [[[H | H] _] | ->]];
    try (rewrite H in H200; discriminate H200); try discriminate H200.
  exists u. split; [exact H1 |]. split; [reflexivity |]. split; [| reflexivity].
  cbn [stored Orm.users Orm.with_users]. unfold Stated.stamped_login.
  rewrite map_map. apply map_ext. intro x.
  now destruct (Z.eqb (User.id x) (User.id u)).
Qed.

Lemma login_writes_only_stamps_witness :
  snd (fst (login Samples.env Samples.carol_logs_in Samples.directory)) = 200
  /\ exists u,
       stored (snd (login Samples.env Samples.carol_logs_in Samples.directory))
       = Orm.with_users (Stated.stamped_login Samples.env (User.id u)
                                              (Orm.users Samples.directory))
                        Samples.directory
       /\ pending (snd (login Samples.env Samples.carol_logs_in Samples.directory)) = [].
Proof.
  split; [reflexivity |].
  destruct (login_writes_only_stamps Samples.env Samples.carol_logs_in Samples.directory
              eq_refl) as (u & _ & H1 & _ & H2).
  exists u. split; [exact H1 | exact H2].
Defined.

(** X4: An unknown email and a wrong password get the same answer from [login],
    401 with the same message, and neither writes or logs anything. *)
Theorem login_same_answer_for_unknown_and_wrong :
  forall (env : Env) (d : Py.dict) (e : Py.json) (p s : string) (db : Orm.Database),
    Py.lookup d "email" = Some e -> Py.truthy e = true ->
    Py.lookup d "password" = Some (Py.JStr p) -> p <> "" ->
    bind_string env e = inr s ->
    match find (fun x => String.eqb (User.email x) s) (Orm.users db) with
    | None => True
    | Some u => check_password_hash env (User.password_hash u) p = Some false
    end ->
    login env (Py.JDict d) db = (error "Invalid email or password" 401, fresh db).
Proof.
  intros env d e p s db He Hte Hp Hnp Hs Hu.
  assert (Hd : Py.truthy (Py.JDict d) = true) by (destruct d; [discriminate He | reflexivity]).
  assert (Htp : Py.truthy (Py.JStr p) = true).
  { cbn. now destruct (String.eqb_spec p ""). }
  unfold login, serve, try_except, login_body.
  rewrite Hd. cbn [negb].
  unfold bind, py_get, subscript, ret, Py.get, query_by_email, lift, bind, ret.
  rewrite He, Hp, Hte, Htp, Hs. cbn [negb fresh stored].
  destruct (find _ (Orm.users db)) as [u |]; [| reflexivity].
  unfold check_password, ret. rewrite Hu. reflexivity.
Qed.

Lemma login_same_answer_for_unknown_and_wrong_witness :
  login Samples.env (Stated.credentials "carol@ecap.com" "guess") Samples.directory
  = (error "Invalid email or password" 401, fresh Samples.directory)
  /\ login Samples.env (Stated.credentials "nobody@ecap.com" "guess") Samples.directory
     = (error "Invalid email or password" 401, fresh Samples.directory).
Proof.
  split.
  - apply (login_same_answer_for_unknown_and_wrong Samples.env
             [("email", Py.JStr "carol@ecap.com"); ("password", Py.JStr "guess")]
             (Py.JStr "carol@ecap.com") "guess" "carol@ecap.com" Samples.directory);
      try reflexivity. discriminate.
  - apply (login_same_answer_for_unknown_and_wrong Samples.env
             [("email", Py.JStr "nobody@ecap.com"); ("password", Py.JStr "guess")]
             (Py.JStr "nobody@ecap.com") "guess" "nobody@ecap.com" Samples.directory);
      try reflexivity; try discriminate; try exact I.
Defined.

End LoginFacts.

(* ===================================================================== *)
(** * [register] *)
(* ===================================================================== *)

Module RegisterFacts.
Import Routes RouteFacts LoginFacts.

Lemma unique_email_spec (row : User.t) (tbl : list User.t) :
  User.unique_email row tbl = true
  <-> find (fun x => String.eqb (User.email x) (User.email row)) tbl = None.
Proof.
  unfold User.unique_email. rewrite negb_true_iff.
  induction tbl as [| x tbl IH]; cbn; [tauto |].
  destruct (String.eqb (User.email x) (User.email row)); cbn; [| exact IH].
  split; discriminate.
Qed.

Lemma commit_insert_row env e n p a h w :
  pending w = [Insert e n p a h] ->
  ends (commit env) w
       (fun r w1 =>
          match r with
          | inl _ => w1 = w
          | inr ids =>
              exists e' n' p' a',
                bind_string env e = inr e' /\ bind_string env n = inr n'
                /\ bind_string env p = inr p' /\ bind_boolean env a = inr a'
                /\ find (fun x => String.eqb (User.email x) e') (Orm.users (stored w)) = None
                /\ commit_raises env = false
                /\ ids = [Orm.next_id User.id (Orm.users (stored w))]
                /\ w1 = mkWorld
                          (Orm.with_users
                             (Orm.users (stored w)
                              ++ [Stated.inserted env (ticks w)
                                    (Orm.next_id User.id (Orm.users (stored w)))
                                    e' h n' p' a'])
                             (stored w))
                          [] (S (S (ticks w))) (logged w)
          end).
Proof.
  intros Hp. unfold ends, commit. rewrite Hp. cbn [flush].
  unfold flush_op.
  destruct (bind_string env e) as [x | e'] eqn:Ee; [reflexivity |].
  destruct (bind_string env n) as [x | n'] eqn:En; [reflexivity |].
  destruct (bind_string env p) as [x | p'] eqn:Ep; [reflexivity |].
  destruct (bind_boolean env a) as [x | a'] eqn:Ea; [reflexivity |].
  unfold Orm.insert, User.table_args. cbn [forallb]. rewrite andb_true_r.
  match goal with |- context [User.unique_email ?r ?l] =>
    destruct (User.unique_email r l) eqn:Hu end; [| reflexivity].
  apply unique_email_spec in Hu. cbn [User.email User.set_id] in Hu.
  destruct (commit_raises env) eqn:Hr; [reflexivity |].
  cbn [fst snd]. exists e', n', p', a'.
  repeat split; try assumption. now destruct a'.
Qed.

Lemma first_missing_none (d : Py.dict) (fields : list string) :
  find (fun f => negb (Py.truthy (Py.get d f))) fields = None ->
  forall f, In f fields -> Py.truthy (Py.get d f) = true.
Proof.
  intros H f Hin. apply (find_none _ _ H) in Hin. now apply negb_false_iff in Hin.
Qed.

Lemma get_of_lookup (d : Py.dict) (k : string) (v : Py.json) :
  Py.lookup d k = Some v -> Py.get d k = v.
Proof. unfold Py.get. now intros ->. Qed.

(** On a body that is not an object the loop stops at its first field when
    the body is false, and raises on [.get] when it is true. *)
Lemma first_missing_not_object (data : Py.json) (f : string) (fs : list string) (w : World) :
  (forall d, data <> Py.JDict d) ->
  first_missing data (f :: fs) w
  = (if Py.truthy data then inl Py.AttributeError else inr (Some f), w).
Proof.
  intros Hd. cbn [first_missing].
  destruct (Py.truthy data); cbn [negb]; [| reflexivity].
  destruct data; try reflexivity. now destruct (Hd d).
Qed.

Lemma register_body_holds env data db :
  ends (register_body env data) (fresh db)
       (fun r w =>
          match r with
          | inr resp =>
              (exists u,
                  Stated.registration_holds env data db u
                  /\ commit_raises env = false
                  /\ w = mkWorld (Orm.with_users (Orm.users db ++ [u]) db) [] 2 []
                  /\ resp = (Py.JDict [("message", Py.JStr "User registered successfully");
                                       ("user", Py.JDict (User.to_dict u))], 201))
              \/ ((snd resp = 400 \/ snd resp = 409) /\ w = fresh db)
          | inl _ => stored w = db /\ logged w = []
          end).
Proof.
  unfold register_body.
  destruct data as [| | | | | | d].
  1-6: apply ends_bind; unfold ends at 1;
    rewrite first_missing_not_object by discriminate;
    match goal with |- context [Py.truthy ?x] => destruct (Py.truthy x) end;
    cbn [fst snd]; [now split | apply ends_ret; right; split; [now left | reflexivity]].
  apply ends_bind. unfold ends at 1. rewrite first_missing_dict. cbn [fst snd].
  destruct (find _ _) as [field |] eqn:Hm;
    [apply ends_ret; right; split; [now left | reflexivity] |].
  pose proof (first_missing_none _ _ Hm) as Htruthy.
  apply ends_bind. unfold ends at 1. rewrite subscript_run.
  destruct (Py.lookup d "email") as [email |] eqn:He; [| now split]. cbn [fst snd].
  apply ends_bind. unfold ends at 1. rewrite query_by_email_run.
  destruct (bind_string env email) as [x | s] eqn:Hs; [now split |].
  cbn [fst snd fresh stored].
  destruct (find (fun u => String.eqb (User.email u) s) (Orm.users db)) as [u0 |] eqn:Hu;
    [apply ends_ret; right; split; [now right | reflexivity] |].
  apply ends_bind. unfold ends at 1. rewrite subscript_run, He. cbn [fst snd].
  apply ends_bind. unfold ends at 1. rewrite subscript_run.
  destruct (Py.lookup d "name") as [name |] eqn:Hn; [| now split]. cbn [fst snd].
  apply ends_bind. unfold ends at 1. rewrite subscript_run.
  destruct (Py.lookup d "position_in_school") as [pos |] eqn:Hpos; [| now split].
  cbn [fst snd].
  apply ends_bind. unfold ends at 1. rewrite subscript_run.
  destruct (Py.lookup d "password") as [password |] eqn:Hpw; [| now split].
  cbn [fst snd].
  apply ends_bind. unfold ends at 1.
  destruct password as [| | | | pw | |]; try (cbn; now split).
  cbn [set_password ret fst snd].
  apply ends_bind, ends_session_write.
  apply ends_bind.
  eapply ends_weaken; [eapply commit_insert_row; reflexivity |].
  intros [x | ids] w1; cbn beta iota.
  - intros ->. now split.
  - intros (e' & n' & p' & a' & H1 & H2 & H3 & H4 & H5 & H6 & -> & ->).
    cbn [fresh stored ticks logged] in *.
    assert (E : e' = s) by congruence. subst e'.
    injection H4 as <-.
    set (u := Stated.inserted env 0 _ s _ n' p' (Some false)).
    apply ends_bind. unfold ends at 1.
    rewrite (refresh_inserted u (fresh db)); [| reflexivity | reflexivity].
    cbn [fst snd]. apply ends_ret. left. exists u.
    split; [| repeat split; assumption].
    exists d, pw. rewrite (get_of_lookup _ _ _ He), (get_of_lookup _ _ _ Hn),
      (get_of_lookup _ _ _ Hpos).
    repeat split; assumption.
Qed.

Lemma register_holds env data db :
  let '(resp, w) := register env data db in
  (exists u,
      Stated.registration_holds env data db u
      /\ commit_raises env = false
      /\ w = mkWorld (Orm.with_users (Orm.users db ++ [u]) db) [] 2 []
      /\ resp = (Py.JDict [("message", Py.JStr "User registered successfully");
                           ("user", Py.JDict (User.to_dict u))], 201))
  \/ ((snd resp = 400 \/ snd resp = 409) /\ w = fresh db)
  \/ (resp = error "Internal server error" 500 /\ stored w = db /\ pending w = []).
Proof.
  pose proof (register_body_holds env data db) as H.
  unfold register, serve, try_except, ends in *.
  destruct (register_body env data (fresh db)) as [[e | resp] w]; cbn in *.
  - right. right. destruct H as [H _]. now repeat split.
  - destruct H as [H | H]; [left; exact H | right; left; exact H].
Qed.

Lemma lookup_of_truthy (d : Py.dict) (k : string) :
  Py.truthy (Py.get d k) = true -> Py.lookup d k = Some (Py.get d k).
Proof. unfold Py.get. destruct (Py.lookup d k); [reflexivity | discriminate]. Qed.

Lemma none_missing (d : Py.dict) (fields : list string) :
  (forall f, In f fields -> Py.truthy (Py.get d f) = true) ->
  find (fun f => negb (Py.truthy (Py.get d f))) fields = None.
Proof.
  induction fields as [| f fs IH]; intros H; cbn; [reflexivity |].
  rewrite (H f (or_introl eq_refl)). cbn. apply IH. intros g Hg. apply H. now right.
Qed.

Lemma not_in_emails (s : string) (tbl : list User.t) :
  find (fun x => String.eqb (User.email x) s) tbl = None -> ~ In s (map User.email tbl).
Proof.
  intros H Hin. apply in_map_iff in Hin as (x & <- & Hx).
  apply (find_none _ _ H) in Hx. now rewrite String.eqb_refl in Hx.
Qed.

(** A registration that holds is accepted when the store commits. *)
Lemma register_accepts env data db u :
  Stated.registration_holds env data db u ->
  commit_raises env = false ->
  register env data db
  = ((Py.JDict [("message", Py.JStr "User registered successfully");
                ("user", Py.JDict (User.to_dict u))], 201),
     mkWorld (Orm.with_users (Orm.users db ++ [u]) db) [] 2 []).
Proof.
  intros (d & pw & -> & Ht & Hpw & He & Hn & Hp & Hf & Hu) Hr.
  assert (Le := lookup_of_truthy d "email" (Ht _ (or_introl eq_refl))).
  assert (Ln := lookup_of_truthy d "name" (Ht _ (or_intror (or_intror (or_introl eq_refl))))).
  assert (Lp := lookup_of_truthy d "position_in_school"
                  (Ht _ (or_intror (or_intror (or_intror (or_introl eq_refl)))))).
  unfold register, serve, try_except, register_body.
  rewrite bind_first_missing. fold Stated.required. rewrite (none_missing d _ Ht).
  unfold bind at 1. rewrite subscript_run, Le.
  unfold bind at 1. rewrite query_by_email_run, He. cbn [fresh stored]. rewrite Hf.
  unfold bind at 1. rewrite subscript_run, Le.
  unfold bind at 1. rewrite subscript_run, Ln.
  unfold bind at 1. rewrite subscript_run, Lp.
  unfold bind at 1. rewrite subscript_run, Hpw.
  unfold bind at 1. cbn [set_password ret].
  unfold bind at 1. cbn [session_write fresh stored pending ticks logged app].
  unfold bind at 1. unfold commit. cbn [pending stored ticks logged flush flush_op].
  rewrite He, Hn, Hp. cbn [bind_boolean].
  unfold Orm.insert, User.table_args. cbn [forallb]. rewrite andb_true_r.
  match goal with |- context [User.unique_email ?r ?l] =>
    replace (User.unique_email r l) with true
      by (symmetry; apply unique_email_spec; exact Hf) end.
  rewrite Hr.
  match goal with |- context [User.set_id ?i ?r] =>
    replace (User.set_id i r) with u by (rewrite Hu at 1; reflexivity) end.
  unfold bind at 1.
  match goal with |- context [refresh_new ?ids ?w] =>
    replace (refresh_new ids w) with (@inr Py.Exn _ u, w) end.
  - reflexivity.
  - symmetry. replace (Orm.next_id User.id (Orm.users db)) with (User.id u)
      by (rewrite Hu; reflexivity).
    apply (refresh_inserted u (fresh db)); [reflexivity | rewrite Hu; reflexivity].
Qed.


(** X6: [register] keeps the emails of the users table distinct. *)
Theorem register_keeps_emails_unique :
  forall (env : Env) (data : Py.json) (db : Orm.Database),
    NoDup (map User.email (Orm.users db)) ->
    NoDup (map User.email (Orm.users (stored (snd (register env data db))))).
Proof.
  intros env data db Hnd. pose proof (register_holds env data db) as H.
  destruct (register env data db) as [resp w]. cbn [snd].
  destruct H as [(u & H1 & _ & -> & _) | [[_ ->] | (_ & -> & _)]]; try exact Hnd.
  cbn [stored Orm.users Orm.with_users]. rewrite map_app. cbn [map].
  apply SchemaFacts.NoDup_snoc; [exact Hnd |].
  destruct H1 as (d & pw & _ & _ & _ & _ & _ & _ & Hf & _).
  now apply not_in_emails.
Qed.

Lemma register_keeps_emails_unique_witness :
  NoDup (map User.email (Orm.users Samples.directory))
  /\ NoDup (map User.email
              (Orm.users (stored (snd (register Samples.env Samples.bob_signs_up
                                                Samples.directory))))).
Proof.
  assert (H : NoDup (map User.email (Orm.users Samples.directory)))
    by (constructor; [intros [] | constructor]).
  split; [exact H |].
  exact (register_keeps_emails_unique Samples.env Samples.bob_signs_up Samples.directory H).
Defined.

(** X7: An email that is already registered gets 409 and nothing is written. *)
Theorem register_duplicate_email :
  forall (env : Env) (d : Py.dict) (s : string) (u : User.t) (db : Orm.Database),
    (forall f, In f Stated.required -> Py.truthy (Py.get d f) = true) ->
    bind_string env (Py.get d "email") = inr s ->
    find (fun x => String.eqb (User.email x) s) (Orm.users db) = Some u ->
    register env (Py.JDict d) db = (error "Email already registered" 409, fresh db).
Proof.
  intros env d s u db Ht He Hf.
  assert (Le := lookup_of_truthy d "email" (Ht _ (or_introl eq_refl))).
  unfold register, serve, try_except, register_body.
  rewrite bind_first_missing. fold Stated.required. rewrite (none_missing d _ Ht).
  unfold bind at 1. rewrite subscript_run, Le.
  unfold bind at 1. rewrite query_by_email_run, He. cbn [fresh stored]. rewrite Hf.
  reflexivity.
Qed.

Lemma register_duplicate_email_witness :
  register Samples.env
           (Py.JDict [("email", Py.JStr "carol@ecap.com"); ("password", Py.JStr "hunter2");
                      ("name", Py.JStr "Carol"); ("position_in_school", Py.JStr "Dean")])
           Samples.directory
  = (error "Email already registered" 409, fresh Samples.directory).
Proof.
  apply (register_duplicate_email Samples.env _ "carol@ecap.com" Samples.carol).
  - intros f [<- | [<- | [<- | [<- | []]]]]; reflexivity.
  - reflexivity.
  - reflexivity.
Defined.

(** X8: A body that lacks a required field, or carries a false value for it,
    gets 400 naming the first such field in the order email, password, name,
    position_in_school, and nothing is written. *)
Theorem register_names_first_missing_field :
  forall (env : Env) (d : Py.dict) (f : string) (db : Orm.Database),
    find (fun f => negb (Py.truthy (Py.get d f))) Stated.required = Some f ->
    register env (Py.JDict d) db = (error (f ++ " is required")%string 400, fresh db).
Proof.
  intros env d f db Hf.
  unfold register, serve, try_except, register_body.
  rewrite bind_first_missing. fold Stated.required. now rewrite Hf.
Qed.

Lemma register_names_first_missing_field_witness :
  register Samples.env
           (Py.JDict [("email", Py.JStr "dan@ecap.com"); ("password", Py.JStr "hunter2");
                      ("name", Py.JNull)])
           Samples.directory
  = (error "name is required" 400, fresh Samples.directory).
Proof.
  apply (register_names_first_missing_field Samples.env _ "name" Samples.directory).
  reflexivity.
Defined.

(** X9: A body that is not an object gets 400 "email is required" when it is
    false ([null], [0], the empty string, the empty list) and 500 when it is
    true; either way nothing is stored. *)
Theorem register_body_not_object :
  forall (env : Env) (data : Py.json) (db : Orm.Database),
    (forall d, data <> Py.JDict d) ->
    register env data db
    = if Py.truthy data
      then (error "Internal server error" 500,
            mkWorld db [] O [("Registration error", Py.AttributeError)])
      else (error "email is required" 400, fresh db).
Proof.
  intros env data db Hd.
  unfold register, serve, try_except, register_body.
  unfold bind at 1. rewrite first_missing_not_object by exact Hd.
  now destruct (Py.truthy data).
Qed.

Lemma register_body_not_object_witness :
  register Samples.env (Py.JList [Py.JStr "email"]) Samples.directory
  = (error "Internal server error" 500,
     mkWorld Samples.directory [] O [("Registration error", Py.AttributeError)]).
Proof.
  apply (register_body_not_object Samples.env (Py.JList [Py.JStr "email"])
                                  Samples.directory).
  intros d. discriminate.
Defined.

End RegisterFacts.

(* ===================================================================== *)
(** * [register] then [login]; [create_user]; the default admin *)
(* ===================================================================== *)

Module FlowFacts.

Import Routes RouteFacts LoginFacts RegisterFacts.

Lemma bind_string_same_driver env env' v :
  (forall x, adapt_string env' x = adapt_string env x) ->
  bind_string env' v = bind_string env v.
Proof. intros H. unfold bind_string. destruct v; try reflexivity; now rewrite H. Qed.

Lemma find_appended (s : string) (u : User.t) (tbl : list User.t) :
  find (fun x => String.eqb (User.email x) s) tbl = None ->
  User.email u = s ->
  find (fun x => String.eqb (User.email x) s) (tbl ++ [u]) = Some u.
Proof.
  intros Hn He. induction tbl as [| x tbl IH]; cbn in *.
  - now rewrite He, String.eqb_refl.
  - destruct (String.eqb (User.email x) s); [discriminate Hn | now apply IH].
Qed.

(** X10: A user who registered can log in with the same request body, as long as
    bcrypt accepts the hash it produced. *)
Theorem register_then_login :
  forall (env env' : Env) (data : Py.json) (db : Orm.Database) (u : User.t) (tok : string),
    Stated.registration_holds env data db u ->
    commit_raises env = false ->
    (forall x, adapt_string env' x = adapt_string env x) ->
    (forall pw, check_password_hash env' (generate_password_hash env pw) pw = Some true) ->
    commit_raises env' = false ->
    create_access_token env' (User.id u) = Some tok ->
    snd (fst (login env' data (stored (snd (register env data db))))) = 200.
Proof.
  intros env env' data db u tok Hreg Hr Hdrv Hb Hr' Ht.
  rewrite (register_accepts env data db u Hreg Hr). cbn [snd stored].
  apply (login_accepts env' data _ u tok); [| exact Hr' | exact Ht].
  destruct Hreg as (d & pw & -> & Htr & Hpw & He & Hn & Hp & Hf & Hu).
  exists d, (Py.get d "email"), pw, (User.email u).
  assert (Hin : In "password" Stated.required) by (right; now left).
  pose proof (Htr _ Hin) as Htp. rewrite (get_of_lookup _ _ _ Hpw) in Htp.
  repeat split.
  - apply lookup_of_truthy, Htr. now left.
  - apply Htr. now left.
  - exact Hpw.
  - intros ->. discriminate Htp.
  - now rewrite (bind_string_same_driver env env').
  - cbn [Orm.users Orm.with_users]. now apply find_appended.
  - rewrite Hu. cbn [User.password_hash Stated.inserted]. apply Hb.
  - now rewrite Hu.
Qed.

Lemma register_then_login_witness :
  Stated.registration_holds Samples.env Samples.bob_signs_up Samples.directory
    (Stated.inserted Samples.env 0 2 "bob@ecap.com" "$2b$12$hunter2" "Bob" "Chair"
                     (Some false))
  /\ snd (fst (login Samples.env Samples.bob_signs_up
                     (stored (snd (register Samples.env Samples.bob_signs_up
                                            Samples.directory))))) = 200.
Proof.
  assert (H : Stated.registration_holds Samples.env Samples.bob_signs_up Samples.directory
                (Stated.inserted Samples.env 0 2 "bob@ecap.com" "$2b$12$hunter2" "Bob"
                                 "Chair" (Some false))).
  { exists [("email", Py.JStr "bob@ecap.com"); ("password", Py.JStr "hunter2");
            ("name", Py.JStr "Bob"); ("position_in_school", Py.JStr "Chair");
            ("is_admin", Py.JBool true)], "hunter2".
    repeat split.
    intros f [<- | [<- | [<- | [<- | []]]]]; reflexivity. }
  split; [exact H |].
  apply (register_then_login Samples.env Samples.env _ _ _ "token" H); try reflexivity.
  intro pw. cbn. now rewrite String.eqb_refl.
Defined.

(** ** [admin_required] and [create_user] *)

(** X11: The decorator answers 403, without running the handler, for a caller
    that is unknown or not an administrator. *)
Theorem admin_required_refuses :
  forall (env : Env) (db : Orm.Database) (f : M Response) (g : Accounts.M Response),
    Stated.caller_is_admin env db = false ->
    serve (admin_required env f) (fresh db)
    = (error "Admin privileges required" 403, fresh db)
    /\ Accounts.serve (Accounts.admin_required env g) (Accounts.fresh db)
       = (error "Admin privileges required" 403, Accounts.fresh db).
Proof.
  intros env db f g H. unfold Stated.caller_is_admin in H.
  unfold serve, admin_required, bind, query_get.
  unfold Accounts.serve, Accounts.admin_required, Accounts.bind, Accounts.of_routes, query_get.
  cbn [fresh stored Accounts.fresh Accounts.stored Accounts.ticks Accounts.logged
       Accounts.pending].
  destruct (find _ (Orm.users db)) as [u |]; [| split; reflexivity].
  rewrite H. split; reflexivity.
Qed.

Lemma admin_required_refuses_witness :
  Stated.caller_is_admin Samples.env Samples.directory = false
  /\ create_user Samples.env Samples.bob_signs_up Samples.directory
     = (error "Admin privileges required" 403, fresh Samples.directory).
Proof.
  split; [reflexivity |].
  apply (admin_required_refuses Samples.env Samples.directory
           (try_except (create_user_body Samples.env Samples.bob_signs_up)
              (fun e => rollback ;;; log_error "Create user error" e ;;;
                        ret (error "Internal server error" 500)))
           (Accounts.ret (error "unused" 0)) eq_refl).
Defined.

Lemma create_user_body_holds env data db :
  ends (create_user_body env data) (fresh db)
       (fun r w =>
          match r with
          | inr resp =>
              (exists u pw,
                  Stated.creation_holds env data db u pw
                  /\ commit_raises env = false
                  /\ w = mkWorld (Orm.with_users (Orm.users db ++ [u]) db) [] 2 []
                  /\ resp = (Py.JDict
                               [("message", Py.JStr "User created successfully");
                                ("user", Py.JDict (Py.setitem (User.to_dict u)
                                                              "generated_password"
                                                              (Py.JStr pw)))], 201))
              \/ ((snd resp = 400 \/ snd resp = 409) /\ w = fresh db)
          | inl _ => stored w = db /\ logged w = []
          end).
Proof.
  unfold create_user_body.
  destruct data as [| | | | | | d].
  1-6: apply ends_bind; unfold ends at 1;
    rewrite first_missing_not_object by discriminate;
    match goal with |- context [Py.truthy ?x] => destruct (Py.truthy x) end;
    cbn [fst snd]; [now split | apply ends_ret; right; split; [now left | reflexivity]].
  apply ends_bind. unfold ends at 1. rewrite first_missing_dict. cbn [fst snd].
  destruct (find _ _) as [field |] eqn:Hm;
    [apply ends_ret; right; split; [now left | reflexivity] |].
  pose proof (first_missing_none _ _ Hm) as Htruthy.
  apply ends_bind. unfold ends at 1. rewrite subscript_run.
  destruct (Py.lookup d "email") as [email |] eqn:He; [| now split]. cbn [fst snd].
  apply ends_bind. unfold ends at 1. rewrite query_by_email_run.
  destruct (bind_string env email) as [x | s] eqn:Hs; [now split |].
  cbn [fst snd fresh stored].
  destruct (find (fun u => String.eqb (User.email u) s) (Orm.users db)) as [u0 |] eqn:Hu;
    [apply ends_ret; right; split; [now right | reflexivity] |].
  apply ends_bind. unfold ends at 1. cbn [py_get ret fst snd].
  apply ends_bind. unfold ends at 1. rewrite subscript_run, He. cbn [fst snd].
  apply ends_bind. unfold ends at 1. rewrite subscript_run.
  destruct (Py.lookup d "name") as [name |] eqn:Hn; [| now split]. cbn [fst snd].
  apply ends_bind. unfold ends at 1. rewrite subscript_run.
  destruct (Py.lookup d "position_in_school") as [pos |] eqn:Hpos; [| now split].
  cbn [fst snd].
  apply ends_bind. unfold ends at 1. cbn [py_get_default ret fst snd].
  apply ends_bind. unfold ends at 1.
  destruct (if Py.truthy (Py.get d "password") then Py.get d "password"
            else Py.JStr (generated_password env)) as [| | | | pw | |] eqn:Hpw;
    try (cbn; now split).
  cbn [set_password ret fst snd].
  apply ends_bind, ends_session_write.
  apply ends_bind.
  eapply ends_weaken; [eapply commit_insert_row; reflexivity |].
  intros [x | ids] w1; cbn beta iota.
  - intros ->. now split.
  - intros (e' & n' & p' & a' & H1 & H2 & H3 & H4 & H5 & H6 & -> & ->).
    cbn [fresh stored ticks logged] in *.
    assert (E : e' = s) by congruence. subst e'.
    set (u := Stated.inserted env 0 _ s _ n' p' a').
    apply ends_bind. unfold ends at 1.
    rewrite (refresh_inserted u (fresh db)); [| reflexivity | reflexivity].
    cbn [fst snd]. apply ends_ret. left. exists u, pw.
    split; [| repeat split; assumption].
    exists d, a'. rewrite (get_of_lookup _ _ _ He), (get_of_lookup _ _ _ Hn),
      (get_of_lookup _ _ _ Hpos).
    repeat split; assumption.
Qed.

(** X12: When [create_user] answers 201 the caller is an administrator, the new
    user carries the role the body asked for and the hash of the supplied
    password, or of the generated one when the body supplies none, and the
    answer discloses that password in clear under [generated_password]. *)
Theorem create_user_discloses_password :
  forall (env : Env) (data : Py.json) (db : Orm.Database),
    snd (fst (create_user env data db)) = 201 ->
    exists u pw,
      Stated.creation_holds env data db u pw
      /\ Stated.caller_is_admin env db = true
      /\ commit_raises env = false
      /\ Orm.users (stored (snd (create_user env data db))) = Orm.users db ++ [u]
      /\ fst (fst (create_user env data db))
         = Py.JDict [("message", Py.JStr "User created successfully");
                     ("user", Py.JDict (User.to_dict u
                                        ++ [("generated_password", Py.JStr pw)]))].
Proof.
  intros env data db.
  pose proof (create_user_body_holds env data db) as H.
  unfold create_user, serve, admin_required, bind, query_get, try_except, ends,
    Stated.caller_is_admin in *.
  cbn [fresh stored].
  destruct (find _ (Orm.users db)) as [c |]; [| discriminate].
  destruct (is_true (User.is_admin c)); cbn [negb]; [| discriminate].
  fold (fresh db).
  destruct (create_user_body env data (fresh db)) as [[e | resp] w]; cbn in *;
    [discriminate |].
  intros H201.
  destruct H as [(u & pw & H1 & H2 & -> & ->) | [[H | H] _]];
    try (rewrite H in H201; discriminate H201).
  exists u, pw. repeat split; assumption.
Qed.

Lemma create_user_discloses_password_witness :
  snd (fst (create_user Samples.env Samples.bob_signs_up Fixtures.staff)) = 201
  /\ exists u,
       Orm.users (stored (snd (create_user Samples.env Samples.bob_signs_up
                                           Fixtures.staff)))
       = Orm.users Fixtures.staff ++ [u]
       /\ fst (fst (create_user Samples.env Samples.bob_signs_up Fixtures.staff))
          = Py.JDict [("message", Py.JStr "User created successfully");
                      ("user", Py.JDict (User.to_dict u
                                         ++ [("generated_password",
                                              Py.JStr "hunter2")]))].
Proof.
  split; [reflexivity |].
  destruct (create_user_discloses_password Samples.env Samples.bob_signs_up Fixtures.staff
              eq_refl) as (u & pw & Hc & _ & _ & H1 & H2).
  exists u. split; [exact H1 |].
  destruct Hc as (d & a & [= <-] & _ & Hpw & _). cbn in Hpw.
  injection Hpw as <-. exact H2.
Defined.

End FlowFacts.

(* ===================================================================== *)
(** * [generate_password] and the default admin *)
(* ===================================================================== *)

Module StartupFacts.

Import Routes RouteFacts LoginFacts RegisterFacts.

Lemma get_in (s : string) :
  forall i c, String.get i s = Some c -> In c (list_ascii_of_string s).
Proof.
  induction s as [| a s IH]; intros i c H; [discriminate H |].
  destruct i as [| i]; cbn in *.
  - injection H as <-. now left.
  - right. now apply (IH i).
Qed.

Lemma get_below (s : string) :
  forall i, (i < String.length s)%nat -> exists c, String.get i s = Some c.
Proof.
  induction s as [| a s IH]; intros i H; cbn in H; [lia |].
  destruct i as [| i]; cbn; [now exists a |]. apply IH. lia.
Qed.

Lemma choice_in (draw : nat) : In (Startup.choice draw Startup.characters)
                                  (list_ascii_of_string Startup.characters).
Proof.
  unfold Startup.choice.
  destruct (get_below Startup.characters
              (Nat.modulo draw (String.length Startup.characters))) as (c & Hc).
  { apply Nat.mod_upper_bound. discriminate. }
  rewrite Hc. exact (get_in _ _ _ Hc).
Qed.

(** X13: [generate_password(length)] has [length] characters, each of them a
    letter or a digit, whatever the random source draws. *)
Theorem generate_password_shape :
  forall (length : nat) (draws : nat -> nat),
    String.length (Startup.generate_password draws length) = length
    /\ Forall (fun c => In c (list_ascii_of_string Startup.characters))
              (list_ascii_of_string (Startup.generate_password draws length)).
Proof.
  induction length as [| n IH]; intros draws; cbn.
  - split; [reflexivity | constructor].
  - destruct (IH (fun k => draws (S k))) as [Hl Hf].
    split; [now rewrite Hl |]. constructor; [apply choice_in | exact Hf].
Qed.

(** The start-up block either finds a user with the email of the default
    admin and leaves the database as it is, or appends the default admin. *)
Lemma create_app_cases env db db1 :
  Startup.create_app env db = Some db1 ->
  (exists u, find (fun x => String.eqb (User.email x) "admin@ecap.com") (Orm.users db)
             = Some u /\ db1 = db)
  \/ (find (fun x => String.eqb (User.email x) "admin@ecap.com") (Orm.users db) = None
      /\ commit_raises env = false
      /\ db1 = Orm.with_users
                 (Orm.users db
                  ++ [Stated.inserted env 0 (Orm.next_id User.id (Orm.users db))
                        "admin@ecap.com" (generate_password_hash env "admin123")
                        "System Administrator" "Administrator" (Some true)]) db).
Proof.
  unfold Startup.create_app, Startup.create_default_admin.
  unfold bind at 1. rewrite query_by_email_run. cbn [bind_string fresh stored].
  destruct (find _ (Orm.users db)) as [u |] eqn:Hf.
  - cbn. intros [= <-]. left. now exists u.
  - unfold bind at 1. cbn [set_password ret].
    unfold bind at 1. cbn [session_write stored pending ticks logged app].
    pose proof (commit_insert_row env (Py.JStr "admin@ecap.com")
                  (Py.JStr "System Administrator") (Py.JStr "Administrator")
                  (Py.JBool true) (generate_password_hash env "admin123")
                  (mkWorld db [Insert (Py.JStr "admin@ecap.com")
                                 (Py.JStr "System Administrator")
                                 (Py.JStr "Administrator") (Py.JBool true)
                                 (generate_password_hash env "admin123")] 0 [])
                  eq_refl) as H.
    unfold ends in H. unfold bind at 1.
    destruct (commit env _) as [[e | ids] w1]; cbn [fst snd] in H; [discriminate |].
    destruct H as (e' & n' & p' & a' & [= <-] & [= <-] & [= <-] & [= <-] & _ & Hr & _ & ->).
    cbn. intros [= <-]. right. now repeat split.
Qed.

(** X14: Starting the application a second time changes nothing: after the first
    start-up a user with the email of the default admin exists, and the
    second start-up leaves the database as the first one left it. *)
Theorem create_app_idempotent :
  forall (env env' : Env) (db db1 : Orm.Database),
    Startup.create_app env db = Some db1 ->
    Startup.create_app env' db1 = Some db1
    /\ exists u, find (fun x => String.eqb (User.email x) "admin@ecap.com")
                      (Orm.users db1) = Some u.
Proof.
  intros env env' db db1 H.
  assert (Hex : exists u, find (fun x => String.eqb (User.email x) "admin@ecap.com")
                               (Orm.users db1) = Some u).
  { destruct (create_app_cases env db db1 H) as [(u & Hu & ->) | (Hn & _ & ->)].
    - now exists u.
    - eexists. cbn [Orm.users Orm.with_users].
      apply FlowFacts.find_appended; [exact Hn | reflexivity]. }
  split; [| exact Hex]. destruct Hex as (u & Hu).
  unfold Startup.create_app, Startup.create_default_admin.
  unfold bind at 1. rewrite query_by_email_run. cbn [bind_string fresh stored].
  now rewrite Hu.
Qed.

Lemma create_app_idempotent_witness :
  exists db1,
    Startup.create_app Samples.env Samples.directory = Some db1
    /\ Startup.create_app Samples.env db1 = Some db1.
Proof.
  eexists. split; [vm_compute; reflexivity |].
  apply (create_app_idempotent Samples.env Samples.env Samples.directory _ eq_refl).
Defined.

(** X15: On a database without that email, the start-up creates an administrator
    who can log in with the password written in the source, [admin123]. *)
Theorem default_admin_logs_in :
  forall (env env' : Env) (db db1 : Orm.Database) (tok : string),
    find (fun x => String.eqb (User.email x) "admin@ecap.com") (Orm.users db) = None ->
    Startup.create_app env db = Some db1 ->
    (forall pw, check_password_hash env' (generate_password_hash env pw) pw = Some true) ->
    commit_raises env' = false ->
    (forall i, create_access_token env' i = Some tok) ->
    exists u,
      In u (Orm.users db1)
      /\ User.email u = "admin@ecap.com"
      /\ User.is_admin u = Some true
      /\ snd (fst (login env'
                         (Py.JDict [("email", Py.JStr "admin@ecap.com");
                                    ("password", Py.JStr "admin123")]) db1)) = 200.
Proof.
  intros env env' db db1 tok Hn H Hb Hr Ht.
  destruct (create_app_cases env db db1 H) as [(u & Hu & _) | (_ & _ & ->)];
    [congruence |].
  eexists. cbn [Orm.users Orm.with_users].
  split; [apply in_app_iff; right; now left |].
  split; [reflexivity |]. split; [reflexivity |].
  eapply login_accepts; [| exact Hr | apply Ht].
  exists [("email", Py.JStr "admin@ecap.com"); ("password", Py.JStr "admin123")],
         (Py.JStr "admin@ecap.com"), "admin123", "admin@ecap.com".
  repeat split; try reflexivity; try discriminate.
  - cbn [Orm.users Orm.with_users]. apply FlowFacts.find_appended; [exact Hn | reflexivity].
  - apply Hb.
  - reflexivity.
Qed.

Lemma default_admin_logs_in_witness :
  exists db1 u,
    Startup.create_app Samples.env Orm.empty = Some db1
    /\ In u (Orm.users db1) /\ User.is_admin u = Some true
    /\ snd (fst (login Samples.env
                       (Py.JDict [("email", Py.JStr "admin@ecap.com");
                                  ("password", Py.JStr "admin123")]) db1)) = 200.
Proof.
  eexists.
  destruct (default_admin_logs_in Samples.env Samples.env Orm.empty _ "token"
              eq_refl eq_refl) as (u & H1 & _ & H2 & H3).
  - intro pw. cbn. now rewrite String.eqb_refl.
  - reflexivity.
  - reflexivity.
  - exists u. split; [vm_compute; reflexivity |]. repeat split; assumption.
Defined.

End StartupFacts.

(* ===================================================================== *)
(** * The other handlers *)
(* ===================================================================== *)

Module AccountsFacts.

Import Accounts.

(** ** Postconditions of the monad *)

Lemma after_bind {A B} (m : M A) (k : A -> M B) w Q :
  ends m w (fun r w1 =>
              match r with
              | inr a => ends (k a) w1 Q
              | inl e => Q (inl e) w1
              end) ->
  ends (bind m k) w Q.
Proof.
  unfold ends, bind. destruct (m w) as [[e | a] w1]; cbn; auto.
Qed.

Lemma after_ret {A} (a : A) w (Q : Py.Exn + A -> World -> Prop) :
  Q (inr a) w -> ends (ret a) w Q.
Proof. auto. Qed.

Lemma after_weaken {A} (m : M A) w (P Q : Py.Exn + A -> World -> Prop) :
  ends m w P -> (forall r w1, P r w1 -> Q r w1) -> ends m w Q.
Proof. unfold ends. auto. Qed.

(** A reading step of [Routes] is a reading step here, with the result it
    has on the committed rows. *)
Lemma of_routes_run {A} (m : Routes.M A) (w : World) :
  Routes.reads m ->
  of_routes m w
  = (fst (m (Routes.mkWorld (stored w) [] (ticks w) (logged w))), w).
Proof.
  intros Hm. unfold of_routes. specialize (Hm (Routes.mkWorld (stored w) [] (ticks w) (logged w))).
  destruct (m _) as [r v]. cbn in *. subst v. now destruct w.
Qed.

Lemma query_get_run (i : Z) (w : World) :
  of_routes (Routes.query_get i) w
  = (inr (find (fun u => Z.eqb (User.id u) i) (Orm.users (stored w))), w).
Proof. now rewrite of_routes_run by apply RouteFacts.reads_query_get. Qed.

Lemma after_write op w (Q : Py.Exn + unit -> World -> Prop) :
  Q (inr tt) (mkWorld (stored w) (pending w ++ [op]) (ticks w) (logged w)) ->
  ends (session_write op) w Q.
Proof. auto. Qed.

Lemma after_clock env w (Q : Py.Exn + Py.datetime -> World -> Prop) :
  Q (inr (Routes.utcnow env (ticks w)))
    (mkWorld (stored w) (pending w) (S (ticks w)) (logged w)) ->
  ends (of_routes (Routes.clock env)) w Q.
Proof. auto. Qed.

(** ** The decorator and the two [except] branches *)

Lemma served_with_rollback (body : M Routes.Response) (what : string) (db : Orm.Database)
  (Good : Routes.Response -> World -> Prop) :
  ends body (fresh db)
       (fun r w => match r with inr resp => Good resp w | inl _ => stored w = db end) ->
  let '(resp, w) := serve (try_except body (on_error_rollback what)) (fresh db) in
  Good resp w
  \/ (resp = Routes.error "Internal server error" 500 /\ stored w = db /\ pending w = []).
Proof.
  unfold ends, serve, try_except, on_error_rollback.
  destruct (body (fresh db)) as [[e | resp] w]; cbn; [| now left].
  intros H. right. now repeat split.
Qed.

Lemma admin_served_with_rollback env (body : M Routes.Response) (what : string)
  (db : Orm.Database) (Good : Routes.Response -> World -> Prop) :
  ends body (fresh db)
       (fun r w => match r with inr resp => Good resp w | inl _ => stored w = db end) ->
  let '(resp, w) :=
    serve (admin_required env (try_except body (on_error_rollback what))) (fresh db) in
  (Stated.caller_is_admin env db = true /\ Good resp w)
  \/ (resp = Routes.error "Admin privileges required" 403 /\ w = fresh db)
  \/ (resp = Routes.error "Internal server error" 500 /\ stored w = db /\ pending w = []).
Proof.
  intros H. pose proof (served_with_rollback body what db Good H) as S.
  unfold serve, admin_required, bind in *. rewrite query_get_run.
  unfold Stated.caller_is_admin. cbn [fresh stored].
  destruct (find _ (Orm.users db)) as [c |]; [| right; left; now split].
  destruct (Routes.is_true (User.is_admin c)); cbn [negb]; [| right; left; now split].
  fold (fresh db).
  destruct (try_except body (on_error_rollback what) (fresh db)) as [[e | resp] w];
    (destruct S as [S | S]; [left; now split | right; right; exact S]).
Qed.

(** ** The flush of assignments *)

Section Assignments.

Variable env : Routes.Env.
Variable i : Z.

Lemma kept_refl db : Stated.assigned_only i db db.
Proof. repeat split. now destruct db. Qed.

Lemma kept_trans db1 db2 db3 : Stated.assigned_only i db1 db2 -> Stated.assigned_only i db2 db3 -> Stated.assigned_only i db1 db3.
Proof.
  intros (A1 & B1 & C1) (A2 & B2 & C2). repeat split.
  - rewrite A2 at 1. rewrite A1. reflexivity.
  - now rewrite B2.
  - now rewrite C2.
Qed.

Lemma on_user_kept (f : User.t -> User.t) db db' :
  (forall u, Stated.fixed_columns (f u) = Stated.fixed_columns u) ->
  on_user i f db = inr db' -> Stated.assigned_only i db db'.
Proof.
  intros Hf. unfold on_user.
  destruct (existsb _ (Orm.users db)); [| discriminate]. intros [= <-].
  repeat split; cbn [Orm.users Orm.with_users].
  - rewrite map_map. apply map_ext. intro u.
    destruct (Z.eqb (User.id u) i); [apply Hf | reflexivity].
  - induction (Orm.users db) as [| u l IH]; cbn; [reflexivity |].
    destruct (Z.eqb (User.id u) i) eqn:E.
    + assert (Hid : User.id (f u) = User.id u)
        by (specialize (Hf u); unfold Stated.fixed_columns in Hf; congruence).
      rewrite Hid, E. cbn. exact IH.
    + rewrite E. cbn. now rewrite IH.
Qed.

Lemma flush_op_kept op db t db' t' :
  Stated.assigns i op -> flush_op env op db t = inr (db', t') -> Stated.assigned_only i db db' /\ t' = t.
Proof.
  destruct op as [j v | j v | j v | j v | j h | j d | j]; cbn [Stated.assigns flush_op];
    intros Hj; try contradiction; subst j.
  1,2: destruct (bind_required env v) as [e | s]; [discriminate |].
  3,4: destruct (Routes.bind_boolean env v) as [e | b]; [discriminate |].
  all: unfold keep_clock;
    match goal with |- context [on_user ?k ?f ?d] =>
      destruct (on_user k f d) as [e | db1] eqn:E; [discriminate |] end;
    intros [= <- <-]; split; [| reflexivity];
    refine (on_user_kept _ _ _ _ E); reflexivity.
Qed.

Lemma flush_kept ops :
  forall db t db' t',
    Forall (Stated.assigns i) ops ->
    flush env ops db t = inr (db', t') -> Stated.assigned_only i db db' /\ t' = t.
Proof.
  induction ops as [| op ops IH]; intros db t db' t' Hall; cbn [flush].
  - intros [= <- <-]. split; [apply kept_refl | reflexivity].
  - inversion Hall as [| ? ? Hop Hops]; subst.
    destruct (flush_op env op db t) as [e | [db1 t1]] eqn:E; [discriminate |].
    destruct (flush_op_kept op db t db1 t1 Hop E) as [K1 ->].
    intros H. destruct (IH db1 t db' t' Hops H) as [K2 ->].
    split; [exact (kept_trans _ _ _ K1 K2) | reflexivity].
Qed.

Lemma commit_kept db w :
  Stated.assigning i db w ->
  ends (commit env) w
       (fun r w1 =>
          match r with
          | inl _ => w1 = w
          | inr _ => pending w1 = [] /\ Stated.assigned_only i db (stored w1) /\ Routes.commit_raises env = false
          end).
Proof.
  intros [Hs Hall]. unfold ends, commit.
  destruct (flush env (pending w) (stored w) (ticks w)) as [e | [db' t']] eqn:E;
    [reflexivity |].
  destruct (Routes.commit_raises env) eqn:C; [reflexivity |].
  destruct (flush_kept _ _ _ _ _ Hall E) as [K _]. rewrite Hs in K.
  split; [reflexivity | split; [exact K | reflexivity]].
Qed.

Lemma write_assigning db w op (Q : Py.Exn + unit -> World -> Prop) :
  Stated.assigning i db w -> Stated.assigns i op ->
  (forall w1, Stated.assigning i db w1 -> Q (inr tt) w1) ->
  ends (session_write op) w Q.
Proof.
  intros [Hs Hall] Hop HQ. apply after_write, HQ. split; [exact Hs |].
  cbn. apply Forall_app. split; [exact Hall | now constructor].
Qed.

Lemma assign_assigning db w data k column (Q : Py.Exn + unit -> World -> Prop) :
  Stated.assigning i db w -> (forall v, Stated.assigns i (column v)) ->
  (forall r w1, Stated.assigning i db w1 -> Q r w1) ->
  ends (assign data k column) w Q.
Proof.
  intros Hw Hc HQ. unfold assign.
  apply after_bind. unfold ends at 1.
  destruct (contains data k) as [e | [|]]; cbn [lift raise ret fst snd];
    try (apply HQ; exact Hw).
  apply after_bind. unfold ends at 1.
  rewrite of_routes_run by apply RouteFacts.reads_subscript. cbn [fst snd].
  destruct (fst _) as [e | v]; [apply HQ; exact Hw |].
  apply (write_assigning db); [exact Hw | apply Hc | intros w1; apply HQ].
Qed.

Lemma assign_password_assigning db w data (Q : Py.Exn + unit -> World -> Prop) :
  Stated.assigning i db w ->
  (forall r w1, Stated.assigning i db w1 -> Q r w1) ->
  ends (assign_password env data i) w Q.
Proof.
  intros Hw HQ. unfold assign_password.
  apply after_bind. unfold ends at 1.
  destruct (contains data "password") as [e | [|]]; cbn [lift raise ret fst snd];
    try (apply HQ; exact Hw).
  apply after_bind. unfold ends at 1.
  rewrite of_routes_run by apply RouteFacts.reads_subscript. cbn [fst snd].
  destruct (fst _) as [e | v]; [apply HQ; exact Hw |].
  destruct (Py.truthy v); [| apply after_ret, HQ, Hw].
  apply after_bind. unfold ends at 1.
  rewrite of_routes_run by apply RouteFacts.reads_set_password. cbn [fst snd].
  destruct (fst _) as [e | h]; [apply HQ; exact Hw |].
  apply (write_assigning db); [exact Hw | reflexivity | intros w1; apply HQ].
Qed.

End Assignments.

(** ** [update_user] *)

Lemma find_fixed (i : Z) (u : User.t) :
  forall l l' : list User.t,
    map Stated.fixed_columns l' = map Stated.fixed_columns l ->
    find (fun x => Z.eqb (User.id x) i) l = Some u ->
    exists u', find (fun x => Z.eqb (User.id x) i) l' = Some u'
               /\ Stated.fixed_columns u' = Stated.fixed_columns u.
Proof.
  induction l as [| x l IH]; intros [| x' l'] Hm Hf; try discriminate.
  cbn [map] in Hm.
  assert (Hx : Stated.fixed_columns x' = Stated.fixed_columns x) by congruence.
  assert (Hl : map Stated.fixed_columns l' = map Stated.fixed_columns l) by congruence.
  assert (Hid : User.id x' = User.id x)
    by (unfold Stated.fixed_columns in Hx; congruence).
  cbn [find] in *. rewrite Hid. destruct (Z.eqb (User.id x) i).
  - injection Hf as <-. now exists x'.
  - now apply IH.
Qed.

Lemma find_id (i : Z) (u : User.t) (l : list User.t) :
  find (fun x => Z.eqb (User.id x) i) l = Some u -> User.id u = i.
Proof. intros H. apply find_some in H. now apply Z.eqb_eq. Qed.

Lemma refresh_run (i : Z) (w : World) (u : User.t) :
  find (fun x => Z.eqb (User.id x) i) (Orm.users (stored w)) = Some u ->
  of_routes (Routes.refresh i) w = (inr u, w).
Proof.
  intros H. rewrite of_routes_run by apply RouteFacts.reads_refresh.
  unfold Routes.refresh, Routes.bind, Routes.query_get. cbn. now rewrite H.
Qed.

Lemma update_user_body_holds env i data db :
  ends (update_user_body env i data) (fresh db)
       (fun r w =>
          match r with
          | inr resp =>
              (pending w = [] /\ Stated.assigned_only i db (stored w)
               /\ Routes.commit_raises env = false
               /\ exists u u',
                   find (fun x => Z.eqb (User.id x) i) (Orm.users db) = Some u
                   /\ find (fun x => Z.eqb (User.id x) i) (Orm.users (stored w)) = Some u'
                   /\ resp = (Py.JDict [("message", Py.JStr "User updated successfully");
                                        ("user", Py.JDict (User.to_dict u'))], 200))
              \/ (resp = Routes.error "User not found" 404 /\ w = fresh db)
          | inl _ => stored w = db
          end).
Proof.
  unfold update_user_body.
  apply after_bind. unfold ends at 1. rewrite query_get_run. cbn [fst snd fresh stored].
  destruct (find _ (Orm.users db)) as [u |] eqn:Hu;
    [| apply after_ret; right; now split].
  rewrite (find_id _ _ _ Hu).
  assert (H0 : Stated.assigning i db (fresh db)) by (split; [reflexivity | constructor]).
  apply after_bind.
  apply (assign_assigning i db); [exact H0 | reflexivity |].
  intros [e | []] w1 H1; [exact (proj1 H1) |].
  apply after_bind.
  apply (assign_assigning i db); [exact H1 | reflexivity |].
  intros [e | []] w2 H2; [exact (proj1 H2) |].
  apply after_bind.
  apply (assign_assigning i db); [exact H2 | reflexivity |].
  intros [e | []] w3 H3; [exact (proj1 H3) |].
  apply after_bind.
  apply (assign_assigning i db); [exact H3 | reflexivity |].
  intros [e | []] w4 H4; [exact (proj1 H4) |].
  apply after_bind.
  apply (assign_password_assigning env i db); [exact H4 |].
  intros [e | []] w5 H5; [exact (proj1 H5) |].
  apply after_bind, after_clock.
  apply after_bind.
  apply (write_assigning i db); [exact H5 | reflexivity |].
  intros w6 H6.
  apply after_bind.
  eapply after_weaken; [apply (commit_kept env i db), H6 |].
  intros [e | []] w7; cbn beta iota; [intros ->; exact (proj1 H6) |].
  intros (Hp & K & C).
  destruct (find_fixed i u _ _ (proj1 (proj2 K)) Hu) as (u' & Hu' & _).
  apply after_bind. unfold ends at 1. rewrite (refresh_run _ _ _ Hu'). cbn [fst snd].
  apply after_ret. left. repeat split; try assumption; try apply K.
  now exists u, u'.
Qed.

(** ** [change_password] and [reset_user_password] *)

Lemma subscript_found (d : Py.dict) (k : string) (v : Py.json) (w : World) :
  Py.lookup d k = Some v ->
  of_routes (Routes.subscript (Py.JDict d) k) w = (inr v, w).
Proof.
  intros H. rewrite of_routes_run by apply RouteFacts.reads_subscript.
  cbn [Routes.subscript]. now rewrite H.
Qed.

Lemma commit_rehashed env (i : Z) (h : string) (d : Py.datetime) (w : World) :
  pending w = [SetPasswordHash i h; SetUpdatedAt i d] ->
  existsb (fun u => Z.eqb (User.id u) i) (Orm.users (stored w)) = true ->
  commit env w
  = if Routes.commit_raises env then (inl Py.OperationalError, w)
    else (inr tt,
          mkWorld (Orm.with_users (Stated.rehashed i h d (Orm.users (stored w))) (stored w))
                  [] (ticks w) (logged w)).
Proof.
  intros Hp He. unfold commit. rewrite Hp.
  cbn [flush flush_op]. unfold on_user at 1. rewrite He. cbn [keep_clock].
  unfold on_user. cbn [Orm.users Orm.with_users].
  assert (He' : existsb (fun u => Z.eqb (User.id u) i)
                  (map (fun u => if Z.eqb (User.id u) i then set_password_hash h u else u)
                       (Orm.users (stored w))) = true).
  { apply existsb_exists. apply existsb_exists in He. destruct He as (u & Hin & Hu).
    exists (set_password_hash h u). split; [| exact Hu].
    apply in_map_iff. exists u. now rewrite Hu. }
  rewrite He'. cbn [keep_clock].
  destruct (Routes.commit_raises env); [reflexivity |].
  f_equal. f_equal.
  destruct (stored w) as [us ? ? ? ? ? ? ? ?]. unfold Orm.with_users. cbn.
  f_equal. unfold Stated.rehashed. rewrite map_map. apply map_ext. intro u.
  destruct (Z.eqb (User.id u) i) eqn:E; [| now rewrite E].
  cbn [set_password_hash User.id]. now rewrite E.
Qed.

Lemma found_exists (i : Z) (u : User.t) (l : list User.t) :
  find (fun x => Z.eqb (User.id x) i) l = Some u ->
  existsb (fun x => Z.eqb (User.id x) i) l = true.
Proof.
  intros H. apply existsb_exists. exists u. apply find_some in H. exact H.
Qed.

Lemma reset_user_password_body_holds env i db :
  ends (reset_user_password_body env i) (fresh db)
       (fun r w =>
          match r with
          | inr resp =>
              (Routes.commit_raises env = false
               /\ (exists u, find (fun x => Z.eqb (User.id x) i) (Orm.users db) = Some u)
               /\ w = mkWorld
                        (Orm.with_users
                           (Stated.rehashed i
                              (Routes.generate_password_hash env
                                 (Routes.generated_password env))
                              (Routes.utcnow env 0) (Orm.users db)) db) [] 1 []
               /\ resp = (Py.JDict [("message", Py.JStr "Password reset successfully");
                                    ("new_password",
                                     Py.JStr (Routes.generated_password env))], 200))
              \/ (resp = Routes.error "User not found" 404 /\ w = fresh db
                  /\ find (fun x => Z.eqb (User.id x) i) (Orm.users db) = None)
          | inl _ => stored w = db /\ Routes.commit_raises env = true
          end).
Proof.
  unfold reset_user_password_body.
  apply after_bind. unfold ends at 1. rewrite query_get_run. cbn [fst snd fresh stored].
  destruct (find _ (Orm.users db)) as [u |] eqn:Hu;
    [| apply after_ret; right; now split].
  rewrite (find_id _ _ _ Hu).
  apply after_bind. unfold ends at 1.
  rewrite of_routes_run by apply RouteFacts.reads_set_password.
  cbn [Routes.set_password Routes.ret fst snd].
  apply after_bind, after_write. apply after_bind, after_clock. apply after_bind, after_write.
  apply after_bind. unfold ends at 1.
  erewrite commit_rehashed; [| reflexivity | exact (found_exists _ _ _ Hu)].
  destruct (Routes.commit_raises env); cbn [fst snd stored fresh]; [now split |].
  apply after_ret. left. repeat split. now exists u.
Qed.

Lemma change_password_body_holds env data db :
  ends (change_password_body env data) (fresh db)
       (fun r w =>
          match r with
          | inr resp =>
              (Routes.commit_raises env = false
               /\ (exists u new,
                      Stated.password_change_holds env data db u new
                      /\ w = mkWorld
                               (Orm.with_users
                                  (Stated.rehashed (Routes.get_jwt_identity env)
                                     (Routes.generate_password_hash env new)
                                     (Routes.utcnow env 0) (Orm.users db)) db) [] 1 [])
               /\ resp = (Py.JDict [("message", Py.JStr "Password changed successfully")],
                          200))
              \/ ((snd resp = 400 \/ snd resp = 401 \/ snd resp = 404) /\ w = fresh db)
          | inl _ => stored w = db
          end).
Proof.
  unfold change_password_body.
  destruct (Py.truthy data) eqn:Hd; cbn [negb];
    [| apply after_ret; right; split; [now left | reflexivity]].
  destruct data as [| | | | | | d];
    try (apply after_bind; unfold ends at 1; reflexivity).
  apply after_bind. unfold ends at 1.
  rewrite of_routes_run by (intro; reflexivity).
  cbn [Routes.py_get Routes.ret fst snd].
  destruct (Py.truthy (Py.get d "current_password")) eqn:Hc; cbn [negb];
    [| apply after_ret; right; split; [now left | reflexivity]].
  apply after_bind. unfold ends at 1.
  rewrite of_routes_run by (intro; reflexivity).
  cbn [Routes.py_get Routes.ret fst snd].
  destruct (Py.truthy (Py.get d "new_password")) eqn:Hn; cbn [negb];
    [| apply after_ret; right; split; [now left | reflexivity]].
  apply after_bind. unfold ends at 1. rewrite query_get_run. cbn [fst snd fresh stored].
  destruct (find _ (Orm.users db)) as [u |] eqn:Hu;
    [| apply after_ret; right; split; [now right; right | reflexivity]].
  rewrite (find_id _ _ _ Hu).
  pose proof (RegisterFacts.lookup_of_truthy _ _ Hc) as Lc.
  pose proof (RegisterFacts.lookup_of_truthy _ _ Hn) as Ln.
  apply after_bind. unfold ends at 1. rewrite (subscript_found _ _ _ _ Lc). cbn [fst snd].
  apply after_bind. unfold ends at 1.
  rewrite of_routes_run by apply RouteFacts.reads_check_password.
  destruct (Py.get d "current_password") as [| | | | cur | |] eqn:Gc;
    try (cbn; reflexivity).
  cbn [Routes.check_password].
  destruct (Routes.check_password_hash env (User.password_hash u) cur) as [[|] |] eqn:Hk;
    cbn [Routes.ret Routes.raise fst snd negb];
    [| apply after_ret; right; split; [now right; left | reflexivity] | reflexivity].
  apply after_bind. unfold ends at 1. rewrite (subscript_found _ _ _ _ Ln). cbn [fst snd].
  apply after_bind. unfold ends at 1.
  rewrite of_routes_run by apply RouteFacts.reads_set_password.
  destruct (Py.get d "new_password") as [| | | | new | |] eqn:Gn;
    try (cbn; reflexivity).
  cbn [Routes.set_password Routes.ret fst snd].
  apply after_bind, after_write. apply after_bind, after_clock. apply after_bind, after_write.
  apply after_bind. unfold ends at 1.
  erewrite commit_rehashed; [| reflexivity | exact (found_exists _ _ _ Hu)].
  destruct (Routes.commit_raises env); cbn [fst snd stored fresh]; [reflexivity |].
  apply after_ret. left. split; [reflexivity |]. split; [| reflexivity].
  exists u, new. split; [| reflexivity].
  exists d, cur. repeat split; try assumption.
  - intros ->. discriminate Hc.
  - intros ->. discriminate Hn.
Qed.

Lemma truthy_string (s : string) : s <> EmptyString -> Py.truthy (Py.JStr s) = true.
Proof. intros H. cbn. now destruct (String.eqb_spec s EmptyString). Qed.

Lemma change_password_accepts env data db u new :
  Stated.password_change_holds env data db u new ->
  Routes.commit_raises env = false ->
  snd (fst (change_password env data db)) = 200.
Proof.
  intros (d & cur & -> & Lc & Hc & Ln & Hn & Hu & Hk) C.
  assert (Hd : Py.truthy (Py.JDict d) = true) by (destruct d; [discriminate Lc | reflexivity]).
  assert (Gc : Py.get d "current_password" = Py.JStr cur) by (unfold Py.get; now rewrite Lc).
  assert (Gn : Py.get d "new_password" = Py.JStr new) by (unfold Py.get; now rewrite Ln).
  assert (B : ends (change_password_body env (Py.JDict d)) (fresh db)
                (fun r _ => exists resp, r = inr resp /\ snd resp = 200)).
  { unfold change_password_body. rewrite Hd. cbn [negb].
    apply after_bind. unfold ends at 1. rewrite of_routes_run by (intro; reflexivity).
    cbn [Routes.py_get Routes.ret fst snd]. rewrite Gc, (truthy_string _ Hc). cbn [negb].
    apply after_bind. unfold ends at 1. rewrite of_routes_run by (intro; reflexivity).
    cbn [Routes.py_get Routes.ret fst snd]. rewrite Gn, (truthy_string _ Hn). cbn [negb].
    apply after_bind. unfold ends at 1. rewrite query_get_run. cbn [fst snd fresh stored].
    rewrite Hu, (find_id _ _ _ Hu).
    apply after_bind. unfold ends at 1. rewrite (subscript_found _ _ _ _ Lc). cbn [fst snd].
    apply after_bind. unfold ends at 1.
    rewrite of_routes_run by apply RouteFacts.reads_check_password.
    cbn [Routes.check_password]. rewrite Hk. cbn [Routes.ret fst snd negb].
    apply after_bind. unfold ends at 1. rewrite (subscript_found _ _ _ _ Ln). cbn [fst snd].
    apply after_bind. unfold ends at 1.
    rewrite of_routes_run by apply RouteFacts.reads_set_password.
    cbn [Routes.set_password Routes.ret fst snd].
    apply after_bind, after_write. apply after_bind, after_clock. apply after_bind, after_write.
    apply after_bind. unfold ends at 1.
    erewrite commit_rehashed; [| reflexivity | exact (found_exists _ _ _ Hu)].
    rewrite C. cbn [fst snd]. apply after_ret. eexists. split; reflexivity. }
  unfold change_password, serve, try_except, ends in *.
  destruct (change_password_body env (Py.JDict d) (fresh db)) as [[e | resp] w];
    destruct B as (resp' & [= <-] & Hr). exact Hr.
Qed.

(** ** [delete_user] *)

Lemma commit_delete env (i : Z) (w : World) :
  pending w = [Delete i] ->
  commit env w
  = match delete_user_row env i (stored w) (ticks w) with
    | inl e => (inl e, w)
    | inr (db', t) =>
        if Routes.commit_raises env then (inl Py.OperationalError, w)
        else (inr tt, mkWorld db' [] t (logged w))
    end.
Proof.
  intros Hp. unfold commit. rewrite Hp. cbn [flush flush_op].
  now destruct (delete_user_row env i (stored w) (ticks w)) as [e | [db' t]].
Qed.

Lemma release_areas_spec env (i : Z) :
  forall l t,
    map Area.id (fst (release_areas env i l t)) = map Area.id l
    /\ forall x, In x (fst (release_areas env i l t)) -> Area.chairperson_id x <> Some i.
Proof.
  induction l as [| a l IH]; intros t; cbn [release_areas].
  - split; [reflexivity | intros x []].
  - destruct (Orm.refers (Area.chairperson_id a) i) eqn:E.
    + destruct (IH (S t)) as [Hm Hx].
      destruct (release_areas env i l (S t)) as [r t']. cbn [fst map Area.id] in *.
      split; [now rewrite Hm |]. intros x [<- | Hin]; [discriminate | now apply Hx].
    + destruct (IH t) as [Hm Hx].
      destruct (release_areas env i l t) as [r t']. cbn [fst map] in *.
      split; [now rewrite Hm |]. intros x [<- | Hin]; [| now apply Hx].
      intros Hc. rewrite Hc in E. cbn in E. now rewrite Z.eqb_refl in E.
Qed.

Lemma release_parameters_spec env (i : Z) :
  forall l t,
    map Param.id (fst (release_parameters env i l t)) = map Param.id l
    /\ forall q, In q (fst (release_parameters env i l t)) ->
                 Param.assigned_member_id q <> Some i.
Proof.
  induction l as [| a l IH]; intros t; cbn [release_parameters].
  - split; [reflexivity | intros x []].
  - destruct (Orm.refers (Param.assigned_member_id a) i) eqn:E.
    + destruct (IH (S t)) as [Hm Hx].
      destruct (release_parameters env i l (S t)) as [r t']. cbn [fst map Param.id] in *.
      split; [now rewrite Hm |]. intros x [<- | Hin]; [discriminate | now apply Hx].
    + destruct (IH t) as [Hm Hx].
      destruct (release_parameters env i l t) as [r t']. cbn [fst map] in *.
      split; [now rewrite Hm |]. intros x [<- | Hin]; [| now apply Hx].
      intros Hc. rewrite Hc in E. cbn in E. now rewrite Z.eqb_refl in E.
Qed.

Lemma release_review_spec (i : Z) (s : Submission.t) :
  Submission.reviewed_by (release_review i s) <> Some i
  /\ Submission.submitted_by (release_review i s) = Submission.submitted_by s
  /\ Submission.id (release_review i s) = Submission.id s.
Proof.
  unfold release_review. destruct (Orm.refers (Submission.reviewed_by s) i) eqn:E.
  - repeat split. discriminate.
  - repeat split. intros Hc. rewrite Hc in E. cbn in E. now rewrite Z.eqb_refl in E.
Qed.

Lemma not_exists {A} (f : A -> bool) (l : list A) :
  existsb f l = false -> forall x, In x l -> f x = false.
Proof.
  intros H x Hin. destruct (f x) eqn:E; [| reflexivity].
  assert (existsb f l = true) by (apply existsb_exists; now exists x). congruence.
Qed.

(** The database a DELETE of user [i] leaves. *)
Lemma delete_user_row_spec env (i : Z) (db db' : Orm.Database) (t t' : nat) :
  delete_user_row env i db t = inr (db', t') ->
  referenced i db = false
  /\ Stated.gone i db'
  /\ Orm.users db' = filter (fun u => negb (Z.eqb (User.id u) i)) (Orm.users db)
  /\ Orm.accreditations db' = Orm.accreditations db
  /\ Orm.programs db' = Orm.programs db
  /\ map Area.id (Orm.areas db') = map Area.id (Orm.areas db)
  /\ map Param.id (Orm.parameters db') = map Param.id (Orm.parameters db)
  /\ Orm.accreditation_members db' = Orm.accreditation_members db
  /\ map Submission.id (Orm.submissions db') = map Submission.id (Orm.submissions db)
  /\ Orm.notifications db' = Orm.notifications db
  /\ Orm.progress_tracking db' = Orm.progress_tracking db.
Proof.
  unfold delete_user_row.
  destruct (existsb _ (Orm.users db)); cbn [negb]; [| discriminate].
  destruct (referenced i db) eqn:R; [discriminate |].
  pose proof (release_areas_spec env i (Orm.areas db) t) as [Am Ax].
  destruct (release_areas env i (Orm.areas db) t) as [areas' t1].
  pose proof (release_parameters_spec env i (Orm.parameters db) t1) as [Pm Px].
  destruct (release_parameters env i (Orm.parameters db) t1) as [parameters' t2].
  cbn [fst] in *. intros [= <- <-].
  unfold referenced in R. repeat (apply orb_false_iff in R; destruct R as [R ?]).
  split; [reflexivity |]. split.
  - unfold Stated.gone. cbn. repeat split.
    + intros u Hu. apply filter_In in Hu as [_ Hu]. apply negb_true_iff in Hu.
      now apply Z.eqb_neq.
    + intros a Ha. apply Z.eqb_neq. exact (not_exists _ _ R a Ha).
    + pose proof (not_exists _ _ H1 m H2) as E. apply orb_false_iff in E. now apply Z.eqb_neq.
    + pose proof (not_exists _ _ H1 m H2) as E. apply orb_false_iff in E. now apply Z.eqb_neq.
    + exact Ax.
    + exact Px.
    + apply in_map_iff in H2 as (s0 & <- & Hs0).
      rewrite (proj1 (proj2 (release_review_spec i s0))).
      apply Z.eqb_neq. exact (not_exists _ _ H0 s0 Hs0).
    + apply in_map_iff in H2 as (s0 & <- & Hs0). apply release_review_spec.
    + intros n Hn. apply Z.eqb_neq. exact (not_exists _ _ H n Hn).
  - cbn. repeat split; try assumption.
    rewrite map_map. apply map_ext. intro s0. apply release_review_spec.
Qed.

Lemma delete_user_body_holds env i db :
  ends (delete_user_body env i) (fresh db)
       (fun r w =>
          match r with
          | inr resp =>
              (Routes.get_jwt_identity env <> i
               /\ Routes.commit_raises env = false
               /\ (exists u, find (fun x => Z.eqb (User.id x) i) (Orm.users db) = Some u)
               /\ pending w = []
               /\ (exists t, delete_user_row env i db 0 = inr (stored w, t))
               /\ resp = (Py.JDict [("message", Py.JStr "User deleted successfully")], 200))
              \/ ((resp = Routes.error "Cannot delete your own account" 400
                   /\ Routes.get_jwt_identity env = i
                   \/ resp = Routes.error "User not found" 404
                      /\ find (fun x => Z.eqb (User.id x) i) (Orm.users db) = None)
                  /\ w = fresh db)
          | inl _ =>
              stored w = db
              /\ (find (fun x => Z.eqb (User.id x) i) (Orm.users db) <> None
                  -> referenced i db = true \/ Routes.commit_raises env = true)
          end).
Proof.
  unfold delete_user_body.
  destruct (Z.eqb_spec (Routes.get_jwt_identity env) i) as [Hs | Hs];
    [apply after_ret; right; split; [left; now split | reflexivity] |].
  apply after_bind. unfold ends at 1. rewrite query_get_run. cbn [fst snd fresh stored].
  destruct (find _ (Orm.users db)) as [u |] eqn:Hu;
    [| apply after_ret; right; split; [right; now split | reflexivity]].
  rewrite (find_id _ _ _ Hu).
  apply after_bind, after_write. apply after_bind. unfold ends at 1.
  rewrite (commit_delete env i) by reflexivity. cbn [stored ticks logged fresh].
  pose proof (found_exists _ _ _ Hu) as He.
  destruct (delete_user_row env i db 0) as [e | [db' t]] eqn:D.
  - cbn [fst snd stored]. split; [reflexivity |]. intros _. left.
    unfold delete_user_row in D. rewrite He in D. cbn [negb] in D.
    destruct (referenced i db); [reflexivity |].
    destruct (release_areas _ _ _ _), (release_parameters _ _ _ _). discriminate D.
  - pose proof (delete_user_row_spec _ _ _ _ _ _ D) as [R _].
    destruct (Routes.commit_raises env) eqn:C; cbn [fst snd stored].
    + split; [reflexivity |]. intros _. now right.
    + apply after_ret. left. repeat split; try assumption.
      * now exists u.
      * now exists t.
Qed.

(** The two postconditions above, in the form the [except] branch needs: a
    body that raises has stored nothing. *)
Lemma delete_user_body_rolls_back env i db :
  ends (delete_user_body env i) (fresh db)
       (fun r w =>
          match r with
          | inr resp =>
              (Routes.get_jwt_identity env <> i
               /\ Routes.commit_raises env = false
               /\ (exists u, find (fun x => Z.eqb (User.id x) i) (Orm.users db) = Some u)
               /\ pending w = []
               /\ (exists t, delete_user_row env i db 0 = inr (stored w, t))
               /\ resp = (Py.JDict [("message", Py.JStr "User deleted successfully")], 200))
              \/ ((resp = Routes.error "Cannot delete your own account" 400
                   /\ Routes.get_jwt_identity env = i
                   \/ resp = Routes.error "User not found" 404
                      /\ find (fun x => Z.eqb (User.id x) i) (Orm.users db) = None)
                  /\ w = fresh db)
          | inl _ => stored w = db
          end).
Proof.
  eapply after_weaken; [apply delete_user_body_holds |].
  intros [e | resp] w; cbn beta iota; [now intros [H _] | auto].
Qed.

Lemma reset_user_password_body_rolls_back env i db :
  ends (reset_user_password_body env i) (fresh db)
       (fun r w =>
          match r with
          | inr resp =>
              (Routes.commit_raises env = false
               /\ (exists u, find (fun x => Z.eqb (User.id x) i) (Orm.users db) = Some u)
               /\ w = mkWorld
                        (Orm.with_users
                           (Stated.rehashed i
                              (Routes.generate_password_hash env
                                 (Routes.generated_password env))
                              (Routes.utcnow env 0) (Orm.users db)) db) [] 1 []
               /\ resp = (Py.JDict [("message", Py.JStr "Password reset successfully");
                                    ("new_password",
                                     Py.JStr (Routes.generated_password env))], 200))
              \/ (resp = Routes.error "User not found" 404 /\ w = fresh db
                  /\ find (fun x => Z.eqb (User.id x) i) (Orm.users db) = None)
          | inl _ => stored w = db
          end).
Proof.
  eapply after_weaken; [apply reset_user_password_body_holds |].
  intros [e | resp] w; cbn beta iota; [now intros [H _] | auto].
Qed.

(** ** The decorator lets an administrator through *)

Lemma admin_passes env (f : M Routes.Response) (db : Orm.Database) :
  Stated.caller_is_admin env db = true ->
  serve (admin_required env f) (fresh db) = serve f (fresh db).
Proof.
  unfold Stated.caller_is_admin, serve, admin_required, bind. rewrite query_get_run.
  cbn [fresh stored].
  destruct (find _ (Orm.users db)) as [c |]; [| discriminate].
  now intros ->.
Qed.

Lemma admin_blocks env (f : M Routes.Response) (db : Orm.Database) :
  Stated.caller_is_admin env db = false ->
  serve (admin_required env f) (fresh db)
  = (Routes.error "Admin privileges required" 403, fresh db).
Proof.
  unfold Stated.caller_is_admin, serve, admin_required, bind. rewrite query_get_run.
  cbn [fresh stored].
  destruct (find _ (Orm.users db)) as [c |]; [| reflexivity].
  now intros ->.
Qed.

(** ** A login after the password was replaced *)

Lemma find_email_map (g : User.t -> User.t) (s : string) (l : list User.t) :
  (forall u, User.email (g u) = User.email u) ->
  find (fun x => String.eqb (User.email x) s) (map g l)
  = option_map g (find (fun x => String.eqb (User.email x) s) l).
Proof.
  intros Hg. induction l as [| x l IH]; cbn; [reflexivity |].
  rewrite Hg. now destruct (String.eqb (User.email x) s).
Qed.

Lemma login_after_rehash env (i : Z) (h : string) (d : Py.datetime) (db : Orm.Database)
  (u : User.t) (p tok : string) :
  find (fun x => String.eqb (User.email x) (User.email u)) (Orm.users db) = Some u ->
  User.id u = i ->
  User.is_active u = Some true ->
  User.email u <> EmptyString ->
  p <> EmptyString ->
  Routes.check_password_hash env h p = Some true ->
  Routes.commit_raises env = false ->
  Routes.create_access_token env i = Some tok ->
  snd (fst (Routes.login env (Stated.credentials (User.email u) p)
                         (Orm.with_users (Stated.rehashed i h d (Orm.users db)) db)))
  = 200.
Proof.
  intros Hf Hi Ha He Hp Hk C T.
  apply (LoginFacts.login_accepts env _ _
           (set_updated_at d (set_password_hash h u)) tok);
    [| exact C | cbn [User.id set_updated_at set_password_hash]; now rewrite Hi].
  exists [("email", Py.JStr (User.email u)); ("password", Py.JStr p)],
         (Py.JStr (User.email u)), p, (User.email u).
  repeat split; try assumption.
  - now apply truthy_string.
  - cbn [Orm.users Orm.with_users]. unfold Stated.rehashed.
    rewrite find_email_map by (intro x; now destruct (Z.eqb (User.id x) i)).
    rewrite Hf. cbn [option_map]. now rewrite Hi, Z.eqb_refl.
Qed.

End AccountsFacts.

(* ===================================================================== *)
(** * What the other handlers guarantee *)
(* ===================================================================== *)

Module HandlerFacts.

Import Accounts AccountsFacts.

(** X16: Every handler that writes either answers 200 or leaves the stored rows
    as they were, and none of them leaves a write pending in the session:
    [change_password], [update_user], [delete_user] and
    [reset_user_password] roll back in their [except] branch. *)
Theorem writes_all_or_nothing :
  forall (env : Routes.Env) (data : Py.json) (i : Z) (db : Orm.Database),
    Forall (fun out : Routes.Response * World =>
              pending (snd out) = []
              /\ (snd (fst out) = 200 \/ stored (snd out) = db))
           [change_password env data db; update_user env i data db;
            delete_user env i db; reset_user_password env i db].
Proof.
  intros env data i db.
  apply Forall_cons; [| apply Forall_cons; [| apply Forall_cons;
    [| apply Forall_cons; [| apply Forall_nil]]]].
  - pose proof (served_with_rollback _ "Change password error" db _
                  (change_password_body_holds env data db)) as H.
    unfold change_password. destruct (serve _ _) as [resp w]. cbn [fst snd].
    destruct H as [[(_ & (u & new & _ & ->) & ->) | [_ ->]] | (-> & Hs & Hp)];
      cbn; auto.
  - pose proof (admin_served_with_rollback env _ "Update user error" db _
                  (update_user_body_holds env i data db)) as H.
    unfold update_user. destruct (serve _ _) as [resp w]. cbn [fst snd].
    destruct H as [[_ [(Hp & _ & _ & u & u' & _ & _ & ->) | [-> ->]]]
                  | [[-> ->] | (-> & Hs & Hp)]]; cbn; auto.
  - pose proof (admin_served_with_rollback env _ "Delete user error" db _
                  (delete_user_body_rolls_back env i db)) as H.
    unfold delete_user. destruct (serve _ _) as [resp w]. cbn [fst snd].
    destruct H as [[_ [(_ & _ & _ & Hp & _ & ->) | [_ ->]]]
                  | [[-> ->] | (-> & Hs & Hp)]]; cbn; auto.
  - pose proof (admin_served_with_rollback env _ "Reset password error" db _
                  (reset_user_password_body_rolls_back env i db)) as H.
    unfold reset_user_password. destruct (serve _ _) as [resp w]. cbn [fst snd].
    destruct H as [[_ [(_ & _ & -> & ->) | (_ & -> & _)]]
                  | [[-> ->] | (-> & Hs & Hp)]]; cbn; auto.
Qed.

(** X17: Whatever the body asks for, [update_user] changes no table but [users],
    no row but the rows with the given id, and in no row the id, the email,
    [created_at], [last_login], the reset token or [email_verified]; when it
    answers 200 the answer is the projection of the row as it is stored. *)
Theorem update_user_keeps :
  forall (env : Routes.Env) (i : Z) (data : Py.json) (db : Orm.Database),
    let out := update_user env i data db in
    Stated.assigned_only i db (stored (snd out))
    /\ (snd (fst out) = 200 ->
        exists u',
          find (fun x => Z.eqb (User.id x) i) (Orm.users (stored (snd out))) = Some u'
          /\ fst (fst out)
             = Py.JDict [("message", Py.JStr "User updated successfully");
                         ("user", Py.JDict (User.to_dict u'))]).
Proof.
  intros env i data db.
  pose proof (admin_served_with_rollback env _ "Update user error" db _
                (update_user_body_holds env i data db)) as H.
  unfold update_user. destruct (serve _ _) as [resp w]. cbn [fst snd].
  destruct H as [[_ [(Hp & K & _ & u & u' & _ & Hu' & ->) | [-> ->]]]
                | [[-> ->] | (-> & -> & Hp)]]; cbn [fst snd stored fresh].
  - split; [exact K |]. intros _. now exists u'.
  - split; [apply kept_refl | discriminate].
  - split; [apply kept_refl | discriminate].
  - split; [apply kept_refl | discriminate].
Qed.

(** X18: [delete_user] answers 200 exactly when the caller is an administrator
    other than the user to delete, that user exists, no row refers to it
    through a column that cannot be [NULL], and the store commits. *)
Theorem delete_user_200_iff :
  forall (env : Routes.Env) (i : Z) (db : Orm.Database),
    snd (fst (delete_user env i db)) = 200
    <-> Stated.caller_is_admin env db = true
        /\ Routes.get_jwt_identity env <> i
        /\ (exists u, In u (Orm.users db) /\ User.id u = i)
        /\ referenced i db = false
        /\ Routes.commit_raises env = false.
Proof.
  intros env i db.
  pose proof (delete_user_body_holds env i db) as B.
  unfold delete_user.
  destruct (Stated.caller_is_admin env db) eqn:A;
    [rewrite (admin_passes _ _ _ A) | rewrite (admin_blocks _ _ _ A)];
    [| split; [discriminate | now intros [? _]]].
  unfold serve, try_except, on_error_rollback, ends in *.
  destruct (delete_user_body env i (fresh db)) as [[e | resp] w]; cbn [fst snd] in *.
  - cbn. split; [discriminate |]. intros (_ & Hs & (u & Hin & Hu) & R & C).
    destruct B as [_ B].
    destruct B as [B | B]; [| congruence | congruence].
    destruct (find (fun x => Z.eqb (User.id x) i) (Orm.users db)) eqn:F; [discriminate |].
    apply (find_none _ _ F) in Hin. apply Z.eqb_neq in Hin. contradiction.
  - destruct B as [(Hs & C & (u & Hu) & _ & (t & D) & ->)
                  | [[[-> Hs] | [-> F]] _]]; cbn [fst snd].
    + split; [| reflexivity]. intros _.
      destruct (delete_user_row_spec _ _ _ _ _ _ D) as [R _].
      repeat split; try assumption.
      exists u. apply find_some in Hu. split; [apply Hu | now apply Z.eqb_eq].
    + split; [discriminate |]. intros (_ & Hn & _). contradiction.
    + split; [discriminate |]. intros (_ & _ & (u & Hin & Hu) & _).
      apply (find_none _ _ F) in Hin. apply Z.eqb_neq in Hin. contradiction.
Qed.

(** X19: After [delete_user] answered 200 no row of the database is the deleted
    user or refers to it: its row is gone from [users], the areas it chaired,
    the parameters assigned to it and the submissions it reviewed have lost
    the reference, and every other row is still there. *)
Theorem delete_user_leaves_no_reference :
  forall (env : Routes.Env) (i : Z) (db : Orm.Database),
    snd (fst (delete_user env i db)) = 200 ->
    let db' := stored (snd (delete_user env i db)) in
    Stated.gone i db'
    /\ Orm.users db' = filter (fun u => negb (Z.eqb (User.id u) i)) (Orm.users db)
    /\ Stated.rows_kept db db'.
Proof.
  intros env i db.
  pose proof (admin_served_with_rollback env _ "Delete user error" db _
                (delete_user_body_rolls_back env i db)) as H.
  unfold delete_user. destruct (serve _ _) as [resp w]. cbn [fst snd].
  destruct H as [[_ [(_ & _ & _ & _ & (t & D) & ->) | [[[-> _] | [-> _]] _]]]
                | [[-> _] | (-> & _)]]; try discriminate.
  intros _. destruct (delete_user_row_spec _ _ _ _ _ _ D) as (_ & G & U & K).
  split; [exact G |]. split; [exact U | exact K].
Qed.

Lemma delete_user_leaves_no_reference_witness :
  snd (fst (delete_user Samples.env 2 Fixtures.staff)) = 200
  /\ Stated.gone 2 (stored (snd (delete_user Samples.env 2 Fixtures.staff)))
  /\ Orm.users (stored (snd (delete_user Samples.env 2 Fixtures.staff))) = [Fixtures.root].
Proof.
  split; [reflexivity |].
  destruct (delete_user_leaves_no_reference Samples.env 2 Fixtures.staff eq_refl)
    as (G & U & _).
  split; [exact G | exact U].
Defined.

(** X20: A user to whom an accreditation, a membership, a submission or a
    notification refers through a column declared [nullable=False] is not
    deleted: the flush raises, the handler rolls back, logs the error and
    answers 500. *)
Theorem delete_user_refuses_referenced :
  forall (env : Routes.Env) (i : Z) (db : Orm.Database) (u : User.t),
    Stated.caller_is_admin env db = true ->
    Routes.get_jwt_identity env <> i ->
    find (fun x => Z.eqb (User.id x) i) (Orm.users db) = Some u ->
    referenced i db = true ->
    delete_user env i db
    = (Routes.error "Internal server error" 500,
       mkWorld db [] 0 [("Delete user error", Py.IntegrityError)]).
Proof.
  intros env i db u A Hs Hu R.
  unfold delete_user. rewrite (admin_passes _ _ _ A).
  unfold serve, try_except, delete_user_body.
  destruct (Z.eqb_spec (Routes.get_jwt_identity env) i) as [E | _]; [contradiction |].
  unfold bind at 1. rewrite query_get_run. cbn [fresh stored]. rewrite Hu.
  rewrite (find_id _ _ _ Hu).
  unfold bind at 1. cbn [session_write stored pending ticks logged app].
  unfold bind at 1. rewrite (commit_delete env i) by reflexivity.
  cbn [fresh stored ticks logged pending app]. unfold delete_user_row.
  rewrite (found_exists _ _ _ Hu), R. reflexivity.
Qed.

Lemma delete_user_refuses_referenced_witness :
  referenced 2 Fixtures.staff_notified = true
  /\ delete_user Samples.env 2 Fixtures.staff_notified
     = (Routes.error "Internal server error" 500,
        mkWorld Fixtures.staff_notified [] 0 [("Delete user error", Py.IntegrityError)]).
Proof.
  split; [reflexivity |].
  apply (delete_user_refuses_referenced Samples.env 2 Fixtures.staff_notified Fixtures.dave);
    try reflexivity.
  discriminate.
Defined.


(** X22: [reset_user_password] answers 200 exactly when the caller is an
    administrator, the user exists and the store commits; the answer then
    carries the generated password in clear and the rows of that user store
    its hash. *)
Theorem reset_user_password_discloses :
  forall (env : Routes.Env) (i : Z) (db : Orm.Database),
    let out := reset_user_password env i db in
    (snd (fst out) = 200
     <-> Stated.caller_is_admin env db = true
         /\ (exists u, In u (Orm.users db) /\ User.id u = i)
         /\ Routes.commit_raises env = false)
    /\ (snd (fst out) = 200 ->
        fst (fst out)
        = Py.JDict [("message", Py.JStr "Password reset successfully");
                    ("new_password", Py.JStr (Routes.generated_password env))]
        /\ stored (snd out)
           = Orm.with_users
               (Stated.rehashed i
                  (Routes.generate_password_hash env (Routes.generated_password env))
                  (Routes.utcnow env 0) (Orm.users db)) db).
Proof.
  intros env i db.
  pose proof (reset_user_password_body_holds env i db) as B.
  unfold reset_user_password.
  destruct (Stated.caller_is_admin env db) eqn:A;
    [rewrite (admin_passes _ _ _ A) | rewrite (admin_blocks _ _ _ A)]; cbn zeta;
    [| split; [split; [discriminate | now intros [? _]] | discriminate]].
  unfold serve, try_except, on_error_rollback, ends in *.
  destruct (reset_user_password_body env i (fresh db)) as [[e | resp] w];
    cbn [fst snd] in *.
  - destruct B as [_ C]. cbn. split; [| discriminate].
    split; [discriminate |]. intros (_ & _ & C'). congruence.
  - destruct B as [(C & (u & Hu) & -> & ->) | (-> & -> & F)]; cbn [fst snd stored].
    + split; [| now split]. split; [| reflexivity]. intros _.
      repeat split; try assumption.
      exists u. apply find_some in Hu. split; [apply Hu | now apply Z.eqb_eq].
    + split; [| discriminate]. split; [discriminate |].
      intros (_ & (u & Hin & Hu) & _).
      apply (find_none _ _ F) in Hin. apply Z.eqb_neq in Hin. contradiction.
Qed.

(** X23: The password [reset_user_password] discloses lets the user log in: after
    a reset that answered 200, an active user whose email selects its row is
    accepted by [login] with the generated password, as long as bcrypt
    accepts the hash it produced. *)
Theorem reset_then_login :
  forall (env env' : Routes.Env) (i : Z) (db : Orm.Database) (u : User.t) (tok : string),
    snd (fst (reset_user_password env i db)) = 200 ->
    find (fun x => String.eqb (User.email x) (User.email u)) (Orm.users db) = Some u ->
    User.id u = i ->
    User.is_active u = Some true ->
    User.email u <> EmptyString ->
    Routes.generated_password env <> EmptyString ->
    Routes.check_password_hash env'
      (Routes.generate_password_hash env (Routes.generated_password env))
      (Routes.generated_password env) = Some true ->
    Routes.commit_raises env' = false ->
    Routes.create_access_token env' i = Some tok ->
    snd (fst (Routes.login env'
                (Stated.credentials (User.email u) (Routes.generated_password env))
                (stored (snd (reset_user_password env i db))))) = 200.
Proof.
  intros env env' i db u tok H200 Hf Hi Ha He Hp Hk C T.
  pose proof (admin_served_with_rollback env _ "Reset password error" db _
                (reset_user_password_body_rolls_back env i db)) as H.
  unfold reset_user_password in *. destruct (serve _ _) as [resp w]. cbn [fst snd] in *.
  destruct H as [[_ [(_ & _ & -> & _) | (-> & _)]] | [[-> _] | (-> & _)]];
    try discriminate.
  cbn [stored]. now apply (login_after_rehash env' i _ _ db u _ tok).
Qed.

Lemma reset_then_login_witness :
  snd (fst (reset_user_password Samples.env 2 Fixtures.staff)) = 200
  /\ snd (fst (Routes.login Samples.env (Stated.credentials "dave@ecap.com" "generated")
                 (stored (snd (reset_user_password Samples.env 2 Fixtures.staff)))))
     = 200.
Proof.
  split; [reflexivity |].
  apply (reset_then_login Samples.env Samples.env 2 Fixtures.staff Fixtures.dave "token");
    try reflexivity; discriminate.
Defined.

(** X24: The new password of [change_password] lets the user log in: after a
    change that answered 200, an active user whose email selects its row is
    accepted by [login] with the new password, as long as bcrypt accepts the
    hash it produced. *)
Theorem change_password_then_login :
  forall (env env' : Routes.Env) (data : Py.json) (db : Orm.Database) (u : User.t)
         (new tok : string),
    Stated.password_change_holds env data db u new ->
    Routes.commit_raises env = false ->
    find (fun x => String.eqb (User.email x) (User.email u)) (Orm.users db) = Some u ->
    User.is_active u = Some true ->
    User.email u <> EmptyString ->
    Routes.check_password_hash env' (Routes.generate_password_hash env new) new
    = Some true ->
    Routes.commit_raises env' = false ->
    Routes.create_access_token env' (User.id u) = Some tok ->
    snd (fst (Routes.login env' (Stated.credentials (User.email u) new)
                (stored (snd (change_password env data db))))) = 200.
Proof.
  intros env env' data db u new tok Hh C Hf Ha He Hk C' T.
  pose proof (change_password_accepts _ _ _ _ _ Hh C) as H200.
  pose proof (served_with_rollback _ "Change password error" db _
                (change_password_body_holds env data db)) as H.
  unfold change_password in *. destruct (serve _ _) as [resp w]. cbn [fst snd] in *.
  destruct H as [[(_ & (u1 & new1 & Hh1 & ->) & ->) | [[H | [H | H]] _]] | (-> & _)];
    try (rewrite H in H200; discriminate); try discriminate.
  destruct Hh as (d & cur & -> & Lc & Hc & Ln & Hn & Hu & Hck).
  destruct Hh1 as (d1 & cur1 & [= <-] & Lc1 & _ & Ln1 & _ & Hu1 & _).
  assert (new1 = new) by congruence. subst new1.
  assert (Hi : User.id u = Routes.get_jwt_identity env) by exact (find_id _ _ _ Hu).
  cbn [stored]. rewrite Hi in T.
  now apply (login_after_rehash env' _ _ _ db u _ tok).
Qed.

Lemma change_password_then_login_witness :
  Stated.password_change_holds Samples.env Fixtures.new_secret Fixtures.staff
                               Fixtures.root "n3wsecret"
  /\ snd (fst (Routes.login Samples.env (Stated.credentials "root@ecap.com" "n3wsecret")
                 (stored (snd (change_password Samples.env Fixtures.new_secret
                                               Fixtures.staff))))) = 200.
Proof.
  assert (H : Stated.password_change_holds Samples.env Fixtures.new_secret Fixtures.staff
                Fixtures.root "n3wsecret").
  { exists [("current_password", Py.JStr "t0psecret");
            ("new_password", Py.JStr "n3wsecret")], "t0psecret".
    repeat split; discriminate. }
  split; [exact H |].
  apply (change_password_then_login Samples.env Samples.env Fixtures.new_secret
           Fixtures.staff Fixtures.root "n3wsecret" "token" H);
    try reflexivity; discriminate.
Defined.


End HandlerFacts.

(* ===================================================================== *)
(** * The columns [update_user] writes *)
(* ===================================================================== *)

Module ColumnFacts.

Import Accounts AccountsFacts.

Lemma on_user_column {C} (col : User.t -> C) (j : Z) (f : User.t -> User.t) db db' :
  (forall u, col (f u) = col u) ->
  on_user j f db = inr db' ->
  map col (Orm.users db') = map col (Orm.users db).
Proof.
  intros Hf. unfold on_user.
  destruct (existsb _ (Orm.users db)); [| discriminate]. intros [= <-].
  cbn [Orm.users Orm.with_users]. rewrite map_map. apply map_ext. intro u.
  destruct (Z.eqb (User.id u) j); [apply Hf | reflexivity].
Qed.

Lemma absent_key (d : Py.dict) (k : string) :
  Py.lookup d k = None -> contains (Py.JDict d) k = inr false.
Proof.
  intros H. cbn [contains]. f_equal.
  induction d as [| [k' v] d IH]; cbn in *; [reflexivity |].
  rewrite String.eqb_sym. destruct (String.eqb k' k); [discriminate |]. now apply IH.
Qed.

Section Column.

Variable env : Routes.Env.
Variable C : Type.
Variable col : User.t -> C.

(** The writes that leave the column [col] of every row as it is. *)
Variable ok : Op -> Prop.

Hypothesis ok_keeps :
  forall op db t db' t',
    ok op -> flush_op env op db t = inr (db', t') ->
    map col (Orm.users db') = map col (Orm.users db).

Lemma flush_column ops :
  forall db t db' t',
    Forall ok ops -> flush env ops db t = inr (db', t') ->
    map col (Orm.users db') = map col (Orm.users db).
Proof.
  induction ops as [| op ops IH]; intros db t db' t' Hall; cbn [flush].
  - now intros [= <- <-].
  - inversion Hall as [| ? ? Hop Hops]; subst.
    destruct (flush_op env op db t) as [e | [db1 t1]] eqn:E; [discriminate |].
    intros H. rewrite (IH _ _ _ _ Hops H). exact (ok_keeps _ _ _ _ _ Hop E).
Qed.

Lemma commit_column db w (Q : Py.Exn + unit -> World -> Prop) :
  Stated.holding col ok db w ->
  (forall r w1, map col (Orm.users (stored w1)) = map col (Orm.users db) ->
                pending w1 = [] \/ w1 = w -> Q r w1) ->
  ends (commit env) w Q.
Proof.
  intros [Hs Hall] HQ. unfold ends, commit.
  destruct (flush env (pending w) (stored w) (ticks w)) as [e | [db' t']] eqn:E;
    [apply HQ; [exact Hs | now right] |].
  destruct (Routes.commit_raises env); [apply HQ; [exact Hs | now right] |].
  apply HQ; [| now left]. cbn [fst snd stored].
  now rewrite (flush_column _ _ _ _ _ Hall E).
Qed.

Lemma write_column db w op (Q : Py.Exn + unit -> World -> Prop) :
  Stated.holding col ok db w -> ok op ->
  (forall w1, Stated.holding col ok db w1 -> Q (inr tt) w1) ->
  ends (session_write op) w Q.
Proof.
  intros [Hs Hall] Hop HQ. apply after_write, HQ. split; [exact Hs |].
  cbn. apply Forall_app. split; [exact Hall | now constructor].
Qed.

Lemma assign_column db w (d : Py.dict) k column (Q : Py.Exn + unit -> World -> Prop) :
  Stated.holding col ok db w ->
  (forall v, ok (column v)) \/ Py.lookup d k = None ->
  (forall r w1, Stated.holding col ok db w1 -> Q r w1) ->
  ends (assign (Py.JDict d) k column) w Q.
Proof.
  intros Hw Hc HQ. unfold assign.
  apply after_bind. unfold ends at 1.
  destruct Hc as [Hc | Hc].
  - destruct (contains (Py.JDict d) k) as [e | [|]]; cbn [lift raise ret fst snd];
      try (apply HQ; exact Hw).
    apply after_bind. unfold ends at 1.
    rewrite of_routes_run by apply RouteFacts.reads_subscript. cbn [fst snd].
    destruct (fst _) as [e | v]; [apply HQ; exact Hw |].
    apply (write_column db); [exact Hw | apply Hc | intros w1; apply HQ].
  - rewrite (absent_key _ _ Hc). cbn [lift ret fst snd]. apply HQ, Hw.
Qed.

Lemma assign_password_column db w (d : Py.dict) (i : Z)
  (Q : Py.Exn + unit -> World -> Prop) :
  Stated.holding col ok db w ->
  (forall h, ok (SetPasswordHash i h)) \/ Py.truthy (Py.get d "password") = false ->
  (forall r w1, Stated.holding col ok db w1 -> Q r w1) ->
  ends (assign_password env (Py.JDict d) i) w Q.
Proof.
  intros Hw Hc HQ. unfold assign_password.
  apply after_bind. unfold ends at 1.
  destruct (contains (Py.JDict d) "password") as [e | [|]];
    cbn [lift raise ret fst snd]; try (apply HQ; exact Hw).
  apply after_bind. unfold ends at 1.
  rewrite of_routes_run by apply RouteFacts.reads_subscript.
  cbn [Routes.subscript]. unfold Py.get in Hc.
  destruct (Py.lookup d "password") as [v |]; cbn [Routes.ret Routes.raise fst snd];
    [| apply HQ; exact Hw].
  destruct (Py.truthy v) eqn:Tv; [| apply after_ret, HQ, Hw].
  destruct Hc as [Hc | Hc]; [| discriminate Hc].
  apply after_bind. unfold ends at 1.
  rewrite of_routes_run by apply RouteFacts.reads_set_password. cbn [fst snd].
  destruct (fst _) as [e | h]; [apply HQ; exact Hw |].
  apply (write_column db); [exact Hw | apply Hc | intros w1; apply HQ].
Qed.

Lemma update_user_column (i : Z) (d : Py.dict) (db : Orm.Database) :
  (forall v, ok (SetName i v)) \/ Py.lookup d "name" = None ->
  (forall v, ok (SetPosition i v)) \/ Py.lookup d "position_in_school" = None ->
  (forall v, ok (SetIsAdmin i v)) \/ Py.lookup d "is_admin" = None ->
  (forall v, ok (SetIsActive i v)) \/ Py.lookup d "is_active" = None ->
  (forall h, ok (SetPasswordHash i h)) \/ Py.truthy (Py.get d "password") = false ->
  (forall t, ok (SetUpdatedAt i t)) ->
  map col (Orm.users (stored (snd (update_user env i (Py.JDict d) db))))
  = map col (Orm.users db).
Proof.
  intros H1 H2 H3 H4 H5 H6.
  assert (B : ends (update_user_body env i (Py.JDict d)) (fresh db)
                (fun _ w => map col (Orm.users (stored w)) = map col (Orm.users db))).
  { unfold update_user_body.
    apply after_bind. unfold ends at 1. rewrite query_get_run. cbn [fst snd fresh stored].
    destruct (find _ (Orm.users db)) as [u |] eqn:Hu; [| reflexivity].
    rewrite (find_id _ _ _ Hu).
    assert (H0 : Stated.holding col ok db (fresh db)) by (split; [reflexivity | constructor]).
    apply after_bind.
    apply (assign_column db); [exact H0 | exact H1 |].
    intros [e | []] w1 W1; [exact (proj1 W1) |].
    apply after_bind.
    apply (assign_column db); [exact W1 | exact H2 |].
    intros [e | []] w2 W2; [exact (proj1 W2) |].
    apply after_bind.
    apply (assign_column db); [exact W2 | exact H3 |].
    intros [e | []] w3 W3; [exact (proj1 W3) |].
    apply after_bind.
    apply (assign_column db); [exact W3 | exact H4 |].
    intros [e | []] w4 W4; [exact (proj1 W4) |].
    apply after_bind.
    apply (assign_password_column db); [exact W4 | exact H5 |].
    intros [e | []] w5 W5; [exact (proj1 W5) |].
    apply after_bind, after_clock.
    apply after_bind.
    apply (write_column db); [exact W5 | apply H6 |].
    intros w6 W6.
    apply after_bind.
    apply (commit_column db); [exact W6 |].
    intros [e | []] w7 S7 _; [exact S7 |].
    apply after_bind. unfold ends at 1.
    rewrite of_routes_run by apply RouteFacts.reads_refresh. cbn [fst snd].
    destruct (fst _) as [e | u']; exact S7. }
  unfold update_user.
  destruct (Stated.caller_is_admin env db) eqn:A;
    [rewrite (admin_passes _ _ _ A) | now rewrite (admin_blocks _ _ _ A)].
  unfold serve, try_except, on_error_rollback, ends in *.
  destruct (update_user_body env i (Py.JDict d) (fresh db)) as [[e | resp] w]; exact B.
Qed.

End Column.

Ltac column_kept :=
  let op := fresh "op" in
  intros op ? ? ? ? ?;
  destruct op; cbn [flush_op];
  try contradiction;
  repeat match goal with
         | |- context [bind_required ?e ?v] => destruct (bind_required e v); [discriminate |]
         | |- context [Routes.bind_boolean ?e ?v] =>
             destruct (Routes.bind_boolean e v); [discriminate |]
         end;
  unfold keep_clock;
  match goal with
  | |- context [on_user ?k ?f ?d] =>
      let E := fresh "E" in
      destruct (on_user k f d) eqn:E; [discriminate |];
      intros [= <- <-]; refine (on_user_column _ _ _ _ _ _ E); reflexivity
  end.

(** X26: [update_user] writes the columns the body names and [updated_at], and
    no other: a body without the key [name], [position_in_school],
    [is_admin] or [is_active] leaves that column as it is in every row, and
    a body without a non-empty [password] leaves every password hash as it
    is. *)
Theorem update_user_writes_named_columns :
  forall (env : Routes.Env) (i : Z) (d : Py.dict) (db : Orm.Database),
    let users' := Orm.users (stored (snd (update_user env i (Py.JDict d) db))) in
    (Py.lookup d "name" = None -> map User.name users' = map User.name (Orm.users db))
    /\ (Py.lookup d "position_in_school" = None ->
        map User.position_in_school users' = map User.position_in_school (Orm.users db))
    /\ (Py.lookup d "is_admin" = None ->
        map User.is_admin users' = map User.is_admin (Orm.users db))
    /\ (Py.lookup d "is_active" = None ->
        map User.is_active users' = map User.is_active (Orm.users db))
    /\ (Py.truthy (Py.get d "password") = false ->
        map User.password_hash users' = map User.password_hash (Orm.users db)).
Proof.
  intros env i d db. cbn zeta. repeat split; intros H.
  - apply (update_user_column env _ User.name
             (fun op => match op with SetName _ _ | Delete _ => False | _ => True end));
      [column_kept | | | | | |]; auto.
  - apply (update_user_column env _ User.position_in_school
             (fun op => match op with SetPosition _ _ | Delete _ => False | _ => True end));
      [column_kept | | | | | |]; auto.
  - apply (update_user_column env _ User.is_admin
             (fun op => match op with SetIsAdmin _ _ | Delete _ => False | _ => True end));
      [column_kept | | | | | |]; auto.
  - apply (update_user_column env _ User.is_active
             (fun op => match op with SetIsActive _ _ | Delete _ => False | _ => True end));
      [column_kept | | | | | |]; auto.
  - apply (update_user_column env _ User.password_hash
             (fun op => match op with
                        | SetPasswordHash _ _ | Delete _ => False
                        | _ => True
                        end));
      [column_kept | | | | | |]; auto.
Qed.

End ColumnFacts.

(* ===================================================================== *)
(** * The cascade, the other tables and the progress of nothing *)
(* ===================================================================== *)

Module IntegrityFacts.

Import Orm CascadeFacts.

Section Integrity.

Variable a : Accreditation.t.
Variable db : Database.

(** The notification and progress tables after [delete_accreditation]. *)
Lemma notifications_after :
  notifications (delete_accreditation a db)
  = map (fun n =>
           if existsb (fun x => Spec.doomed_area a db x
                                && refers (Notification.related_area_id n) (Area.id x))
                      (areas db)
           then Notification.set_related_area_id None n else n)
        (map (fun n =>
                if existsb (fun s => Spec.doomed_submission a db s
                                     && refers (Notification.related_submission_id n)
                                               (Submission.id s))
                           (submissions db)
                then Notification.set_related_submission_id None n else n)
             (notifications db)).
Proof. reflexivity. Qed.

Lemma progress_after :
  progress_tracking (delete_accreditation a db)
  = filter (fun t =>
              negb (existsb (fun p => Spec.doomed_program a p
                                      && Z.eqb (ProgressTracking.program_id t)
                                               (Program.id p))
                            (programs db)))
           (filter (fun t =>
                      negb (existsb (fun x => Spec.doomed_area a db x
                                              && refers (ProgressTracking.area_id t)
                                                        (Area.id x))
                                    (areas db)))
                   (progress_tracking db)).
Proof. reflexivity. Qed.

Lemma refers_spec (fk : option Z) (i : Z) : refers fk i = true <-> fk = Some i.
Proof.
  unfold refers. destruct fk as [j |]; [| split; discriminate].
  rewrite Z.eqb_eq. split; congruence.
Qed.

Lemma none_doomed {A} (f : A -> bool) (l : list A) (x : A) :
  existsb f l = false -> In x l -> f x = false.
Proof.
  intros H Hin. destruct (f x) eqn:E; [| reflexivity].
  assert (existsb f l = true) by (apply existsb_exists; now exists x). congruence.
Qed.

Lemma survives {A} (f : A -> bool) (l : list A) (x : A) :
  In x l -> f x = false -> In x (filter (fun y => negb (f y)) l).
Proof. intros Hin Hf. apply filter_In. now rewrite Hf. Qed.

Lemma survivor {A} (f : A -> bool) (l : list A) (x : A) :
  In x (filter (fun y => negb (f y)) l) -> In x l /\ f x = false.
Proof. intros H. apply filter_In in H as [H1 H2]. now apply negb_true_iff in H2. Qed.

Lemma exists_doomed {A} (f : A -> bool) (l : list A) :
  (forall x, In x l -> f x = false) -> existsb f l = false.
Proof.
  intros H. destruct (existsb f l) eqn:E; [| reflexivity].
  apply existsb_exists in E as (x & Hin & Hx). rewrite (H x Hin) in Hx. discriminate.
Qed.

Lemma Forall2_map {A} (R : A -> A -> Prop) (f : A -> A) (l : list A) :
  (forall x, R x (f x)) -> Forall2 R l (map f l).
Proof. intros H. induction l; cbn; constructor; auto. Qed.

End Integrity.

(** X27: The progress rows [delete_accreditation] leaves are exactly those that
    belong neither to a program nor to an area of the deleted accreditation:
    [Program.progress_tracking] and [Area.progress_tracking] cascade. *)
Theorem delete_accreditation_drops_progress :
  forall (a : Accreditation.t) (db : Database) (t : ProgressTracking.t),
    In t (progress_tracking (delete_accreditation a db))
    <-> In t (progress_tracking db)
        /\ (forall p, In p (programs db) -> Spec.program_of a p ->
                      ProgressTracking.program_id t <> Program.id p)
        /\ (forall x, In x (areas db) -> Spec.area_of db a x ->
                      ProgressTracking.area_id t <> Some (Area.id x)).
Proof.
  intros a db t. rewrite progress_after. split.
  - intros H. apply survivor in H as [H Hp]. apply survivor in H as [H Hx].
    split; [exact H |]. split.
    + intros p Hin Hof. pose proof (none_doomed _ _ p Hp Hin) as E. cbn beta in E.
      apply doomed_program_spec in Hof. rewrite Hof in E. cbn in E.
      now apply Z.eqb_neq.
    + intros x Hin Hof. pose proof (none_doomed _ _ x Hx Hin) as E. cbn beta in E.
      apply doomed_area_spec in Hof. rewrite Hof in E. cbn [andb] in E.
      intro Hc. apply refers_spec in Hc. congruence.
  - intros (H & Hp & Hx). apply survives; [apply survives; [exact H |] |].
    + apply exists_doomed. intros x Hin.
      destruct (Spec.doomed_area a db x) eqn:D; [| reflexivity]. cbn [andb].
      apply doomed_area_spec in D.
      destruct (refers (ProgressTracking.area_id t) (Area.id x)) eqn:E; [| reflexivity].
      apply refers_spec in E. now apply Hx in E.
    + apply exists_doomed. intros p Hin.
      destruct (Spec.doomed_program a p) eqn:D; [| reflexivity]. cbn [andb].
      apply doomed_program_spec in D. apply Z.eqb_neq. now apply Hp.
Qed.

(** X28: [delete_accreditation] deletes no notification: every row stays, in
    order, and the only change is that a reference to a submission or to an
    area becomes [NULL] when that row belonged to the deleted accreditation
    ([Submission.notifications] and [Area.notifications] do not cascade). *)
Theorem delete_accreditation_keeps_notifications :
  forall (a : Accreditation.t) (db : Database),
    Forall2 (Stated.cleared a db)
            (notifications db) (notifications (delete_accreditation a db)).
Proof.
  intros a db. rewrite notifications_after, map_map. apply Forall2_map. intro n.
  unfold Stated.cleared.
  destruct (existsb _ (submissions db)) eqn:S;
    destruct (existsb _ (areas db)) eqn:X; cbn.
  - apply existsb_exists in S as (s & Hs & Ds). apply andb_true_iff in Ds as [Ds Rs].
    apply existsb_exists in X as (x & Hx & Dx). apply andb_true_iff in Dx as [Dx Rx].
    split; [reflexivity |]. split; right; (split; [reflexivity |]).
    + exists s. rewrite <- doomed_submission_spec, <- refers_spec. now repeat split.
    + exists x. rewrite <- doomed_area_spec, <- refers_spec. now repeat split.
  - apply existsb_exists in S as (s & Hs & Ds). apply andb_true_iff in Ds as [Ds Rs].
    split; [reflexivity |]. split; [right; split; [reflexivity |] | now left].
    exists s. rewrite <- doomed_submission_spec, <- refers_spec. now repeat split.
  - apply existsb_exists in X as (x & Hx & Dx). apply andb_true_iff in Dx as [Dx Rx].
    split; [reflexivity |]. split; [now left | right; split; [reflexivity |]].
    exists x. rewrite <- doomed_area_spec, <- refers_spec. now repeat split.
  - split; [reflexivity |]. split; now left.
Qed.

(** X29: [delete_accreditation] leaves no orphan: whenever a row that survives
    refers to a row that was there before, that row survives too.  This holds
    for every foreign key of the tree, of the memberships, of the progress
    rows and of the notifications. *)
Theorem delete_accreditation_leaves_no_orphan :
  forall (a : Accreditation.t) (db : Database),
    let db' := delete_accreditation a db in
    (forall p x, In p (programs db') -> In x (accreditations db) ->
                 Program.accreditation_id p = Accreditation.id x ->
                 In x (accreditations db'))
    /\ (forall m x, In m (accreditation_members db') -> In x (accreditations db) ->
                    AccreditationMember.accreditation_id m = Accreditation.id x ->
                    In x (accreditations db'))
    /\ (forall x p, In x (areas db') -> In p (programs db) ->
                    Area.program_id x = Program.id p -> In p (programs db'))
    /\ (forall q x, In q (parameters db') -> In x (areas db) ->
                    Param.area_id q = Area.id x -> In x (areas db'))
    /\ (forall s q, In s (submissions db') -> In q (parameters db) ->
                    Submission.parameter_id s = Param.id q -> In q (parameters db'))
    /\ (forall t p, In t (progress_tracking db') -> In p (programs db) ->
                    ProgressTracking.program_id t = Program.id p -> In p (programs db'))
    /\ (forall t x, In t (progress_tracking db') -> In x (areas db) ->
                    ProgressTracking.area_id t = Some (Area.id x) -> In x (areas db'))
    /\ (forall n s, In n (notifications db') -> In s (submissions db) ->
                    Notification.related_submission_id n = Some (Submission.id s) ->
                    In s (submissions db'))
    /\ (forall n x, In n (notifications db') -> In x (areas db) ->
                    Notification.related_area_id n = Some (Area.id x) ->
                    In x (areas db')).
Proof.
  intros a db db'. subst db'.
  assert (Hacc : forall x i, In x (accreditations db) -> i = Accreditation.id x ->
                             i <> Accreditation.id a ->
                             In x (accreditations (delete_accreditation a db))).
  { intros x i Hin -> Hne. cbn [accreditations delete_accreditation].
    apply filter_In. split; [exact Hin |]. now apply negb_true_iff, Z.eqb_neq. }
  repeat split.
  - intros p x Hp Hx E. rewrite programs_after in Hp. apply survivor in Hp as [_ Hp].
    apply (Hacc x _ Hx E). now apply Z.eqb_neq.
  - intros m x Hm Hx E. rewrite members_after in Hm. apply survivor in Hm as [_ Hm].
    apply (Hacc x _ Hx E). now apply Z.eqb_neq.
  - intros x p Hx Hp E. rewrite areas_after in Hx. apply survivor in Hx as [_ Hx].
    rewrite programs_after. apply survives; [exact Hp |].
    pose proof (none_doomed _ _ p Hx Hp) as F. cbn beta in F.
    rewrite E, Z.eqb_refl, andb_true_r in F. exact F.
  - intros q x Hq Hx E. rewrite parameters_after in Hq. apply survivor in Hq as [_ Hq].
    rewrite areas_after. apply survives; [exact Hx |].
    pose proof (none_doomed _ _ x Hq Hx) as F. cbn beta in F.
    rewrite E, Z.eqb_refl, andb_true_r in F. exact F.
  - intros s q Hs Hq E. rewrite submissions_after in Hs. apply survivor in Hs as [_ Hs].
    rewrite parameters_after. apply survives; [exact Hq |].
    pose proof (none_doomed _ _ q Hs Hq) as F. cbn beta in F.
    rewrite E, Z.eqb_refl, andb_true_r in F. exact F.
  - intros t p Ht Hp E. rewrite progress_after in Ht. apply survivor in Ht as [_ Ht].
    rewrite programs_after. apply survives; [exact Hp |].
    pose proof (none_doomed _ _ p Ht Hp) as F. cbn beta in F.
    rewrite E, Z.eqb_refl, andb_true_r in F. exact F.
  - intros t x Ht Hx E. rewrite progress_after in Ht. apply survivor in Ht as [Ht _].
    apply survivor in Ht as [_ Ht].
    rewrite areas_after. apply survives; [exact Hx |].
    pose proof (none_doomed _ _ x Ht Hx) as F. cbn beta in F.
    rewrite E in F. cbn [refers] in F. rewrite Z.eqb_refl, andb_true_r in F. exact F.
  - intros n' s Hn Hs E. rewrite notifications_after, map_map in Hn.
    apply in_map_iff in Hn as (n & <- & Hn).
    rewrite submissions_after. apply survives; [exact Hs |].
    destruct (existsb _ (submissions db)) eqn:S.
    + destruct (existsb _ (areas db)); discriminate E.
    + assert (E' : Notification.related_submission_id n = Some (Submission.id s))
        by (destruct (existsb _ (areas db)); exact E).
      pose proof (none_doomed _ _ s S Hs) as F. cbn beta in F.
      rewrite E' in F. cbn [refers] in F. rewrite Z.eqb_refl, andb_true_r in F. exact F.
  - intros n' x Hn Hx E. rewrite notifications_after, map_map in Hn.
    apply in_map_iff in Hn as (n & <- & Hn).
    rewrite areas_after. apply survives; [exact Hx |].
    match type of E with
    | context [existsb ?f (areas db)] => destruct (existsb f (areas db)) eqn:X
    end; [discriminate E |].
    assert (E' : Notification.related_area_id n = Some (Area.id x))
      by (destruct (existsb _ (submissions db)); exact E).
    assert (X' : existsb (fun y => Spec.doomed_area a db y
                                   && refers (Notification.related_area_id n) (Area.id y))
                         (areas db) = false).
    { destruct (existsb _ (submissions db)); exact X. }
    pose proof (none_doomed _ _ x X' Hx) as F. cbn beta in F.
    rewrite E' in F. cbn [refers] in F. rewrite Z.eqb_refl, andb_true_r in F. exact F.
Qed.

End IntegrityFacts.

(* ===================================================================== *)
(** * The progress of nothing *)
(* ===================================================================== *)

Module ZeroFacts.

Import ProgressTracking.

(** X30: [calculate_progress] stores exactly 0.0 when no parameter is completed
    or when the total is not positive, whatever the other count is. *)
Theorem calculate_progress_of_nothing :
  forall (now : Py.datetime) (p : ProgressTracking.t),
    completed_parameters p = 0 \/ total_parameters p <= 0 ->
    progress_percentage (calculate_progress now p) = 0%float.
Proof.
  intros now p H. cbn [calculate_progress progress_percentage].
  destruct (Z.ltb_spec 0 (total_parameters p)) as [Hpos | Hneg]; [| reflexivity].
  destruct H as [H | H]; [| lia]. rewrite H.
  destruct (total_parameters p) as [| t | t]; try lia. reflexivity.
Qed.

Lemma calculate_progress_of_nothing_witness :
  progress_percentage
    (calculate_progress Samples.noon (ProgressTracking.mk 1 10 None 7 0 50%float None))
  = 0%float.
Proof.
  apply (calculate_progress_of_nothing Samples.noon
           (ProgressTracking.mk 1 10 None 7 0 50%float None)).
  left. reflexivity.
Defined.

End ZeroFacts.
